(** * kebapi: the request authorisation pipeline

  A shallow embedding of the routing, authentication and authorisation
  code of the kebapi REST server (server.js, api.js, auth.js, roles.js,
  errors.js, helper-env.js), followed by the properties proved about it.

  Conventions of the embedding:
  - JavaScript values are the inductive type [jsval].  Numbers are the
    doubles of integer value, the two infinities and NaN: [Fin z] stands
    for the double of value [z], and what produces a number from digits
    ([parseInt]) rounds as a double does.  Ids and role ids are INT columns
    and decimal path segments.  Characters are [ascii] code units.
  - An object is a list of own data properties in insertion order and
    inherits from [Object.prototype], as an object literal or the result
    of [JSON.parse] does; no value is a function.
  - A rejected promise or a thrown exception is the left injection of a
    sum; [async]/[await] is sequential composition.
  - Everything outside the server (the jsonwebtoken primitives, the data
    layer, the body parsers, the database backed handlers) is a field of
    the record [World]. *)

From Stdlib Require Import ZArith String Ascii List Bool Lia.
Import ListNotations.
Local Open Scope string_scope.
Local Open Scope Z_scope.
Set Warnings "-register-all".

(* ------------------------------------------------------------------ *)
(** ** JavaScript values *)

Module Js.

Inductive jsnum : Type :=
| Fin (z : Z)
| Inf (negative : bool)
| NaN.

(** Arrays are left out: the router builds no array argument, and a JSON
    body that is one is only handed to the Action it is posted to. *)
Inductive jsval : Type :=
| JUndefined
| JNull
| JBool (b : bool)
| JNum (n : jsnum)
| JStr (s : string)
| JObj (fields : list (string * jsval)).

Definition jsnum_eqb (a b : jsnum) : bool :=
  match a, b with
  | Fin x, Fin y => x =? y
  | Inf x, Inf y => Bool.eqb x y
  | _, _ => false            (* NaN is not equal to anything *)
  end.

(** [a === b].  Objects compare by identity, which the embedding does not
    track; the server only uses [===] on primitive values. *)
Definition strict_eq (a b : jsval) : bool :=
  match a, b with
  | JUndefined, JUndefined => true
  | JNull, JNull => true
  | JBool x, JBool y => Bool.eqb x y
  | JNum x, JNum y => jsnum_eqb x y
  | JStr x, JStr y => String.eqb x y
  | _, _ => false
  end.

(** ToBoolean *)
Definition truthy (v : jsval) : bool :=
  match v with
  | JUndefined | JNull => false
  | JBool b => b
  | JNum (Fin z) => negb (z =? 0)
  | JNum (Inf _) => true
  | JNum NaN => false
  | JStr s => negb (String.eqb s "")
  | JObj _ => true
  end.

Fixpoint assoc (k : string) (fields : list (string * jsval)) : option jsval :=
  match fields with
  | [] => None
  | (k', v) :: rest => if String.eqb k k' then Some v else assoc k rest
  end.

(** The own data property [k] of [v]; [None] where the receiver has no
    own data properties at all. *)
Definition own_property (v : jsval) (k : string) : option jsval :=
  match v with
  | JObj fields => assoc k fields
  | _ => None
  end.

(** [v.k] for a data property [k] that no prototype defines: [undefined]
    when absent.  Reading a property of undefined or null throws, which
    callers handle before calling this. *)
Definition get (v : jsval) (k : string) : jsval :=
  match own_property v k with
  | Some x => x
  | None => JUndefined
  end.

Definition is_digit (c : ascii) : bool :=
  let n := Z.of_nat (nat_of_ascii c) in (48 <=? n) && (n <=? 57).

Definition digit_value (c : ascii) : Z := Z.of_nat (nat_of_ascii c) - 48.

(** Line terminators of the regular expression grammar within the code
    units modelled: LF and CR. *)
Definition is_line_terminator (c : ascii) : bool :=
  let n := nat_of_ascii c in (Nat.eqb n 10) || (Nat.eqb n 13).

(** White space skipped by [parseInt]: TAB, LF, VT, FF, CR, SP, NBSP. *)
Definition is_str_whitespace (c : ascii) : bool :=
  let n := Z.of_nat (nat_of_ascii c) in
  ((9 <=? n) && (n <=? 13)) || (n =? 32) || (n =? 160).

Fixpoint skip_whitespace (s : string) : string :=
  match s with
  | String c r => if is_str_whitespace c then skip_whitespace r else s
  | EmptyString => s
  end.

(** Value of the longest prefix of decimal digits, continuing [acc]. *)
Fixpoint digits_prefix_value (acc : Z) (s : string) : Z :=
  match s with
  | String c r =>
      if is_digit c then digits_prefix_value (10 * acc + digit_value c) r
      else acc
  | EmptyString => acc
  end.

Definition starts_with_digit (s : string) : bool :=
  match s with
  | String c _ => is_digit c
  | EmptyString => false
  end.

(** The double nearest to the integer [z]: 53 significant bits, a tie
    going to the even significand, and an infinity once the rounded value
    reaches 2^1024. *)
Definition to_double (z : Z) : jsnum :=
  let a := Z.abs z in
  let e := Z.log2 a - 52 in
  if e <=? 0 then Fin z
  else
    let q := a / 2 ^ e in
    let r := a mod 2 ^ e in
    let half := 2 ^ (e - 1) in
    let q' := if (half <? r) || ((r =? half) && Z.odd q) then q + 1 else q in
    let v := q' * 2 ^ e in
    if 2 ^ 1024 <=? v then Inf (z <? 0) else Fin (Z.sgn z * v).

(** [parseInt(s, 10)] on a string: white space, a sign, then the longest
    run of decimal digits, whose value is rounded to a double (to the
    nearest one, as the engine of Node.js does also past the twentieth
    digit, where the language leaves the rounding to the engine). *)
Definition parseInt_string (s : string) : jsnum :=
  let s1 := skip_whitespace s in
  let '(sign, s2) :=
    match s1 with
    | String "-"%char r => (-1, r)
    | String "+"%char r => (1, r)
    | _ => (1, s1)
    end in
  if starts_with_digit s2 then to_double (sign * digits_prefix_value 0 s2)
  else NaN.

(** The number of decimal digits of [a]. *)
Fixpoint decimal_length (fuel : nat) (a : Z) : Z :=
  match fuel with
  | O => 1
  | S f => if a <? 10 then 1 else 1 + decimal_length f (a / 10)
  end.

(** [Number::toString] prints the fewest digits that, with a power of
    ten, read back as the number.  With [k] digits and [L] digits before
    the decimal point the candidates are the two multiples of 10^(L-k)
    around [a]; the result is the first digit of the one found. *)
Fixpoint shortest_digits_lead (fuel : nat) (k L a : Z) : Z :=
  match fuel with
  | O => a / 10 ^ (L - 1)
  | S f =>
      let e := L - k in
      let lo := a / 10 ^ e in
      if jsnum_eqb (to_double (lo * 10 ^ e)) (Fin a)
      then lo / 10 ^ (k - 1)
      else if (lo + 1 <? 10 ^ k)
              && jsnum_eqb (to_double ((lo + 1) * 10 ^ e)) (Fin a)
      then (lo + 1) / 10 ^ (k - 1)
      else shortest_digits_lead f (k + 1) L a
  end.

(** The first digit that [Number::toString] prints for the double of
    value [a], positive. *)
Definition leading_digit (a : Z) : Z :=
  let L := decimal_length (Z.to_nat (Z.log2 a)) a in
  if jsnum_eqb (to_double (10 ^ L)) (Fin a) then 1
  else shortest_digits_lead 17 1 L a.

(** [parseInt(n, 10)] on a number, which is printed first.  Below 10^21
    the digits printed read back as the number; from 10^21 on the number
    prints in exponent notation, of which [parseInt] reads the first
    digit; "Infinity" and "NaN" start with no digit. *)
Definition parseInt_number (n : jsnum) : jsnum :=
  match n with
  | Fin z =>
      if Z.abs z <? 10 ^ 21 then to_double z
      else Fin (Z.sgn z * leading_digit (Z.abs z))
  | _ => NaN
  end.

(** [parseInt(v, 10)]: the argument is first converted to a string.
    undefined, null and booleans print as text without a leading digit,
    and so does an object through [Object.prototype.toString]; an object
    with an own [toString] has no callable conversion left ([valueOf]
    returns the object itself or is shadowed as well), which is a
    TypeError: [None]. *)
Definition parseInt (v : jsval) : option jsnum :=
  match v with
  | JStr s => Some (parseInt_string s)
  | JNum n => Some (parseInt_number n)
  | JObj fields =>
      match assoc "toString" fields with
      | Some _ => None
      | None => Some NaN
      end
  | _ => Some NaN
  end.

(** [/^[0-9]*$/gm] has a match in [s]: with the [m] flag the anchors match
    at line boundaries, so some line of [s] consists of digits only (an
    empty line included).  [ok] tells whether the line read so far does. *)
Fixpoint some_line_of_digits (ok : bool) (s : string) : bool :=
  match s with
  | EmptyString => ok
  | String c r =>
      if is_line_terminator c then ok || some_line_of_digits true r
      else some_line_of_digits (ok && is_digit c) r
  end.

Definition all_digits (s : string) : bool :=
  forallb is_digit (list_ascii_of_string s).

(** The primitives that [JSON.stringify] followed by [JSON.parse] gives
    back unchanged: null, the booleans, the finite numbers and the strings
    (undefined is dropped, NaN and the infinities become null). *)
Definition json_primitive (v : jsval) : bool :=
  match v with
  | JNull | JBool _ | JStr _ | JNum (Fin _) => true
  | JUndefined | JNum (Inf _) | JNum NaN | JObj _ => false
  end.

End Js.

(* ------------------------------------------------------------------ *)
(** ** errors.js *)

Module Errors.

(** A thrown value: the properties of an Error object that the server
    reads. *)
Record exn : Type := mkExn {
  name : string;
  code : option string;
  message : string
}.

(** [new CodedError(code, message)] *)
Definition CodedError (c m : string) : exn :=
  {| name := "CodedError"; code := Some c; message := m |}.

(** [new Error(message)] *)
Definition Error (m : string) : exn :=
  {| name := "Error"; code := None; message := m |}.

(** The TypeError raised by the engine on a property read of undefined
    or null. *)
Definition TypeError (m : string) : exn :=
  {| name := "TypeError"; code := None; message := m |}.

(** [err.code && err.code === c] *)
Definition has_code (e : exn) (c : string) : bool :=
  match code e with
  | Some c' => negb (String.eqb c' "") && String.eqb c' c
  | None => false
  end.

Definition result (A : Type) : Type := (exn + A)%type.

End Errors.

(* ------------------------------------------------------------------ *)
(** ** roles.js *)

Module Roles.

Inductive RoleName : Type := ADMIN | USER | EVERYONE.

(** The frozen [Role] object. *)
Definition Role (r : RoleName) : Z :=
  match r with
  | ADMIN => 0
  | USER => 1
  | EVERYONE => 99
  end.

End Roles.

(* ------------------------------------------------------------------ *)
(** ** config.js and helper-env.js *)

Module Config.

(** The settings the modelled code reads; each comes from the process
    environment or falls back to the default below.  The size limit is
    what [parseInt] read from its variable, an integer; the token expiry
    is the text of its variable as it stands, or the number 86400. *)
Record Config : Type := mkConfig {
  NODE_ENV : string;
  KEBAPI_SERVER_POST_MAX_SIZE : Z;
  KEBAPI_AUTH_SECRET : string;
  KEBAPI_AUTH_TOKEN_EXPIRY_MS : Js.jsval
}.

Definition defaults : Config :=
  {| NODE_ENV := "development";
     KEBAPI_SERVER_POST_MAX_SIZE := 16 * 1024;
     KEBAPI_AUTH_SECRET := "c0876970129d079ea69c96c30475b557";
     KEBAPI_AUTH_TOKEN_EXPIRY_MS := Js.JNum (Js.Fin 86400) |}.

(** [process.env.KEBAPI_AUTH_TOKEN_EXPIRY_MS || 86400] *)
Definition token_expiry_of (variable : option string) : Js.jsval :=
  match variable with
  | Some text =>
      if String.eqb text "" then Js.JNum (Js.Fin 86400) else Js.JStr text
  | None => Js.JNum (Js.Fin 86400)
  end.

(** helper-env.js *)
Definition isDev (c : Config) : bool := String.eqb (NODE_ENV c) "development".

End Config.

(* ------------------------------------------------------------------ *)
(** ** auth.js: token issue and verification *)

Module Auth.
Import Js Errors Config.

(** The object [verifyToken] returns.  The three optional keys are spread
    in only when their value is truthy. *)
Record VerifyResult : Type := mkVerifyResult {
  verified : bool;
  payload : option jsval;
  rejectReason : option string;
  rejectErrorType : option string
}.

(** [...v ? { key: v } : {}] for a string [v] *)
Definition spread_string (v : string) : option string :=
  if String.eqb v "" then None else Some v.

(** [...v ? { key: v } : {}] for a value [v] *)
Definition spread_value (v : jsval) : option jsval :=
  if truthy v then Some v else None.

Section Primitives.

(** The representation of a signed token is the signing library's own. *)
Variable Token : Type.

(** The promisified [jwt.sign(payload, secret, {expiresIn})] and
    [jwt.verify(token, secret)] of the jsonwebtoken package.  Both read the
    clock, in seconds, passed as the last argument; [expiresIn] is a number
    of seconds or the text of a time span. *)
Record Jwt : Type := mkJwt {
  sign : jsval -> string -> jsval -> Z -> result Token;
  verify : Token -> string -> Z -> result jsval
}.

Variable jwt : Jwt.
Variable cfg : Config.

Definition getToken (now : Z) (id : jsval) : result Token :=
  sign jwt (JObj [("id", id)]) (KEBAPI_AUTH_SECRET cfg)
       (KEBAPI_AUTH_TOKEN_EXPIRY_MS cfg) now.

Definition expected_reject_names : list string :=
  ["JsonWebTokenError"; "TokenExpiredError"].

Definition verifyToken (now : Z) (token : Token) : result VerifyResult :=
  match verify jwt token (KEBAPI_AUTH_SECRET cfg) now with
  | inr p =>
      inr {| verified := true;
             payload := spread_value p;
             rejectReason := None;
             rejectErrorType := None |}
  | inl err =>
      if negb (existsb (String.eqb (name err)) expected_reject_names)
      then inl err                      (* not an expected state: rethrown *)
      else inr {| verified := false;
                  payload := None;
                  rejectReason := spread_string (message err);
                  rejectErrorType := spread_string (name err) |}
  end.

End Primitives.

Arguments sign {Token}.
Arguments verify {Token}.
Arguments getToken {Token}.
Arguments verifyToken {Token}.

End Auth.

(* ------------------------------------------------------------------ *)
(** ** api.js (and the registration block of tests.js) *)

Module Api.
Import Js Errors Roles.

(** The functions the router can hand to the pipeline: the exports of
    api.js and [tests.runAdminTests].  A constructor stands for the
    function object, which is what carries the permission properties. *)
Inductive Action : Type :=
| responseBadRequest | responseUnauthorised | responseForbidden
| responseNotFound | responsePayloadTooLarge | responseInternalServerError
| getVenue | getVenues
| registerUser | activateUser | deactivateUser | getUser | getUsers | loginUser
| getUserRole
| getUserAccountStatus
| getUserFavourites | addUserFavourite | removeUserFavourite
| resetTestDB | getHash | getToken | verifyToken
| runAdminTests.

Scheme Equality for Action.

Module responseCodes.
Definition OK : Z := 200.
Definition BadRequest : Z := 400.
Definition Unauthorised : Z := 401.
Definition Forbidden : Z := 403.
Definition NotFound : Z := 404.
Definition PayloadTooLarge : Z := 413.
Definition InternalServerError : Z := 500.
End responseCodes.

(** One row of the [permissions] arrays. *)
Record Permission : Type := mkPermission {
  action : Action;
  minRole : Z;
  hasOwner : bool
}.

(** api.js, [initialise] *)
Definition permissions : list Permission :=
  [ (* role admin *)
    mkPermission deactivateUser (Role ADMIN) true;
    mkPermission activateUser (Role ADMIN) true;
    mkPermission getUserAccountStatus (Role ADMIN) true;
    mkPermission getUserRole (Role ADMIN) true;
    mkPermission resetTestDB (Role ADMIN) false;
    mkPermission getHash (Role ADMIN) false;
    mkPermission getToken (Role ADMIN) false;
    mkPermission verifyToken (Role ADMIN) false;
    mkPermission getUsers (Role ADMIN) false;
    (* role user *)
    mkPermission getUser (Role USER) true;
    mkPermission getUserFavourites (Role USER) true;
    mkPermission addUserFavourite (Role USER) true;
    mkPermission removeUserFavourite (Role USER) true;
    (* role everyone *)
    mkPermission getVenue (Role EVERYONE) false;
    mkPermission getVenues (Role EVERYONE) false;
    mkPermission loginUser (Role EVERYONE) false;
    mkPermission registerUser (Role EVERYONE) false;
    mkPermission responseBadRequest (Role EVERYONE) false;
    mkPermission responseForbidden (Role EVERYONE) false;
    mkPermission responseNotFound (Role EVERYONE) false;
    mkPermission responsePayloadTooLarge (Role EVERYONE) false;
    mkPermission responseInternalServerError (Role EVERYONE) false ].

(** tests.js, [initialise] *)
Definition tests_permissions : list Permission :=
  [ mkPermission runAdminTests (Role ADMIN) false ].

(** The two properties injected on a function object; both start out
    undefined. *)
Record Props : Type := mkProps {
  prop_minRole : option Z;
  prop_hasOwner : jsval
}.

Definition Store : Type := Action -> Props.

Definition no_props : Store :=
  fun _ => {| prop_minRole := None; prop_hasOwner := JUndefined |}.

(** [item.action.minRole = item.minRole; item.action.hasOwner = item.hasOwner] *)
Definition assign (st : Store) (item : Permission) : Store :=
  fun a =>
    if Action_beq a (action item)
    then {| prop_minRole := Some (minRole item);
            prop_hasOwner := JBool (hasOwner item) |}
    else st a.

(** [for (const item of permissions) { ... }] *)
Definition initialise (items : list Permission) (st : Store) : Store :=
  fold_left assign items st.

(** The function properties once both modules are loaded. *)
Definition registry : Store :=
  initialise tests_permissions (initialise permissions no_props).

Definition formatResult (responseCode : Z) (result : jsval) : jsval :=
  let responseStatus :=
    if responseCode =? responseCodes.OK then "OK"
    else if responseCode =? responseCodes.BadRequest then "Bad Request"
    else if responseCode =? responseCodes.Unauthorised then "Unauthorised"
    else if responseCode =? responseCodes.Forbidden then "Forbidden"
    else if responseCode =? responseCodes.NotFound then "Not Found"
    else if responseCode =? responseCodes.PayloadTooLarge
         then "Payload Too Large"
    else if responseCode =? responseCodes.InternalServerError
         then "Internal Server Error"
    else "Unknown" in
  JObj [ ("responseCode", JNum (Fin responseCode));
         ("responseStatus", JStr responseStatus);
         ("response", result) ].

(** A parameter declared [msg = {}]: the default replaces undefined only. *)
Definition default_object (msg : jsval) : jsval :=
  match msg with
  | JUndefined => JObj []
  | _ => msg
  end.

(** The six response helpers, by response code. *)
Definition response_helper (responseCode : Z) (msg : jsval) : jsval :=
  formatResult responseCode (default_object msg).

(** The body of a response helper when it is the routed Action; the other
    Actions run against the data layer or the auth module. *)
Definition helper_code (a : Action) : option Z :=
  match a with
  | responseBadRequest => Some responseCodes.BadRequest
  | responseUnauthorised => Some responseCodes.Unauthorised
  | responseForbidden => Some responseCodes.Forbidden
  | responseNotFound => Some responseCodes.NotFound
  | responsePayloadTooLarge => Some responseCodes.PayloadTooLarge
  | responseInternalServerError => Some responseCodes.InternalServerError
  | _ => None
  end.

End Api.

(* ------------------------------------------------------------------ *)
(** ** server.js *)

Module Server.
Import Js Errors Roles Config Api.

(** *** The world outside the server *)

Module Dal.
(** A row of [SELECT r.id, role FROM lookup_roles ...]. *)
Record RoleRow : Type := mkRoleRow {
  id : Z;
  role : string
}.
End Dal.

(** [url.parse(req.url, true)]: the path of the request target and its
    parsed query string. *)
Record ParsedUrl : Type := mkParsedUrl {
  pathname : string;
  query : jsval
}.

Record Request : Type := mkRequest {
  method : string;
  url : ParsedUrl;
  headers : list (string * string);   (* names in lower case *)
  body : string                       (* the chunks received, concatenated *)
}.

Record World : Type := mkWorld {
  config : Config;
  now : Z;                                      (* the clock, in seconds *)
  jwt : Auth.Jwt string;
  qs_parse : string -> jsval;
  JSON_parse : string -> option jsval;          (* None: SyntaxError *)
  dal_checkDBExists : result jsval;
  dal_setTargetDB : result jsval;
  dal_checkTablesExist : result jsval;
  dal_getUserRole : jsval -> result (list Dal.RoleRow);
  (** the Actions that query the data layer or the auth module *)
  api_call : Action -> jsval -> result jsval
}.

(** *** Effects

    A computation yields the calls it made, in order, and either a value
    or what it threw.  [Eff exn] is a function that may throw; [Eff jsval]
    is the body of the request handler, where every [catch] block stores a
    response in [result] before it rethrows, so that leaving the handler
    early amounts to answering with that response. *)

Inductive Event : Type :=
| CheckDB
| GetTokenFromRequest
| VerifyToken (token : string)
| GetUserRole (id : jsval)
| CheckOwnership
| Execute (a : Action) (args : jsval).

Definition Eff (E A : Type) : Type := (list Event * (E + A))%type.

Definition ret {E A} (a : A) : Eff E A := ([], inr a).

Definition raise {E A} (e : E) : Eff E A := ([], inl e).

Definition bind {E A B} (m : Eff E A) (f : A -> Eff E B) : Eff E B :=
  match m with
  | (t, inl e) => (t, inl e)
  | (t, inr a) => let '(t', r) := f a in ((t ++ t')%list, r)
  end.

Definition emit {E} (ev : Event) : Eff E unit := ([ev], inr tt).

Definition lift {E A} (r : E + A) : Eff E A := ([], r).

(** [try { x = await m } catch (err) { result = on_error(err); throw err }] *)
Definition guard {A} (m : Eff exn A) (on_error : exn -> jsval) : Eff jsval A :=
  match m with
  | (t, inl err) => (t, inl (on_error err))
  | (t, inr a) => (t, inr a)
  end.

(** The response sent in the end is [result], however the body was left. *)
Definition finish (m : Eff jsval jsval) : list Event * jsval :=
  match m with
  | (t, inl r) => (t, r)
  | (t, inr r) => (t, r)
  end.

Declare Scope eff_scope.
Delimit Scope eff_scope with eff.
Notation "x <- m ;; k" := (bind m (fun x => k))
  (at level 61, m at next level, right associativity) : eff_scope.
Notation "m ;;; k" := (bind m (fun _ => k))
  (at level 61, right associativity) : eff_scope.
Local Open Scope eff_scope.

Definition M : Type -> Type := Eff exn.
Definition Handler : Type -> Type := Eff jsval.

(** *** Helpers *)

Fixpoint header_lookup (k : string) (hs : list (string * string)) : option string :=
  match hs with
  | [] => None
  | (k', v) :: rest => if String.eqb k k' then Some v else header_lookup k rest
  end.

(** [req.headers[k]] *)
Definition header (req : Request) (k : string) : option string :=
  header_lookup k (headers req).

(** [s.split(sep)] for a one character separator *)
Fixpoint split (sep : ascii) (s : string) : list string :=
  match s with
  | EmptyString => [EmptyString]
  | String c r =>
      if Ascii.eqb c sep then EmptyString :: split sep r
      else match split sep r with
           | h :: t => String c h :: t
           | [] => [String c EmptyString]
           end
  end.

(** [parsedUrl.pathname.split("/").filter(v => v !== "")] *)
Definition pathSegments_of (u : ParsedUrl) : list string :=
  filter (fun v => negb (String.eqb v "")) (split "/"%char (pathname u)).

(** [pathSegments[i]] *)
Definition seg (segs : list string) (i : nat) : jsval :=
  match nth_error segs i with
  | Some s => JStr s
  | None => JUndefined
  end.

Definition isIdFormat (value : jsval) : bool :=
  match value with
  | JNum _ => true                            (* typeof value === "number" *)
  | JStr s => some_line_of_digits true s      (* value.match(/^[0-9]*$/gm) *)
  | _ => false
  end.

(** *** getPostData *)

Inductive PostData : Type :=
| Resolved (parsedData : jsval)
| Rejected (reason : string)
| Crashed.   (* JSON.parse throws inside the 'end' listener, outside any
                promise: an uncaught exception, and no response to rely on *)

Definition APP_JSON : string := "application/json".
Definition APP_FORM_URLENCODED : string := "application/x-www-form-urlencoded".

(** [data.length > KEBAPI_SERVER_POST_MAX_SIZE] is tested in the 'data'
    listener, after each chunk: with no chunk, for an empty body, it is
    never tested; otherwise the test on the whole body decides, since
    [data] only grows. *)
Definition size_limit_exceeded (w : World) (req : Request) : bool :=
  negb (String.eqb (body req) "")
  && (Z.of_nat (String.length (body req))
      >? KEBAPI_SERVER_POST_MAX_SIZE (config w)).

(** A promise settles once: the rejection for the content type comes
    first, the one for the size while the chunks arrive, the resolution at
    'end'.  The 'end' listener runs whatever was rejected before, so a
    body of the JSON type that does not parse throws there also when it is
    too long; a content type that was rejected selects no parser. *)
Definition getPostData (w : World) (req : Request) : PostData :=
  let contentType := header req "content-type" in
  let accepted :=
    match contentType with
    | Some ct => String.eqb ct APP_FORM_URLENCODED || String.eqb ct APP_JSON
    | None => false
    end in
  if negb accepted then
    Rejected ("POST data content-type must be 'application/x-www-form-urlencoded' or 'application/json', instead received '"
              ++ match contentType with
                 | Some ct => ct
                 | None => "undefined"
                 end
              ++ "'")
  else
    let parsedData :=
      match contentType with
      | Some ct =>
          if String.eqb ct APP_FORM_URLENCODED
          then Some (qs_parse w (body req))
          else if String.eqb ct APP_JSON then JSON_parse w (body req)
          else Some JUndefined
      | None => Some JUndefined
      end in
    match parsedData with
    | None => Crashed
    | Some v =>
        if size_limit_exceeded w req
        then Rejected "POST data size limit exceeded. Too much data sent."
        else Resolved v
    end.

(** *** route *)

(** What [route] returns: the function to execute and its argument. *)
Record Act : Type := mkAct {
  action : Action;
  args : jsval
}.

(** The discriminant of [switch (cond ? pathSegments[0] : undefined)] *)
Definition discriminant (cond : bool) (segs : list string) : jsval :=
  if cond then seg segs 0 else JUndefined.

(** [case label:] *)
Definition is_case (d : jsval) (label : string) : bool :=
  strict_eq d (JStr label).

Definition undefined_yet (cur : option Act) : bool :=
  match cur with
  | None => true
  | Some _ => false
  end.

(** Routes matched in the development environment only. *)
Definition route_dev_GET (dev : bool) (meth : string) (segs : list string)
    (cur : option Act) : option Act :=
  let d := discriminant (dev && String.eqb meth "GET") segs in
  if is_case d "gettoken" then
    if isIdFormat (seg segs 1)
    then Some (mkAct getToken (JObj [("id", seg segs 1)]))
    else cur
  else if is_case d "verifytoken" then
    if truthy (seg segs 1)
    then Some (mkAct verifyToken (JObj [("token", seg segs 1)]))
    else cur
  else if is_case d "gethash" then
    if truthy (seg segs 1)
    then Some (mkAct getHash (JObj [("value", seg segs 1)]))
    else cur
  else if is_case d "resettestdb" then
    Some (mkAct resetTestDB (JObj []))
  else if is_case d "tests" then
    if strict_eq (seg segs 1) (JStr "admin")
    then Some (mkAct runAdminTests (JObj []))
    else cur
  else cur.

Definition route_GET (meth : string) (segs : list string)
    (queryStringParameters : jsval) (cur : option Act) : option Act :=
  let d := discriminant (undefined_yet cur && String.eqb meth "GET") segs in
  if is_case d "venues" then
    if isIdFormat (seg segs 1)
    then Some (mkAct getVenue (JObj [("id", seg segs 1)]))
    else Some (mkAct getVenues queryStringParameters)
  else if is_case d "users" then
    if isIdFormat (seg segs 1) then
      let id := seg segs 1 in
      if strict_eq (seg segs 2) (JStr "favourites")
      then Some (mkAct getUserFavourites (JObj [("id", id)]))
      else if strict_eq (seg segs 2) (JStr "role")
      then Some (mkAct getUserRole (JObj [("id", id)]))
      else if strict_eq (seg segs 2) (JStr "status")
      then Some (mkAct getUserAccountStatus (JObj [("id", id)]))
      else Some (mkAct getUser (JObj [("id", id)]))
    else Some (mkAct getUsers queryStringParameters)
  else cur.

Definition route_POST (meth : string) (segs : list string)
    (postData : jsval) (cur : option Act) : option Act :=
  let d := discriminant (undefined_yet cur && String.eqb meth "POST") segs in
  if is_case d "users" then
    if strict_eq (seg segs 1) (JStr "login")
    then Some (mkAct loginUser postData)
    else if strict_eq (seg segs 1) (JStr "register")
    then Some (mkAct registerUser postData)
    else if isIdFormat (seg segs 1) then
      let id := seg segs 1 in
      if strict_eq (seg segs 2) (JStr "favourites") then
        if isIdFormat (seg segs 3)
        then Some (mkAct addUserFavourite
                         (JObj [("id", id); ("venueId", seg segs 3)]))
        else cur
      else Some (mkAct activateUser (JObj [("id", id)]))
    else cur
  else cur.

Definition route_DELETE (meth : string) (segs : list string)
    (cur : option Act) : option Act :=
  let d := discriminant (undefined_yet cur && String.eqb meth "DELETE") segs in
  if is_case d "users" then
    if isIdFormat (seg segs 1) then
      let id := seg segs 1 in
      if strict_eq (seg segs 2) (JStr "favourites") then
        if isIdFormat (seg segs 3)
        then Some (mkAct removeUserFavourite
                         (JObj [("id", id); ("venueId", seg segs 3)]))
        else cur
      else Some (mkAct deactivateUser (JObj [("id", id)]))
    else cur
  else cur.

(** The four [switch] statements in sequence, on the variables [action]
    and [args] that start out undefined. *)
Definition matched (dev : bool) (req : Request) (postData : jsval) : option Act :=
  let segs := pathSegments_of (url req) in
  route_DELETE (method req) segs
    (route_POST (method req) segs postData
       (route_GET (method req) segs (query (url req))
          (route_dev_GET dev (method req) segs None))).

(** [route(req, postData = {})] *)
Definition route (w : World) (req : Request) (postData : jsval) : Act :=
  match matched (isDev (config w)) req (default_object postData) with
  | Some act => act
  | None => mkAct responseNotFound JUndefined
  end.

(** *** Token, role and ownership checks *)

Section Pipeline.

(** The permission properties found on the function objects. *)
Variable st : Store.
Variable w : World.

Definition getTokenFromRequest (req : Request) : M string :=
  emit GetTokenFromRequest ;;;
  match header req "x-access-token" with
  | Some requestToken =>
      if String.eqb requestToken ""
      then raise (CodedError "KE140" "Token missing from header.")
      else ret requestToken
  | None => raise (CodedError "KE140" "Token missing from header.")
  end.

Definition reject_message (reason : option string) : string :=
  "Invalid token. Reject reason: '"
  ++ match reason with Some r => r | None => "undefined" end
  ++ "'.".

Definition reject_code (rejectErrorType : option string) : option string :=
  match rejectErrorType with
  | Some t =>
      if String.eqb t "JsonWebTokenError" then Some "KE122"
      else if String.eqb t "TokenExpiredError" then Some "KE123"
      else None
  | None => None
  end.

Definition getIdFromToken (token : string) : M jsval :=
  emit (VerifyToken token) ;;;
  verifyResult <- lift (Auth.verifyToken (jwt w) (config w) (now w) token) ;;
  if Auth.verified verifyResult then
    match Auth.payload verifyResult with
    | None => raise (TypeError "Cannot read property 'id' of undefined")
    | Some payload =>
        let id := get payload "id" in
        if negb (isIdFormat id)
        then raise (CodedError "KE120" "Invalid token. Id missing from payload.")
        else ret id
    end
  else
    match reject_code (Auth.rejectErrorType verifyResult) with
    | Some code =>
        raise (CodedError code (reject_message (Auth.rejectReason verifyResult)))
    | None =>
        raise (Error (reject_message (Auth.rejectReason verifyResult)))
    end.

Record RolePermission : Type := mkRolePermission {
  hasPermission : bool;
  role : Dal.RoleRow
}.

(** [role.id === Role.ADMIN || role.id <= act.action.minRole]; a comparison
    with undefined is false. *)
Definition role_covers (role_id : Z) (minRole : option Z) : bool :=
  (role_id =? Role ADMIN)
  || match minRole with
     | Some m => role_id <=? m
     | None => false
     end.

(** The id is interpolated into the message of KE130, which is only
    logged. *)
Definition checkRoleGrantsPermissionForAction (id : jsval) (act : Act)
    : M RolePermission :=
  emit (GetUserRole id) ;;;
  roleResult <- lift (dal_getUserRole w id) ;;
  match roleResult with
  | [] =>
      raise (CodedError "KE130"
               "Attempt to retrieve user role for id returned no role.")
  | role :: _ =>
      ret {| hasPermission :=
               role_covers (Dal.id role) (prop_minRole (st (action act)));
             role := role |}
  end.

(** [a.hasOwnProperty && a.hasOwnProperty('id')].  The property read
    throws on undefined and null.  An object without an own property named
    [hasOwnProperty] inherits the method of [Object.prototype], and so does
    the wrapper of a boolean, a number or a string, which has no own [id].
    An own [hasOwnProperty] shadows the method: a falsy one ends the
    conjunction, a truthy one is called and is not a function. *)
Definition has_own_id (a : jsval) : result bool :=
  match a with
  | JUndefined | JNull =>
      inl (TypeError "Cannot read property 'hasOwnProperty' of undefined")
  | JObj fields =>
      match assoc "hasOwnProperty" fields with
      | Some shadow =>
          if truthy shadow
          then inl (TypeError "act.args.hasOwnProperty is not a function")
          else inr false
      | None =>
          match assoc "id" fields with
          | Some _ => inr true
          | None => inr false
          end
      end
  | JBool _ | JNum _ | JStr _ => inr false
  end.

Definition checkOwnershipGrantsPermissionForAction (id : jsval) (act : Act)
    : M bool :=
  emit CheckOwnership ;;;
  let hasOwner := prop_hasOwner (st (action act)) in
  if strict_eq hasOwner JUndefined
     || (negb (strict_eq hasOwner (JBool true))
         && negb (strict_eq hasOwner (JBool false)))
  then raise (CodedError "KE110"
         "Cannot verify owner. Action does not have an owner flag properly set.")
  else if strict_eq hasOwner (JBool false) then ret true
  else if strict_eq hasOwner (JBool true) then
    has_id <- lift (has_own_id (args act)) ;;
    if negb has_id then
      raise (CodedError "KE111"
        "Cannot verify owner. Action is flagged as having an owner, but act.args does not contain the expected id.")
    else
      match parseInt (get (args act) "id") with
      | None => raise (TypeError "Cannot convert object to primitive value")
      | Some ownerId => ret (strict_eq id (JNum ownerId))
      end
  else ret false.

(** *** The request handler *)

(** The response helpers called with a message (the underscore tells them
    from the [Action] constructors of the same name). *)
Definition responseBadRequest_ (msg : string) : jsval :=
  response_helper responseCodes.BadRequest (JStr msg).
Definition responseUnauthorised_ (msg : string) : jsval :=
  response_helper responseCodes.Unauthorised (JStr msg).
Definition responseForbidden_ (msg : string) : jsval :=
  response_helper responseCodes.Forbidden (JStr msg).
Definition responseInternalServerError_ (msg : string) : jsval :=
  response_helper responseCodes.InternalServerError (JStr msg).

(** "Ensure DB is available and ready if an Action is going to require it" *)
Definition ensureDbReady (act : Act) : M unit :=
  if negb (Action_beq (action act) responseNotFound) then
    emit CheckDB ;;;
    r1 <- lift (dal_checkDBExists w) ;;
    if negb (strict_eq r1 (JBool true)) then raise (Error "DB does not exist.")
    else
      r2 <- lift (dal_setTargetDB w) ;;
      if negb (strict_eq r2 (JBool true))
      then raise (Error "Could not set target DB.")
      else
        r3 <- lift (dal_checkTablesExist w) ;;
        match r3 with
        | JUndefined | JNull =>
            raise (TypeError "Cannot read property 'allExist' of undefined")
        | _ =>
            if negb (strict_eq (get r3 "allExist") (JBool true))
            then raise (Error "DB verification failed.")
            else ret tt
        end
  else ret tt.

Definition on_token_error (err : exn) : jsval :=
  if has_code err "KE140"
  then responseUnauthorised_ "Missing an expected token."
  else responseInternalServerError_
         "Something went wrong accessing an expected token.".

Definition on_id_error (err : exn) : jsval :=
  if has_code err "KE120"
  then responseUnauthorised_ "Invalid token. Expected data missing from payload."
  else if has_code err "KE122"
  then responseUnauthorised_ "Invalid token."
  else if has_code err "KE123"
  then responseUnauthorised_ "Invalid token. You may need to log in again."
  else responseInternalServerError_ "Error retrieving token information.".

Definition on_role_error (err : exn) : jsval :=
  if has_code err "KE130"
  then responseInternalServerError_ "Error checking role permissions."
  else responseInternalServerError_ "Error checking role permissions.".

Definition on_ownership_error (err : exn) : jsval :=
  if has_code err "KE110" || has_code err "KE111"
  then responseInternalServerError_ "Cannot verify ownership permissions."
  else responseInternalServerError_ "Error checking ownership permissions.".

(** "Now we have the user's id from the token, check if the user's assigned
    role has permission" and "check user has ownership of the Action": the
    pair [(hasRolePermission, hasOwnershipPermission)] for subject [id]. *)
Definition permissionsOf (id : jsval) (act : Act) : Handler (bool * bool) :=
  rolePermissionResult <-
    guard (checkRoleGrantsPermissionForAction id act) on_role_error ;;
  let hasRolePermission := hasPermission rolePermissionResult in
  if Dal.id (role rolePermissionResult) =? Role ADMIN
  then ret (hasRolePermission, true)
  else
    hasOwnershipPermission <-
      guard (checkOwnershipGrantsPermissionForAction id act)
            on_ownership_error ;;
    ret (hasRolePermission, hasOwnershipPermission).

(** "Evaluate permissions needed to execute Action": the pair
    [(hasRolePermission, hasOwnershipPermission)]. *)
Definition evaluatePermissions (req : Request) (act : Act)
    : Handler (bool * bool) :=
  match prop_minRole (st (action act)) with
  | None =>
      raise (responseInternalServerError_
        "There is a misconfiguration problem on the server. Try again in a bit.")
  | Some minRole =>
      if minRole =? Role EVERYONE then ret (true, true)
      else
        token <- guard (getTokenFromRequest req) on_token_error ;;
        id <- guard (getIdFromToken token) on_id_error ;;
        permissionsOf id act
  end.

(** [await act.action(act.args)] *)
Definition execute (act : Act) : M jsval :=
  emit (Execute (action act) (args act)) ;;;
  match helper_code (action act) with
  | Some responseCode => ret (response_helper responseCode (args act))
  | None => lift (api_call w (action act) (args act))
  end.

(** "If we have the right permissions, execute the Action" *)
Definition executeIfPermitted (act : Act) (permission : bool * bool)
    : Handler jsval :=
  let '(hasRolePermission, hasOwnershipPermission) := permission in
  if hasRolePermission && hasOwnershipPermission then
    guard (execute act)
      (fun _ => responseInternalServerError_
         "An error occurred responding to your request. Please try again later.")
  else ret (responseForbidden_ "You do not have permission to do that.").

(** Permission evaluation followed by the final gate. *)
Definition authorise (req : Request) (act : Act) : Handler jsval :=
  permission <- evaluatePermissions req act ;;
  executeIfPermitted act permission.

(** The response the authorisation pipeline ends with, and the calls it
    makes on the way. *)
Definition outcome (req : Request) (act : Act) : jsval :=
  snd (finish (authorise req act)).

Definition calls (req : Request) (act : Act) : list Event :=
  fst (authorise req act).

(** The handler from the point where [route] has returned [act]. *)
Definition serve (req : Request) (act : Act) : list Event * jsval :=
  finish (
    guard (ensureDbReady act)
      (fun _ => responseInternalServerError_
         "There is a problem connecting to the database or verifying it. Try again in a bit.") ;;;
    authorise req act).

(** The callback of [http.createServer]: the calls made and the [result]
    written to the response, or [None] when the 'end' listener of
    [getPostData] throws, which leaves the promise awaited here unsettled
    and the process with an uncaught exception. *)
Definition handler (req : Request) : option (list Event * jsval) :=
  let postData :=
    if String.eqb (method req) "POST" then getPostData w req
    else Resolved JUndefined in
  match postData with
  | Crashed => None
  | Rejected _ =>
      Some ([], responseBadRequest_
                  "There was a problem with the post data received in the request.")
  | Resolved postData => Some (serve req (route w req postData))
  end.

End Pipeline.

(** [result.responseCode], the status written by [res.writeHead] *)
Definition responseCode_of (result : jsval) : jsval := get result "responseCode".

Definition status_is (result : jsval) (code : Z) : bool :=
  strict_eq (responseCode_of result) (JNum (Fin code)).

End Server.

(* ------------------------------------------------------------------ *)
(** ** Conditions on a request and on the world around it *)

Module Conditions.
Import Js Errors Roles Config Api Server.

(** The database checks that precede permission evaluation succeed. *)
Definition db_ready (w : World) (act : Act) : Prop :=
  snd (ensureDbReady w act) = inr tt.

(** The request carries a token that the verification primitive accepts and
    whose payload names [sid], a value in id format, as its subject. *)
Definition authenticated (w : World) (req : Request) (sid : jsval) : Prop :=
  exists token payload,
    header req "x-access-token" = Some token
    /\ token <> ""
    /\ Auth.verify (jwt w) token (KEBAPI_AUTH_SECRET (config w)) (now w)
       = inr payload
    /\ truthy payload = true
    /\ get payload "id" = sid
    /\ isIdFormat sid = true.

(** The response when the database checks fail. *)
Definition db_down_response : jsval :=
  responseInternalServerError_
    "There is a problem connecting to the database or verifying it. Try again in a bit.".

(** The data layer knows the subject, with role row [row]. *)
Definition has_role (w : World) (sid : jsval) (row : Dal.RoleRow) : Prop :=
  exists rest, dal_getUserRole w sid = inr (row :: rest).

Definition is_execute (ev : Event) : bool :=
  match ev with
  | Execute _ _ => true
  | _ => false
  end.

(** The calls that authenticate and authorise a caller. *)
Definition is_auth_event (ev : Event) : bool :=
  match ev with
  | GetTokenFromRequest | VerifyToken _ | GetUserRole _ | CheckOwnership => true
  | CheckDB | Execute _ _ => false
  end.


Definition no_execute (t : list Event) : Prop :=
  forallb (fun ev => negb (is_execute ev)) t = true.

Definition no_auth_event (t : list Event) : Prop :=
  forallb (fun ev => negb (is_auth_event ev)) t = true.


(** None of the four [switch] statements of [route] assigns an Action. *)
Definition unmatched (dev : bool) (req : Request) : bool :=
  match matched dev req (JObj []) with
  | None => true
  | Some _ => false
  end.

(** A POST body, where one is awaited, is received and parsed. *)
Definition body_read (w : World) (req : Request) : Prop :=
  method req = "POST" -> exists parsedData, getPostData w req = Resolved parsedData.

(** An error of the verification primitive that is neither of the two
    expected rejections. *)
Definition unexpected_failure (err : exn) : Prop :=
  name err <> "JsonWebTokenError" /\ name err <> "TokenExpiredError".

(** The error does not carry one of the server's own token codes. *)
Definition foreign_code (err : exn) : Prop :=
  code err <> Some "KE120" /\ code err <> Some "KE122"
  /\ code err <> Some "KE123".

(** What [getToken] and [verifyToken] rely on from jsonwebtoken, for the
    one shape of payload that [getToken] signs: [{ id }] with no registered
    claim in it, where [id] is a primitive that JSON carries unchanged.
    [sign] stamps the token with the time of issue and an expiry, which
    with a number for [expiresIn] lies that many seconds after the time of
    issue; from the time of issue until the expiry, [verify] under the
    same secret returns the object signed followed by the claims. *)
Definition jwt_contract {Token : Type} (jwt : Auth.Jwt Token) : Prop :=
  forall id secret expiresIn t0 token,
    json_primitive id = true ->
    Auth.sign jwt (JObj [("id", id)]) secret expiresIn t0 = inr token ->
    exists expiry,
      (forall seconds, expiresIn = JNum (Fin seconds) -> expiry = t0 + seconds)
      /\ forall t, t0 <= t < expiry ->
           exists claims,
             Auth.verify jwt token secret t = inr (JObj (("id", id) :: claims)).

End Conditions.

(* ------------------------------------------------------------------ *)
(** ** Sample worlds, used to run the model on concrete requests *)

Module Samples.
Import Js Errors Roles Config Api Server.

Definition jwt_error (n m : string) : exn :=
  {| name := n; code := None; message := m |}.

Definition claims : list (string * jsval) :=
  [("iat", JNum (Fin 1000)); ("exp", JNum (Fin 87400))].

(** A verification primitive that knows a handful of tokens. *)
Definition sample_verify (token secret : string) (now : Z) : result jsval :=
  if String.eqb token "token-of-1" then inr (JObj (("id", JNum (Fin 1)) :: claims))
  else if String.eqb token "token-of-3" then inr (JObj (("id", JNum (Fin 3)) :: claims))
  else if String.eqb token "token-of-empty" then inr (JObj (("id", JStr "") :: claims))
  else if String.eqb token "token-of-minus-5" then inr (JObj (("id", JNum (Fin (-5))) :: claims))
  else if String.eqb token "expired" then inl (jwt_error "TokenExpiredError" "jwt expired")
  else if String.eqb token "not-active" then inl (jwt_error "NotBeforeError" "jwt not active")
  else inl (jwt_error "JsonWebTokenError" "jwt malformed").

Definition sample_jwt : Auth.Jwt string :=
  {| Auth.sign := fun _ _ _ _ => inr "token-of-3";
     Auth.verify := sample_verify |}.

(** User 1 is an administrator, user 3 an ordinary user. *)
Definition sample_getUserRole (id : jsval) : result (list Dal.RoleRow) :=
  if strict_eq id (JNum (Fin 1)) then inr [Dal.mkRoleRow (Role ADMIN) "admin"]
  else if strict_eq id (JNum (Fin 3)) then inr [Dal.mkRoleRow (Role USER) "user"]
  else inr [].

Definition sample_world : World :=
  {| config := defaults;
     now := 2000;
     jwt := sample_jwt;
     qs_parse := fun _ => JObj [];
     JSON_parse := fun _ => Some (JObj []);
     dal_checkDBExists := inr (JBool true);
     dal_setTargetDB := inr (JBool true);
     dal_checkTablesExist := inr (JObj [("allExist", JBool true)]);
     dal_getUserRole := sample_getUserRole;
     api_call := fun _ _ => inr (formatResult responseCodes.OK (JObj [])) |}.





Definition request (meth path : string) (hs : list (string * string)) : Request :=
  {| method := meth;
     url := {| pathname := path; query := JObj [] |};
     headers := hs;
     body := "" |}.


(** A structured token: what was signed, with which secret, and when it
    expires. *)
Record PlainToken : Type := mkPlainToken {
  signed : list (string * jsval);
  secret_used : string;
  expires : Z;
  issued : Z
}.

(** Only a number of seconds is taken for [expiresIn]. *)
Definition plain_sign (payload : jsval) (secret : string) (expiresIn : jsval)
    (now : Z) : result PlainToken :=
  match payload, expiresIn with
  | JObj fields, JNum (Fin seconds) =>
      inr (mkPlainToken fields secret (now + seconds) now)
  | JObj _, _ =>
      inl (Error "expiresIn should be a number of seconds")
  | _, _ => inl (Error "Expected payload to be a plain object.")
  end.

Definition plain_verify (token : PlainToken) (secret : string) (now : Z)
    : result jsval :=
  if negb (String.eqb (secret_used token) secret)
  then inl (jwt_error "JsonWebTokenError" "invalid signature")
  else if expires token <=? now
  then inl (jwt_error "TokenExpiredError" "jwt expired")
  else inr (JObj (signed token
                  ++ [("iat", JNum (Fin (issued token)));
                      ("exp", JNum (Fin (expires token)))])%list).

Definition plain_jwt : Auth.Jwt PlainToken :=
  {| Auth.sign := plain_sign; Auth.verify := plain_verify |}.

End Samples.

(* ------------------------------------------------------------------ *)
(** ** What the pipeline asks of a request *)

Module Access.
Import Js Errors Roles Config Api Server.








(** [sid] is strictly equal to the number that [parseInt] reads from the
    [id] that the arguments hold as an own property, found through their
    [hasOwnProperty]. *)
Definition id_matches (args sid : jsval) : Prop :=
  has_own_id args = inr true
  /\ exists ownerId,
       parseInt (get args "id") = Some ownerId
       /\ strict_eq sid (JNum ownerId) = true.

(** The ownership test passes for subject [sid]: the Action has no owner,
    or its [id] argument reads as the number [sid]. *)
Definition owns (st : Store) (act : Act) (sid : jsval) : Prop :=
  prop_hasOwner (st (action act)) = JBool false
  \/ (prop_hasOwner (st (action act)) = JBool true
      /\ id_matches (args act) sid).

(** The request carries a token that verifies, for a subject the data
    layer knows, whose role covers the Action and who, unless an
    administrator, owns what the Action works on. *)
Definition authorised (st : Store) (w : World) (req : Request) (act : Act)
    : Prop :=
  exists token payload row rest,
    header req "x-access-token" = Some token
    /\ token <> ""
    /\ Auth.verify (jwt w) token (KEBAPI_AUTH_SECRET (config w)) (now w)
       = inr payload
    /\ truthy payload = true
    /\ isIdFormat (get payload "id") = true
    /\ dal_getUserRole w (get payload "id") = inr (row :: rest)
    /\ role_covers (Dal.id row) (prop_minRole (st (action act))) = true
    /\ (Dal.id row = Role ADMIN \/ owns st act (get payload "id")).

(** Some Action was executed. *)
Definition executed (t : list Event) : Prop :=
  exists a v, In (Execute a v) t.

End Access.

(* ------------------------------------------------------------------ *)
(** ** Routes and request bodies *)

Module Routing.
Import Js Errors Roles Config Api Server.

(** The Actions of the first [switch] of [route], which is entered in the
    development environment only. *)
Definition dev_only (a : Action) : bool :=
  match a with
  | getToken | verifyToken | getHash | resetTestDB | runAdminTests => true
  | _ => false
  end.

(** [[APP_FORM_URLENCODED, APP_JSON].includes(req.headers['content-type'])] *)
Definition accepted_content_type (req : Request) : bool :=
  match header req "content-type" with
  | Some ct => String.eqb ct APP_FORM_URLENCODED || String.eqb ct APP_JSON
  | None => false
  end.

(** The 'end' listener of [getPostData] returns: the body is of the form
    type, or parses as JSON. *)
Definition body_parses (w : World) (req : Request) : bool :=
  match header req "content-type" with
  | Some ct =>
      String.eqb ct APP_FORM_URLENCODED
      || match JSON_parse w (body req) with
         | Some _ => true
         | None => false
         end
  | None => true
  end.

Definition not_found_envelope : jsval :=
  JObj [("responseCode", JNum (Fin 404));
        ("responseStatus", JStr "Not Found");
        ("response", JObj [])].

End Routing.

(* ------------------------------------------------------------------ *)
(** ** command-line.js and the command line of server.js *)

Module CommandLine.
Import Js Errors Roles Config Api Server.

(** An element of the array [parseArgv] returns. *)
Record Command : Type := mkCommand {
  command : string;
  commandArgs : list string
}.

(** [arg.charAt(0) === SWITCH_PREFIX] *)
Definition is_switch (arg : string) : bool :=
  match arg with
  | String c _ => Ascii.eqb c "-"%char
  | EmptyString => false
  end.

(** [arg.substring(1)] *)
Definition substring1 (arg : string) : string :=
  match arg with
  | String _ r => r
  | EmptyString => EmptyString
  end.

(** The variables [result], [command] and [commandArgs] of [parseArgv],
    here [parsed], [pending] and [pendingArgs]. *)
Record Parser : Type := mkParser {
  parsed : list Command;
  pending : string;
  pendingArgs : list string
}.

Definition pushCommand (p : Parser) : Parser :=
  {| parsed := parsed p ++ [mkCommand (pending p) (pendingArgs p)];
     pending := "";
     pendingArgs := [] |}.

(** [if (command !== '') { pushCommand(); }] *)
Definition pushIfPending (p : Parser) : Parser :=
  if negb (String.eqb (pending p) "") then pushCommand p else p.

(** The body of the [for] loop. *)
Definition step (p : Parser) (arg : string) : Parser :=
  if is_switch arg then
    let p' := pushIfPending p in
    {| parsed := parsed p'; pending := substring1 arg;
       pendingArgs := pendingArgs p' |}
  else
    {| parsed := parsed p; pending := pending p;
       pendingArgs := pendingArgs p ++ [arg] |}.

Definition parseArgv (argv : list string) : list Command :=
  parsed (pushIfPending (fold_left step argv (mkParser [] "" []))).

(** The command line that spells a parsed command out again. *)
Definition unparse_command (c : Command) : list string :=
  String "-"%char (command c) :: commandArgs c.

Definition unparse (cs : list Command) : list string :=
  flat_map unparse_command cs.

(** The names of the switches of a command line that have one. *)
Definition switch_names (argv : list string) : list string :=
  filter (fun n => negb (String.eqb n ""))
         (map substring1 (filter is_switch argv)).

(** Every switch has a name, and the line is empty or starts with one. *)
Definition well_formed (argv : list string) : bool :=
  forallb (fun a => negb (String.eqb a "-")) argv
  && match argv with
     | [] => true
     | a :: _ => is_switch a
     end.

(** The property names of [module.exports] of api.js. *)
Definition api_export (name : string) : option Action :=
  if String.eqb name "responseBadRequest" then Some responseBadRequest
  else if String.eqb name "responseUnauthorised" then Some responseUnauthorised
  else if String.eqb name "responseForbidden" then Some responseForbidden
  else if String.eqb name "responseNotFound" then Some responseNotFound
  else if String.eqb name "responsePayloadTooLarge" then Some responsePayloadTooLarge
  else if String.eqb name "responseInternalServerError"
       then Some responseInternalServerError
  else if String.eqb name "getVenue" then Some getVenue
  else if String.eqb name "getVenues" then Some getVenues
  else if String.eqb name "registerUser" then Some registerUser
  else if String.eqb name "activateUser" then Some activateUser
  else if String.eqb name "deactivateUser" then Some deactivateUser
  else if String.eqb name "getUser" then Some getUser
  else if String.eqb name "getUsers" then Some getUsers
  else if String.eqb name "loginUser" then Some loginUser
  else if String.eqb name "getUserRole" then Some getUserRole
  else if String.eqb name "getUserAccountStatus" then Some getUserAccountStatus
  else if String.eqb name "getUserFavourites" then Some getUserFavourites
  else if String.eqb name "addUserFavourite" then Some addUserFavourite
  else if String.eqb name "removeUserFavourite" then Some removeUserFavourite
  else if String.eqb name "resetTestDB" then Some resetTestDB
  else if String.eqb name "getHash" then Some getHash
  else if String.eqb name "getToken" then Some getToken
  else if String.eqb name "verifyToken" then Some verifyToken
  else None.

Section ProcessCommandLine.

Variable w : World.

(** [api[name](args)] for a name that api.js does not export: the engine
    throws a TypeError, or runs what [Object.prototype] holds under that
    name. *)
Variable api_other : string -> jsval -> result jsval.

(** [x || undefined] used as a property name *)
Definition or_undefined (x : option string) : string :=
  match x with
  | Some s => if String.eqb s "" then "undefined" else s
  | None => "undefined"
  end.

(** [await api[action](args)] *)
Definition invoke (name : string) (args : jsval) : M jsval :=
  match api_export name with
  | Some a => execute w (mkAct a args)
  | None =>
      match api_other name args with
      | inl e => raise e
      | inr v => ret v
      end
  end.

(** [let args = item.commandArgs[1] || undefined;
     if (args) { args = JSON.parse(args); }] *)
Definition parse_args (x : option string) : M jsval :=
  match x with
  | Some s =>
      if String.eqb s "" then ret JUndefined
      else match JSON_parse w s with
           | Some v => ret v
           | None =>
               raise {| name := "SyntaxError"; code := None;
                        message := "Unexpected token in JSON" |}
           end
  | None => ret JUndefined
  end.

(** The body of [for (let item of clArgs)]. *)
Definition run_item (item : Command) : M unit :=
  if String.eqb (command item) "act" then
    (let action := or_undefined (nth_error (commandArgs item) 0) in
     args <- parse_args (nth_error (commandArgs item) 1) ;;
     invoke action args ;;;
     ret tt)%eff
  else ret tt.

Fixpoint run_items (items : list Command) : M unit :=
  match items with
  | [] => ret tt
  | item :: rest => (run_item item ;;; run_items rest)%eff
  end.

(** [processCommandLine], on [process.argv.slice(2)] *)
Definition processCommandLine (argv : list string) : M unit :=
  run_items (parseArgv argv).

End ProcessCommandLine.

End CommandLine.

(* ------------------------------------------------------------------ *)
(** ** Response codes and registrations *)

Module Registry.
Import Js Errors Roles Config Api.

(** The values of [responseCodes]. *)
Definition known_codes : list Z :=
  [responseCodes.OK; responseCodes.BadRequest; responseCodes.Unauthorised;
   responseCodes.Forbidden; responseCodes.NotFound;
   responseCodes.PayloadTooLarge; responseCodes.InternalServerError].

Definition known_code (c : Z) : bool := existsb (Z.eqb c) known_codes.

(** The last row of a [permissions] array that names the Action. *)
Definition last_permission (a : Action) (items : list Permission)
    : option Permission :=
  find (fun item => Action_beq a (action item)) (rev items).

(** The properties a row puts on its Action. *)
Definition props_of (item : Permission) : Props :=
  {| prop_minRole := Some (minRole item);
     prop_hasOwner := JBool (hasOwner item) |}.

End Registry.

(* ------------------------------------------------------------------ *)
(** ** api.js: the login and registration Actions *)

Module Accounts.
Import Js Errors Roles Config Api.

(** A row of the users table, as the query returns it: an object. *)
Definition Row : Type := list (string * jsval).

(** What the two Actions call in dal.js and auth.js. *)
Record Services : Type := mkServices {
  dal_getUserByUserName : jsval -> result (list Row);
  dal_getUserByEmail : jsval -> result (list Row);
  (** the insert id, or undefined *)
  dal_addUser : jsval -> jsval -> jsval -> jsval -> string -> Z -> result (option Z);
  auth_comparePlainTextToHash : jsval -> jsval -> result bool;
  auth_getHash : jsval -> result string;
  auth_getToken : jsval -> result string
}.

Inductive Call : Type :=
| GetUserByUserName (username : jsval)
| GetUserByEmail (email : jsval)
| ComparePlainTextToHash (text hash : jsval)
| GetToken (id : jsval)
| GetHash (value : jsval)
| AddUser (username name surname email : jsval) (passwordHash : string)
          (roleId : Z).

(** The calls made, in order, and the value returned or the error thrown. *)
Definition Run (A : Type) : Type := (list Call * result A)%type.

Definition done {A} (a : A) : Run A := ([], inr a).

Definition call {A} (c : Call) (r : result A) : Run A := ([c], r).

Definition andThen {A B} (m : Run A) (f : A -> Run B) : Run B :=
  match m with
  | (t, inl e) => (t, inl e)
  | (t, inr a) => let '(t', r) := f a in ((t ++ t')%list, r)
  end.

(** A parameter [{ ... } = {}]: the default replaces undefined, and null
    cannot be destructured. *)
Definition destructure (args : jsval) : result jsval :=
  match args with
  | JUndefined => inr (JObj [])
  | JNull => inl (TypeError "Cannot destructure 'undefined' or 'null'.")
  | _ => inr args
  end.

Section Actions.

Variable s : Services.

Definition loginUser (args : jsval) : Run jsval :=
  match destructure args with
  | inl e => ([], inl e)
  | inr o =>
      let username := get o "username" in
      let email := get o "email" in
      let password := get o "password" in
      if (negb (truthy username) && negb (truthy email))
         || negb (truthy password)
      then done (formatResult responseCodes.BadRequest JUndefined)
      else
        andThen
          (if truthy username
           then andThen (call (GetUserByUserName username)
                              (dal_getUserByUserName s username))
                        (fun rows => done (Some rows))
           else if truthy email
           then andThen (call (GetUserByEmail email)
                              (dal_getUserByEmail s email))
                        (fun rows => done (Some rows))
           else done None)
          (fun result =>
             match result with
             | None | Some [] =>
                 done (formatResult responseCodes.NotFound
                         (JStr "Can't find that user"))
             | Some (user :: _) =>
                 andThen
                   (call (ComparePlainTextToHash password
                            (get (JObj user) "password_hash"))
                         (auth_comparePlainTextToHash s password
                            (get (JObj user) "password_hash")))
                   (fun matched =>
                      if negb matched
                      then done (formatResult responseCodes.Unauthorised
                                   (JStr "Those user credentials weren't right"))
                      else
                        andThen
                          (call (GetToken (get (JObj user) "id"))
                                (auth_getToken s (get (JObj user) "id")))
                          (fun token =>
                             done (formatResult responseCodes.OK (JStr token))))
             end)
  end.

(** [{ result: addResult, msg: msg }] *)
Definition registration (addResult : option Z) (msg : string) : jsval :=
  JObj [("result", match addResult with
                   | Some z => JNum (Fin z)
                   | None => JUndefined
                   end);
        ("msg", JStr msg)].

Definition registerUser (args : jsval) : Run jsval :=
  match destructure args with
  | inl e => ([], inl e)
  | inr o =>
      let username := get o "username" in
      let name := get o "name" in
      let surname := get o "surname" in
      let email := get o "email" in
      let password := get o "password" in
      if negb (truthy username || truthy name || truthy surname
               || truthy email || truthy password)
      then done (formatResult responseCodes.BadRequest
                   (registration None "Missing required data."))
      else
        andThen (call (GetUserByUserName username)
                      (dal_getUserByUserName s username))
          (fun usernameResult =>
             match usernameResult with
             | _ :: _ =>
                 done (formatResult responseCodes.BadRequest
                         (registration None "Username already registered."))
             | [] =>
                 andThen (call (GetUserByEmail email)
                               (dal_getUserByEmail s email))
                   (fun emailResult =>
                      match emailResult with
                      | _ :: _ =>
                          done (formatResult responseCodes.BadRequest
                                  (registration None "Email already registered."))
                      | [] =>
                          andThen (call (GetHash password)
                                        (auth_getHash s password))
                            (fun passwordHash =>
                               andThen
                                 (call (AddUser username name surname email
                                          passwordHash (Role USER))
                                       (dal_addUser s username name surname
                                          email passwordHash (Role USER)))
                                 (fun addResult =>
                                    match addResult with
                                    | Some z =>
                                        if z >? 0 then
                                          done (formatResult responseCodes.OK
                                                  (registration addResult
                                                     "User registered."))
                                        else if z =? 0 then
                                          done (formatResult responseCodes.OK
                                                  (registration addResult
                                                     "User already registered."))
                                        else
                                          done (formatResult
                                                  responseCodes.InternalServerError
                                                  (registration addResult
                                                     "Something went wrong registering the user. Please try again later."))
                                    | None =>
                                        done (formatResult
                                                responseCodes.InternalServerError
                                                (registration addResult
                                                   "Something went wrong registering the user. Please try again later."))
                                    end))
                      end)
             end)
  end.

End Actions.

(** The fields of a login or registration request. *)
Definition field (args : jsval) (k : string) : jsval :=
  match destructure args with
  | inr o => get o k
  | inl _ => JUndefined
  end.

End Accounts.

(* ------------------------------------------------------------------ *)
(** ** dal.js: the table checks behind the handler's database gate *)

Module Tables.
Import Js Errors.

(** [Object.values(DbTable)] *)
Definition DB_TABLES : list string :=
  ["venues"; "users"; "user_favourite_venues"; "lookup_roles";
   "lookup_user_account_status"].

(** What [checkTablesExist] returns. *)
Record TablesCheck : Type := mkTablesCheck {
  allExist : bool;
  notFound : list string
}.

Section Checks.

(** The query of [checkTableExists] on INFORMATION_SCHEMA.TABLES for one
    table name: the rows found, at most one. *)
Variable query : string -> result (list (list (string * jsval))).

(** The [catch] block has no binding and yet logs and rethrows [err]:
    evaluating that name throws a ReferenceError in place of the error of
    the query. *)
Definition checkTableExists (tableName : string) : result bool :=
  match query tableName with
  | inl _ =>
      inl {| name := "ReferenceError"; code := None;
             message := "err is not defined" |}
  | inr rows =>
      inr match rows with
          | row :: _ =>
              truthy (get (JObj row) "TABLE_NAME")
              && strict_eq (get (JObj row) "TABLE_NAME") (JStr tableName)
          | [] => false
          end
  end.

(** [for (const tableName of tables) { ... notFound.push(tableName) }] *)
Fixpoint collect (tables notFound : list string) : result (list string) :=
  match tables with
  | [] => inr notFound
  | tableName :: rest =>
      match checkTableExists tableName with
      | inl e => inl e
      | inr exists_ =>
          collect rest (if negb exists_ then notFound ++ [tableName]
                        else notFound)
      end
  end.

Definition checkTablesExist : result TablesCheck :=
  match collect DB_TABLES [] with
  | inl e => inl e
  | inr notFound =>
      inr {| allExist := Nat.eqb (List.length notFound) 0;
             notFound := notFound |}
  end.

(** The table was looked for and not found. *)
Definition missing (tableName : string) : bool :=
  match checkTableExists tableName with
  | inr false => true
  | _ => false
  end.

End Checks.

End Tables.

(* ------------------------------------------------------------------ *)
(** ** Adding a favourite: api.js over dal.js *)

Module Favourites.
Import Js Errors Roles Config Api.

(** The fields read from the result of the INSERT. *)
Record InsertResult : Type := mkInsertResult {
  insertId : Z;
  warningCount : Z
}.

(** [DbErr.ER_DUP_ENTRY] *)
Definition ER_DUP_ENTRY : Z := 1062.

Section AddUserFavourite.

(** [INSERT IGNORE INTO user_favourite_venues (user_id, venue_id) ...] *)
Variable insert : jsval -> jsval -> result InsertResult.

(** [SHOW WARNINGS;] *)
Variable show_warnings : result (list (list (string * jsval))).

(** dal.js, [addUserFavourite]: the insert id, or undefined. *)
Definition dal_addUserFavourite (id venueID : jsval) : result (option Z) :=
  match insert id venueID with
  | inl e => inl e
  | inr result =>
      if insertId result >? 0 then inr (Some (insertId result))
      else if (insertId result =? 0) && (warningCount result >? 0) then
        match show_warnings with
        | inl e => inl e
        | inr warningResult =>
            match warningResult with
            | warning :: _ =>
                if strict_eq (get (JObj warning) "Code") (JNum (Fin ER_DUP_ENTRY))
                then inr (Some (insertId result))
                else inr None
            | [] => inr None
            end
        end
      else inr None
  end.

(** api.js, [addUserFavourite] *)
Definition addUserFavourite (args : jsval) : result jsval :=
  match Accounts.destructure args with
  | inl e => inl e
  | inr o =>
      match dal_addUserFavourite (get o "id") (get o "venueId") with
      | inl e => inl e
      | inr result =>
          match result with
          | Some z =>
              inr (formatResult (if z >=? 0 then responseCodes.OK
                                 else responseCodes.BadRequest)
                                (JNum (Fin z)))
          | None => inr (formatResult responseCodes.BadRequest JUndefined)
          end
      end
  end.

(** The first warning reports a duplicate entry. *)
Definition duplicate_reported : bool :=
  match show_warnings with
  | inr (warning :: _) =>
      strict_eq (get (JObj warning) "Code") (JNum (Fin ER_DUP_ENTRY))
  | _ => false
  end.

End AddUserFavourite.

End Favourites.

(* ------------------------------------------------------------------ *)
(** ** More sample worlds *)

Module MoreSamples.
Import Js Errors Roles Config Api Server.

(** A verification primitive that accepts every token, with a payload
    that lacks the subject id. *)
Definition anonymous_jwt : Auth.Jwt string :=
  {| Auth.sign := fun _ _ _ _ => inr "anonymous";
     Auth.verify := fun _ _ _ => inr (JObj Samples.claims) |}.

Definition anonymous_world : World :=
  {| config := defaults;
     now := 2000;
     jwt := anonymous_jwt;
     qs_parse := fun _ => JObj [];
     JSON_parse := fun _ => Some (JObj []);
     dal_checkDBExists := inr (JBool true);
     dal_setTargetDB := inr (JBool true);
     dal_checkTablesExist := inr (JObj [("allExist", JBool true)]);
     dal_getUserRole := Samples.sample_getUserRole;
     api_call := fun _ _ => inr (formatResult responseCodes.OK (JObj [])) |}.

(** The sample world outside the development environment. *)
Definition production_world : World :=
  {| config := {| NODE_ENV := "production";
                  KEBAPI_SERVER_POST_MAX_SIZE := 16 * 1024;
                  KEBAPI_AUTH_SECRET := "c0876970129d079ea69c96c30475b557";
                  KEBAPI_AUTH_TOKEN_EXPIRY_MS := JNum (Fin 86400) |};
     now := 2000;
     jwt := Samples.sample_jwt;
     qs_parse := fun _ => JObj [];
     JSON_parse := fun _ => Some (JObj []);
     dal_checkDBExists := inr (JBool true);
     dal_setTargetDB := inr (JBool true);
     dal_checkTablesExist := inr (JObj [("allExist", JBool true)]);
     dal_getUserRole := Samples.sample_getUserRole;
     api_call := fun _ _ => inr (formatResult responseCodes.OK (JObj [])) |}.

(** The sample world with the size limit and the token expiry taken from
    the environment: KEBAPI_SERVER_POST_MAX_SIZE=-1 and
    KEBAPI_AUTH_TOKEN_EXPIRY_MS=3600. *)
Definition configured_world : World :=
  {| config := {| NODE_ENV := "development";
                  KEBAPI_SERVER_POST_MAX_SIZE := -1;
                  KEBAPI_AUTH_SECRET := "c0876970129d079ea69c96c30475b557";
                  KEBAPI_AUTH_TOKEN_EXPIRY_MS := token_expiry_of (Some "3600") |};
     now := 2000;
     jwt := Samples.sample_jwt;
     qs_parse := fun _ => JObj [];
     JSON_parse := fun _ => Some (JObj []);
     dal_checkDBExists := inr (JBool true);
     dal_setTargetDB := inr (JBool true);
     dal_checkTablesExist := inr (JObj [("allExist", JBool true)]);
     dal_getUserRole := Samples.sample_getUserRole;
     api_call := fun _ _ => inr (formatResult responseCodes.OK (JObj [])) |}.

(** One registered user, "ada", whose password is "secret"; hashing is
    marked by a prefix. *)
Definition ada : Accounts.Row :=
  [("id", JNum (Fin 3)); ("username", JStr "ada");
   ("password_hash", JStr "hash-of-secret")].

Definition sample_services : Accounts.Services :=
  {| Accounts.dal_getUserByUserName := fun u =>
       if strict_eq u (JStr "ada") then inr [ada] else inr [];
     Accounts.dal_getUserByEmail := fun _ => inr [];
     Accounts.dal_addUser := fun _ _ _ _ _ _ => inr (Some 7);
     Accounts.auth_comparePlainTextToHash := fun text hash =>
       match text, hash with
       | JStr t, JStr h => inr (String.eqb h ("hash-of-" ++ t))
       | _, _ => inl (Error "Illegal arguments")
       end;
     Accounts.auth_getHash := fun v =>
       match v with
       | JStr t => inr ("hash-of-" ++ t)
       | _ => inl (Error "Illegal arguments")
       end;
     Accounts.auth_getToken := fun _ => inr "token-of-3" |}.

(** An insert that is ignored as a duplicate. *)
Definition duplicate_insert (id venueID : jsval)
    : result Favourites.InsertResult :=
  inr (Favourites.mkInsertResult 0 1).

Definition duplicate_warnings : result (list (list (string * jsval))) :=
  inr [[("Level", JStr "Warning"); ("Code", JNum (Fin 1062))]].

(** A database in which the table of favourites is missing. *)
Definition sample_tables (tableName : string)
    : result (list (list (string * jsval))) :=
  if String.eqb tableName "user_favourite_venues" then inr []
  else inr [[("TABLE_NAME", JStr tableName)]].

End MoreSamples.

(* ------------------------------------------------------------------ *)
(** ** Properties *)

Import Js Errors Roles Config Api Server Conditions.
Local Open Scope eff_scope.

(** *** The model on concrete requests *)

Example run_unmatched_route :
  handler registry Samples.sample_world (Samples.request "GET" "/nonexistent/path" [])
  = Some ([Execute responseNotFound JUndefined],
          JObj [("responseCode", JNum (Fin 404));
                ("responseStatus", JStr "Not Found");
                ("response", JObj [])]).
Proof. reflexivity. Qed.

Example run_owner_matches :
  handler registry Samples.sample_world
    (Samples.request "GET" "/users/3" [("x-access-token", "token-of-3")])
  = Some ([CheckDB; GetTokenFromRequest; VerifyToken "token-of-3";
           GetUserRole (JNum (Fin 3)); CheckOwnership;
           Execute getUser (JObj [("id", JStr "3")])],
          formatResult 200 (JObj [])).
Proof. reflexivity. Qed.

Example run_owner_differs :
  handler registry Samples.sample_world
    (Samples.request "GET" "/users/9" [("x-access-token", "token-of-3")])
  = Some ([CheckDB; GetTokenFromRequest; VerifyToken "token-of-3";
           GetUserRole (JNum (Fin 3)); CheckOwnership],
          formatResult 403 (JStr "You do not have permission to do that.")).
Proof. reflexivity. Qed.

Example run_missing_token :
  handler registry Samples.sample_world (Samples.request "GET" "/users/3" [])
  = Some ([CheckDB; GetTokenFromRequest],
          formatResult 401 (JStr "Missing an expected token.")).
Proof. reflexivity. Qed.

Example run_admin_reset :
  handler registry Samples.sample_world
    (Samples.request "GET" "/resettestdb" [("x-access-token", "token-of-1")])
  = Some ([CheckDB; GetTokenFromRequest; VerifyToken "token-of-1";
           GetUserRole (JNum (Fin 1)); Execute resetTestDB (JObj [])],
          formatResult 200 (JObj [])).
Proof. reflexivity. Qed.

Example run_expired_token :
  handler registry Samples.sample_world
    (Samples.request "GET" "/users/3" [("x-access-token", "expired")])
  = Some ([CheckDB; GetTokenFromRequest; VerifyToken "expired"],
          formatResult 401 (JStr "Invalid token. You may need to log in again.")).
Proof. reflexivity. Qed.

(** *** Role hierarchy *)

Lemma checkRole_found (st : Store) (w : World) (id : jsval) (act : Act)
    (row : Dal.RoleRow) (rest : list Dal.RoleRow) :
  dal_getUserRole w id = inr (row :: rest) ->
  checkRoleGrantsPermissionForAction st w id act
  = ([GetUserRole id],
     inr {| hasPermission :=
              role_covers (Dal.id row) (prop_minRole (st (action act)));
            role := row |}).
Proof.
  intros Hrole. unfold checkRoleGrantsPermissionForAction.
  rewrite Hrole. reflexivity.
Qed.

(** C3.  For roles R1 and R2 of the enumeration, the role check made by
    [checkRoleGrantsPermissionForAction] for a subject whose role is R1 on
    an Action whose minimum role is R2 grants permission if and only if R1
    is ADMIN or the number of R1 is at most the number of R2. *)
Theorem role_check_covers (st : Store) (w : World) (id : jsval) (act : Act)
    (R1 R2 : RoleName) (row : Dal.RoleRow) (rest : list Dal.RoleRow) :
  dal_getUserRole w id = inr (row :: rest) ->
  Dal.id row = Role R1 ->
  prop_minRole (st (action act)) = Some (Role R2) ->
  exists r,
    snd (checkRoleGrantsPermissionForAction st w id act) = inr r
    /\ role r = row
    /\ (hasPermission r = true <-> R1 = ADMIN \/ Role R1 <= Role R2).
Proof.
  intros Hrole Hid Hmin.
  rewrite (checkRole_found st w id act row rest Hrole).
  eexists; split; [reflexivity|]. split; [reflexivity|].
  cbn [hasPermission]. rewrite Hid, Hmin. unfold role_covers.
  rewrite orb_true_iff, Z.eqb_eq, Z.leb_le.
  split.
  - intros [H|H]; [left | right; exact H].
    destruct R1; cbn in H; try discriminate; reflexivity.
  - intros [H|H]; [left; subst; reflexivity | right; exact H].
Qed.

Lemma role_check_covers_witness :
  exists r,
    snd (checkRoleGrantsPermissionForAction registry Samples.sample_world
           (JNum (Fin 3)) (mkAct getUser (JObj [("id", JStr "3")]))) = inr r
    /\ role r = Dal.mkRoleRow (Role USER) "user"
    /\ (hasPermission r = true <-> USER = ADMIN \/ Role USER <= Role USER).
Proof.
  apply (role_check_covers registry Samples.sample_world (JNum (Fin 3))
           (mkAct getUser (JObj [("id", JStr "3")])) USER USER
           (Dal.mkRoleRow (Role USER) "user") []);
    reflexivity.
Defined.

(** *** Id format: digits and numbers *)

Lemma digit_not_line_terminator (c : ascii) :
  is_digit c = true -> is_line_terminator c = false.
Proof.
  unfold is_digit, is_line_terminator. intros H.
  apply andb_true_iff in H. destruct H as [H1 H2].
  apply Z.leb_le in H1. apply Z.leb_le in H2.
  apply orb_false_iff. split; apply Nat.eqb_neq; lia.
Qed.

Lemma digits_are_one_line (s : string) :
  all_digits s = true -> some_line_of_digits true s = true.
Proof.
  unfold all_digits. induction s as [|c r IH]; cbn; intros H.
  - reflexivity.
  - apply andb_true_iff in H. destruct H as [Hc Hr].
    rewrite (digit_not_line_terminator c Hc), Hc. cbn. auto.
Qed.

Lemma isIdFormat_number (n : jsnum) : isIdFormat (JNum n) = true.
Proof. reflexivity. Qed.

Lemma isIdFormat_digits (s : string) :
  all_digits s = true -> isIdFormat (JStr s) = true.
Proof. exact (digits_are_one_line s). Qed.

(** *** Sequencing *)

Lemma bind_ret_l {E A B : Type} (a : A) (f : A -> Eff E B) :
  bind ([], inr a) f = f a.
Proof. unfold bind. destruct (f a) as [t r]. reflexivity. Qed.

Lemma bind_value {E A B : Type} (t : list Event) (a : A) (f : A -> Eff E B) :
  bind (t, inr a) f = ((t ++ fst (f a))%list, snd (f a)).
Proof. unfold bind. destruct (f a) as [t' r]. reflexivity. Qed.

Lemma bind_raise {E A B : Type} (t : list Event) (e : E) (f : A -> Eff E B) :
  bind (t, inl e) f = (t, inl e).
Proof. reflexivity. Qed.

(** *** The handler, stage by stage *)

Lemma ensureDbReady_events (w : World) (act : Act) :
  fst (ensureDbReady w act)
  = if Action_beq (action act) responseNotFound then [] else [CheckDB].
Proof.
  unfold ensureDbReady.
  destruct (Action_beq (action act) responseNotFound); [reflexivity|].
  cbn. destruct (dal_checkDBExists w) as [e|r1]; [reflexivity|]. cbn.
  destruct (negb (strict_eq r1 (JBool true))); [reflexivity|].
  destruct (dal_setTargetDB w) as [e|r2]; [reflexivity|]. cbn.
  destruct (negb (strict_eq r2 (JBool true))); [reflexivity|].
  destruct (dal_checkTablesExist w) as [e|r3]; [reflexivity|]. cbn.
  destruct r3; try reflexivity;
    match goal with
    | |- context [if ?b then _ else _] => destruct b; reflexivity
    end.
Qed.

Lemma serve_ready (st : Store) (w : World) (req : Request) (act : Act) :
  db_ready w act ->
  serve st w req act
  = ((fst (ensureDbReady w act) ++ calls st w req act)%list,
     outcome st w req act).
Proof.
  unfold db_ready, serve, calls, outcome. intros Hdb.
  destruct (ensureDbReady w act) as [t [e|[]]]; cbn in Hdb; [discriminate|].
  cbn. destruct (authorise st w req act) as [t' [r|r]]; reflexivity.
Qed.

Lemma serve_db_down (st : Store) (w : World) (req : Request) (act : Act)
    (e : exn) :
  snd (ensureDbReady w act) = inl e ->
  serve st w req act = (fst (ensureDbReady w act), db_down_response).
Proof.
  unfold serve. intros Hdb.
  destruct (ensureDbReady w act) as [t [e'|[]]]; cbn in Hdb; [|discriminate].
  reflexivity.
Qed.

(** The handler either stops at the database checks or answers with the
    outcome of the authorisation pipeline. *)
Lemma serve_cases (st : Store) (w : World) (req : Request) (act : Act) :
  serve st w req act = (fst (ensureDbReady w act), db_down_response)
  \/ (db_ready w act
      /\ serve st w req act
         = ((fst (ensureDbReady w act) ++ calls st w req act)%list,
            outcome st w req act)).
Proof.
  destruct (snd (ensureDbReady w act)) as [e|[]] eqn:Hdb.
  - left. exact (serve_db_down st w req act e Hdb).
  - right. split; [exact Hdb | exact (serve_ready st w req act Hdb)].
Qed.

Lemma no_execute_in_db_checks (w : World) (act : Act) :
  no_execute (fst (ensureDbReady w act)).
Proof.
  unfold no_execute. rewrite ensureDbReady_events.
  destruct (Action_beq (action act) responseNotFound); reflexivity.
Qed.

Lemma no_auth_in_db_checks (w : World) (act : Act) :
  no_auth_event (fst (ensureDbReady w act)).
Proof.
  unfold no_auth_event. rewrite ensureDbReady_events.
  destruct (Action_beq (action act) responseNotFound); reflexivity.
Qed.


Lemma no_auth_event_app (t t' : list Event) :
  no_auth_event t -> no_auth_event t' -> no_auth_event (t ++ t').
Proof.
  unfold no_auth_event. intros H H'. rewrite forallb_app, H, H'. reflexivity.
Qed.

Lemma authorise_stopped (st : Store) (w : World) (req : Request) (act : Act)
    (t : list Event) (r : jsval) :
  evaluatePermissions st w req act = (t, inl r) ->
  authorise st w req act = (t, inl r).
Proof. intros H. unfold authorise. rewrite H. reflexivity. Qed.

Lemma authorise_value (st : Store) (w : World) (req : Request) (act : Act)
    (t : list Event) (permission : bool * bool) :
  evaluatePermissions st w req act = (t, inr permission) ->
  authorise st w req act
  = ((t ++ fst (executeIfPermitted w act permission))%list,
     snd (executeIfPermitted w act permission)).
Proof. intros H. unfold authorise. rewrite H. apply bind_value. Qed.

(** *** Missing metadata *)

(** C7.  An Action on which no minimum role was registered is answered
    with Internal Server Error (500), whatever the request and the world:
    permission evaluation stops at its first test without granting
    anything, the pipeline makes no call at all, and the handler neither
    looks at a token or a role nor executes the Action. *)
Theorem unregistered_action_is_internal_error (st : Store) (w : World)
    (req : Request) (act : Act) :
  prop_minRole (st (action act)) = None ->
  authorise st w req act
  = ([], inl (responseInternalServerError_
        "There is a misconfiguration problem on the server. Try again in a bit."))
  /\ status_is (snd (serve st w req act)) responseCodes.InternalServerError = true
  /\ no_execute (fst (serve st w req act))
  /\ no_auth_event (fst (serve st w req act)).
Proof.
  intros Hmin.
  assert (Hauth : authorise st w req act
     = ([], inl (responseInternalServerError_
          "There is a misconfiguration problem on the server. Try again in a bit."))).
  { apply authorise_stopped. unfold evaluatePermissions. rewrite Hmin.
    reflexivity. }
  split; [exact Hauth|].
  destruct (serve_cases st w req act) as [Hs|[_ Hs]]; rewrite Hs;
    unfold calls, outcome; try rewrite Hauth; cbn [fst snd finish];
    rewrite ?app_nil_r;
    (split; [reflexivity|]);
    (split; [apply no_execute_in_db_checks | apply no_auth_in_db_checks]).
Qed.

(** The one export of api.js that [initialise] leaves without metadata. *)
Lemma unregistered_action_is_internal_error_witness :
  authorise registry Samples.sample_world (Samples.request "GET" "/" [])
    (mkAct responseUnauthorised JUndefined)
  = ([], inl (responseInternalServerError_
        "There is a misconfiguration problem on the server. Try again in a bit.")).
Proof.
  apply (unregistered_action_is_internal_error registry Samples.sample_world
           (Samples.request "GET" "/" [])
           (mkAct responseUnauthorised JUndefined)).
  reflexivity.
Defined.

Example run_unregistered_action :
  serve registry Samples.sample_world (Samples.request "GET" "/" [])
    (mkAct responseUnauthorised JUndefined)
  = ([CheckDB],
     formatResult 500
       (JStr "There is a misconfiguration problem on the server. Try again in a bit.")).
Proof. reflexivity. Qed.

(** *** The everyone short-circuit *)

Lemma execute_events (w : World) (act : Act) :
  fst (execute w act) = [Execute (action act) (args act)].
Proof.
  unfold execute. cbn. destruct (helper_code (action act)); [reflexivity|].
  cbn. destruct (api_call w (action act) (args act)); reflexivity.
Qed.

(** C6.  For an Action whose minimum role is EVERYONE, permission
    evaluation grants role and ownership permission at once, without any
    call, and the pipeline executes the Action: its only call is the
    execution, and its outcome is what the Action returns (or 500 if the
    Action throws).  The handler as a whole extracts no token, verifies
    none, looks up no role and checks no ownership; when the database is
    ready it makes the database checks and then executes the Action. *)
Theorem everyone_short_circuit (st : Store) (w : World) (req : Request)
    (act : Act) :
  prop_minRole (st (action act)) = Some (Role EVERYONE) ->
  evaluatePermissions st w req act = ([], inr (true, true))
  /\ calls st w req act = [Execute (action act) (args act)]
  /\ outcome st w req act
     = match snd (execute w act) with
       | inr result => result
       | inl _ => responseInternalServerError_
           "An error occurred responding to your request. Please try again later."
       end
  /\ no_auth_event (fst (serve st w req act))
  /\ (db_ready w act ->
      serve st w req act
      = ((fst (ensureDbReady w act) ++ [Execute (action act) (args act)])%list,
         outcome st w req act)).
Proof.
  intros Hmin.
  assert (Hperm : evaluatePermissions st w req act = ([], inr (true, true))).
  { unfold evaluatePermissions. rewrite Hmin. reflexivity. }
  assert (Hauth : authorise st w req act
     = guard (execute w act)
         (fun _ => responseInternalServerError_
            "An error occurred responding to your request. Please try again later.")).
  { unfold authorise. rewrite Hperm, bind_ret_l. reflexivity. }
  assert (Hcalls : calls st w req act = [Execute (action act) (args act)]).
  { unfold calls. rewrite Hauth, <- (execute_events w act).
    destruct (execute w act) as [t [e|r]]; reflexivity. }
  split; [exact Hperm|]. split; [exact Hcalls|].
  split.
  { unfold outcome. rewrite Hauth.
    destruct (execute w act) as [t [e|r]]; reflexivity. }
  split.
  - destruct (serve_cases st w req act) as [Hs|[_ Hs]]; rewrite Hs; cbn [fst].
    + apply no_auth_in_db_checks.
    + apply no_auth_event_app; [apply no_auth_in_db_checks|].
      rewrite Hcalls. reflexivity.
  - intros Hdb. rewrite (serve_ready st w req act Hdb), Hcalls. reflexivity.
Qed.

Lemma everyone_short_circuit_witness :
  evaluatePermissions registry Samples.sample_world
    (Samples.request "GET" "/venues" []) (mkAct getVenues (JObj []))
  = ([], inr (true, true))
  /\ calls registry Samples.sample_world
       (Samples.request "GET" "/venues" []) (mkAct getVenues (JObj []))
     = [Execute getVenues (JObj [])].
Proof.
  destruct (everyone_short_circuit registry Samples.sample_world
              (Samples.request "GET" "/venues" []) (mkAct getVenues (JObj [])))
    as (Hperm & Hcalls & _); [reflexivity |].
  split; [exact Hperm | exact Hcalls].
Defined.

(** *** Token extraction and verification *)

Lemma has_code_other (err : exn) (c : string) :
  code err <> Some c -> has_code err c = false.
Proof.
  unfold has_code. intros Hc. destruct (code err) as [c'|]; [|reflexivity].
  destruct (String.eqb_spec c' c) as [->|_]; [contradiction|].
  apply andb_false_r.
Qed.

Lemma getTokenFromRequest_present (req : Request) (token : string) :
  header req "x-access-token" = Some token -> token <> "" ->
  getTokenFromRequest req = ([GetTokenFromRequest], inr token).
Proof.
  intros Hh Hne. unfold getTokenFromRequest. rewrite Hh.
  destruct (String.eqb_spec token "") as [->|_]; [contradiction|reflexivity].
Qed.

Lemma getTokenFromRequest_absent (req : Request) :
  header req "x-access-token" = None ->
  getTokenFromRequest req
  = ([GetTokenFromRequest], inl (CodedError "KE140" "Token missing from header.")).
Proof. intros Hh. unfold getTokenFromRequest. rewrite Hh. reflexivity. Qed.

Lemma getIdFromToken_verified (w : World) (token : string) (payload : jsval) :
  Auth.verify (jwt w) token (KEBAPI_AUTH_SECRET (config w)) (now w) = inr payload ->
  truthy payload = true ->
  isIdFormat (get payload "id") = true ->
  getIdFromToken w token = ([VerifyToken token], inr (get payload "id")).
Proof.
  intros Hv Ht Hfmt. unfold getIdFromToken, Auth.verifyToken.
  rewrite Hv. unfold Auth.spread_value. rewrite Ht. cbn. rewrite Hfmt.
  reflexivity.
Qed.

Lemma verifyToken_unexpected {Token : Type} (j : Auth.Jwt Token) (cfg : Config)
    (t : Z) (token : Token) (err : exn) :
  Auth.verify j token (KEBAPI_AUTH_SECRET cfg) t = inl err ->
  unexpected_failure err ->
  Auth.verifyToken j cfg t token = inl err.
Proof.
  intros Hv [H1 H2]. unfold Auth.verifyToken. rewrite Hv. cbn.
  destruct (String.eqb_spec (name err) "JsonWebTokenError"); [contradiction|].
  destruct (String.eqb_spec (name err) "TokenExpiredError"); [contradiction|].
  reflexivity.
Qed.

Lemma verifyToken_rejections {Token : Type} (j : Auth.Jwt Token) (cfg : Config)
    (t : Z) (token : Token) (vr : Auth.VerifyResult) :
  Auth.verifyToken j cfg t token = inr vr ->
  Auth.verified vr = false ->
  exists err,
    Auth.verify j token (KEBAPI_AUTH_SECRET cfg) t = inl err
    /\ (name err = "JsonWebTokenError" \/ name err = "TokenExpiredError")
    /\ Auth.rejectErrorType vr = Some (name err).
Proof.
  unfold Auth.verifyToken. intros Hv Hf.
  destruct (Auth.verify j token (KEBAPI_AUTH_SECRET cfg) t) as [err|p].
  - exists err. split; [reflexivity|]. cbn in Hv.
    destruct (String.eqb_spec (name err) "JsonWebTokenError") as [E1|N1].
    + cbn in Hv. inversion Hv; subst vr; cbn. rewrite E1. auto.
    + destruct (String.eqb_spec (name err) "TokenExpiredError") as [E2|N2].
      * cbn in Hv. inversion Hv; subst vr; cbn. rewrite E2. auto.
      * cbn in Hv. discriminate.
  - inversion Hv; subst vr. cbn in Hf. discriminate.
Qed.

Lemma evaluatePermissions_restricted (st : Store) (w : World) (req : Request)
    (act : Act) (m : Z) :
  prop_minRole (st (action act)) = Some m -> m <> Role EVERYONE ->
  evaluatePermissions st w req act
  = (token <- guard (getTokenFromRequest req) on_token_error ;;
     id <- guard (getIdFromToken w token) on_id_error ;;
     permissionsOf st w id act).
Proof.
  intros Hmin Hne. unfold evaluatePermissions. rewrite Hmin.
  destruct (Z.eqb_spec m (Role EVERYONE)); [contradiction|reflexivity].
Qed.

(** C5.  For an Action whose minimum role is registered and is not
    EVERYONE, a request without the x-access-token header ends the
    pipeline with Unauthorised (401) and the message of the missing token,
    before any token is verified: this is the handler's response whenever
    the database is ready.  No failure of token verification is answered
    with that message. *)
Theorem missing_token_is_unauthorised (st : Store) (w : World) (req : Request)
    (act : Act) (m : Z) :
  prop_minRole (st (action act)) = Some m -> m <> Role EVERYONE ->
  header req "x-access-token" = None ->
  authorise st w req act
  = ([GetTokenFromRequest],
     inl (responseUnauthorised_ "Missing an expected token."))
  /\ status_is (outcome st w req act) responseCodes.Unauthorised = true
  /\ (forall err,
        on_id_error err <> responseUnauthorised_ "Missing an expected token.")
  /\ (db_ready w act ->
      serve st w req act
      = ((fst (ensureDbReady w act) ++ [GetTokenFromRequest])%list,
         responseUnauthorised_ "Missing an expected token.")).
Proof.
  intros Hmin Hne Hh.
  assert (Hauth : authorise st w req act
            = ([GetTokenFromRequest],
               inl (responseUnauthorised_ "Missing an expected token."))).
  { apply authorise_stopped.
    rewrite (evaluatePermissions_restricted st w req act m Hmin Hne).
    rewrite (getTokenFromRequest_absent req Hh). reflexivity. }
  split; [exact Hauth|].
  split; [unfold outcome; rewrite Hauth; reflexivity|].
  split.
  - intros err. unfold on_id_error.
    destruct (has_code err "KE120"); [discriminate|].
    destruct (has_code err "KE122"); [discriminate|].
    destruct (has_code err "KE123"); discriminate.
  - intros Hdb. rewrite (serve_ready st w req act Hdb).
    unfold calls, outcome. rewrite Hauth. reflexivity.
Qed.

Lemma missing_token_is_unauthorised_witness :
  authorise registry Samples.sample_world (Samples.request "GET" "/users/3" [])
    (mkAct getUser (JObj [("id", JStr "3")]))
  = ([GetTokenFromRequest],
     inl (responseUnauthorised_ "Missing an expected token.")).
Proof.
  apply (missing_token_is_unauthorised registry Samples.sample_world
           (Samples.request "GET" "/users/3" [])
           (mkAct getUser (JObj [("id", JStr "3")])) (Role USER));
    [reflexivity | discriminate | reflexivity].
Defined.

(** C4.  [verifyToken] reports [verified = false] only for an error named
    JsonWebTokenError or TokenExpiredError, whose name becomes the reject
    kind.  Any other error of the verification primitive is rethrown by
    [verifyToken]; provided it does not carry one of the server's own codes
    KE120, KE122 or KE123, the pipeline ends with Internal Server Error
    (500) and not with Unauthorised (401), and so does the handler. *)
Theorem unexpected_verify_failure_is_internal_error (st : Store) (w : World)
    (req : Request) (act : Act) (m : Z) (token : string) (err : exn) :
  prop_minRole (st (action act)) = Some m -> m <> Role EVERYONE ->
  header req "x-access-token" = Some token -> token <> "" ->
  Auth.verify (jwt w) token (KEBAPI_AUTH_SECRET (config w)) (now w) = inl err ->
  unexpected_failure err ->
  foreign_code err ->
  (forall token' vr,
     Auth.verifyToken (jwt w) (config w) (now w) token' = inr vr ->
     Auth.verified vr = false ->
     exists err',
       Auth.verify (jwt w) token' (KEBAPI_AUTH_SECRET (config w)) (now w)
       = inl err'
       /\ (name err' = "JsonWebTokenError" \/ name err' = "TokenExpiredError")
       /\ Auth.rejectErrorType vr = Some (name err'))
  /\ Auth.verifyToken (jwt w) (config w) (now w) token = inl err
  /\ authorise st w req act
     = ([GetTokenFromRequest; VerifyToken token],
        inl (responseInternalServerError_ "Error retrieving token information."))
  /\ status_is (outcome st w req act) responseCodes.Unauthorised = false
  /\ status_is (snd (serve st w req act)) responseCodes.InternalServerError = true.
Proof.
  intros Hmin Hne Hh Htok Hv Hunexp (Hc0 & Hc2 & Hc3).
  split; [intros token' vr; apply verifyToken_rejections|].
  pose proof (verifyToken_unexpected (jwt w) (config w) (now w) token err
                Hv Hunexp) as Hthrown.
  split; [exact Hthrown|].
  assert (Hid : getIdFromToken w token = ([VerifyToken token], inl err)).
  { unfold getIdFromToken. rewrite Hthrown. reflexivity. }
  assert (Hauth : authorise st w req act
            = ([GetTokenFromRequest; VerifyToken token],
               inl (responseInternalServerError_
                      "Error retrieving token information."))).
  { apply authorise_stopped.
    rewrite (evaluatePermissions_restricted st w req act m Hmin Hne).
    rewrite (getTokenFromRequest_present req token Hh Htok).
    cbn [guard]. rewrite bind_value. cbn beta.
    rewrite Hid. cbn [guard]. rewrite bind_raise. cbn [fst snd app].
    unfold on_id_error.
    rewrite (has_code_other err "KE120" Hc0), (has_code_other err "KE122" Hc2),
      (has_code_other err "KE123" Hc3).
    reflexivity. }
  split; [exact Hauth|].
  split; [unfold outcome; rewrite Hauth; reflexivity|].
  destruct (serve_cases st w req act) as [Hs|[_ Hs]]; rewrite Hs;
    unfold outcome; try rewrite Hauth; reflexivity.
Qed.

Lemma unexpected_verify_failure_is_internal_error_witness :
  authorise registry Samples.sample_world
    (Samples.request "GET" "/users/3" [("x-access-token", "not-active")])
    (mkAct getUser (JObj [("id", JStr "3")]))
  = ([GetTokenFromRequest; VerifyToken "not-active"],
     inl (responseInternalServerError_ "Error retrieving token information.")).
Proof.
  apply (unexpected_verify_failure_is_internal_error registry
           Samples.sample_world
           (Samples.request "GET" "/users/3" [("x-access-token", "not-active")])
           (mkAct getUser (JObj [("id", JStr "3")])) (Role USER) "not-active"
           (Samples.jwt_error "NotBeforeError" "jwt not active")).
  - reflexivity.
  - discriminate.
  - reflexivity.
  - discriminate.
  - reflexivity.
  - split; discriminate.
  - repeat split; discriminate.
Defined.

(** *** Role and ownership for an authenticated subject *)

Lemma in_bind_first {E A B : Type} (m : Eff E A) (f : A -> Eff E B) (ev : Event) :
  In ev (fst m) -> In ev (fst (bind m f)).
Proof.
  destruct m as [t [e|a]]; cbn; [auto|].
  destruct (f a) as [t' r]. cbn. intros H. apply in_or_app. left. exact H.
Qed.

Lemma checkRole_first_event (st : Store) (w : World) (id : jsval) (act : Act) :
  In (GetUserRole id) (fst (checkRoleGrantsPermissionForAction st w id act)).
Proof.
  unfold checkRoleGrantsPermissionForAction. cbn.
  destruct (dal_getUserRole w id) as [e|[|row rest]]; cbn; auto.
Qed.

Lemma permissionsOf_looks_up_role (st : Store) (w : World) (id : jsval)
    (act : Act) :
  In (GetUserRole id) (fst (permissionsOf st w id act)).
Proof.
  unfold permissionsOf. apply in_bind_first.
  pose proof (checkRole_first_event st w id act) as H.
  destruct (checkRoleGrantsPermissionForAction st w id act) as [t [e|r]];
    exact H.
Qed.

Lemma evaluatePermissions_identified (st : Store) (w : World) (req : Request)
    (act : Act) (m : Z) (token : string) (sid : jsval) :
  prop_minRole (st (action act)) = Some m -> m <> Role EVERYONE ->
  getTokenFromRequest req = ([GetTokenFromRequest], inr token) ->
  getIdFromToken w token = ([VerifyToken token], inr sid) ->
  evaluatePermissions st w req act
  = (([GetTokenFromRequest; VerifyToken token]
      ++ fst (permissionsOf st w sid act))%list,
     snd (permissionsOf st w sid act)).
Proof.
  intros Hmin Hne Htok Hid.
  rewrite (evaluatePermissions_restricted st w req act m Hmin Hne).
  rewrite Htok. cbn [guard]. rewrite bind_value. cbn beta.
  rewrite Hid. cbn [guard]. rewrite bind_value. cbn [fst snd].
  rewrite app_assoc. reflexivity.
Qed.

Lemma authorise_events (st : Store) (w : World) (req : Request) (act : Act)
    (ev : Event) :
  In ev (fst (evaluatePermissions st w req act)) ->
  In ev (fst (authorise st w req act)).
Proof. unfold authorise. apply in_bind_first. Qed.

Lemma authenticated_steps (w : World) (req : Request) (sid : jsval) :
  authenticated w req sid ->
  exists token,
    getTokenFromRequest req = ([GetTokenFromRequest], inr token)
    /\ getIdFromToken w token = ([VerifyToken token], inr sid).
Proof.
  intros (token & payload & Hh & Hne & Hv & Ht & Hget & Hfmt).
  exists token. split.
  - exact (getTokenFromRequest_present req token Hh Hne).
  - rewrite <- Hget. apply getIdFromToken_verified; try assumption.
    rewrite Hget. exact Hfmt.
Qed.


Lemma checkOwnership_owned (st : Store) (sid : jsval) (act : Act) :
  prop_hasOwner (st (action act)) = JBool true ->
  checkOwnershipGrantsPermissionForAction st sid act
  = ([CheckOwnership],
     match has_own_id (args act) with
     | inl err => inl err
     | inr false =>
         inl (CodedError "KE111"
           "Cannot verify owner. Action is flagged as having an owner, but act.args does not contain the expected id.")
     | inr true =>
         match parseInt (get (args act) "id") with
         | None => inl (TypeError "Cannot convert object to primitive value")
         | Some ownerId => inr (strict_eq sid (JNum ownerId))
         end
     end).
Proof.
  intros Hown. unfold checkOwnershipGrantsPermissionForAction.
  rewrite Hown. cbn [strict_eq Bool.eqb orb andb negb].
  cbn [bind emit lift].
  destruct (has_own_id (args act)) as [err|[|]]; cbn [negb raise app];
    try reflexivity.
  destruct (parseInt (get (args act) "id")); reflexivity.
Qed.

Lemma permissionsOf_admin (st : Store) (w : World) (sid : jsval) (act : Act)
    (row : Dal.RoleRow) :
  has_role w sid row -> Dal.id row = Role ADMIN ->
  permissionsOf st w sid act = ([GetUserRole sid], inr (true, true)).
Proof.
  intros [rest Hrole] Hadmin. unfold permissionsOf.
  rewrite (checkRole_found st w sid act row rest Hrole).
  cbn [guard]. rewrite bind_value. cbn [hasPermission role].
  rewrite Hadmin. reflexivity.
Qed.

Lemma permissionsOf_other (st : Store) (w : World) (sid : jsval) (act : Act)
    (row : Dal.RoleRow) :
  has_role w sid row -> Dal.id row <> Role ADMIN ->
  permissionsOf st w sid act
  = ((GetUserRole sid :: fst (checkOwnershipGrantsPermissionForAction st sid act)),
     match snd (checkOwnershipGrantsPermissionForAction st sid act) with
     | inl err => inl (on_ownership_error err)
     | inr hasOwnershipPermission =>
         inr (role_covers (Dal.id row) (prop_minRole (st (action act))),
              hasOwnershipPermission)
     end).
Proof.
  intros [rest Hrole] Hother. unfold permissionsOf.
  rewrite (checkRole_found st w sid act row rest Hrole).
  cbn [guard]. rewrite bind_value. cbn [hasPermission role].
  destruct (Z.eqb_spec (Dal.id row) (Role ADMIN)); [contradiction|].
  destruct (checkOwnershipGrantsPermissionForAction st sid act) as [t [e|b]];
    cbn; rewrite ?app_nil_r; reflexivity.
Qed.

(** *** Ids that pass the format check *)

(** C10.  [isIdFormat] accepts every number, negative ones included, and
    every string of decimal digits, the empty string included.  Hence a
    verified token whose payload id is the empty string or a negative
    number passes the check of [getIdFromToken], which returns that id
    instead of throwing KE120, and the pipeline goes on to look up the
    role of that id. *)
Theorem lenient_id_format (st : Store) (w : World) (req : Request) (act : Act)
    (m : Z) (token : string) (payload sid : jsval) :
  prop_minRole (st (action act)) = Some m -> m <> Role EVERYONE ->
  header req "x-access-token" = Some token -> token <> "" ->
  Auth.verify (jwt w) token (KEBAPI_AUTH_SECRET (config w)) (now w) = inr payload ->
  truthy payload = true ->
  get payload "id" = sid ->
  (sid = JStr "" \/ exists z, z < 0 /\ sid = JNum (Fin z)) ->
  (forall n, isIdFormat (JNum n) = true)
  /\ (forall s, all_digits s = true -> isIdFormat (JStr s) = true)
  /\ isIdFormat (JStr "") = true
  /\ getIdFromToken w token = ([VerifyToken token], inr sid)
  /\ In (GetUserRole sid) (calls st w req act)
  /\ (db_ready w act -> In (GetUserRole sid) (fst (serve st w req act))).
Proof.
  intros Hmin Hne Hh Htok Hv Htruthy Hget Hsid.
  split; [exact isIdFormat_number|].
  split; [exact isIdFormat_digits|].
  split; [reflexivity|].
  assert (Hfmt : isIdFormat (get payload "id") = true).
  { rewrite Hget. destruct Hsid as [->|(z & _ & ->)]; reflexivity. }
  pose proof (getIdFromToken_verified w token payload Hv Htruthy Hfmt) as Hid.
  rewrite Hget in Hid.
  split; [exact Hid|].
  assert (Hcalls : In (GetUserRole sid) (calls st w req act)).
  { unfold calls. apply authorise_events.
    rewrite (evaluatePermissions_identified st w req act m token sid Hmin Hne
               (getTokenFromRequest_present req token Hh Htok) Hid).
    cbn [fst]. apply in_or_app. right. apply permissionsOf_looks_up_role. }
  split; [exact Hcalls|].
  intros Hdb. rewrite (serve_ready st w req act Hdb). cbn [fst].
  apply in_or_app. right. exact Hcalls.
Qed.

Lemma lenient_id_format_witness :
  getIdFromToken Samples.sample_world "token-of-empty"
  = ([VerifyToken "token-of-empty"], inr (JStr ""))
  /\ getIdFromToken Samples.sample_world "token-of-minus-5"
     = ([VerifyToken "token-of-minus-5"], inr (JNum (Fin (-5)))).
Proof.
  split.
  - apply (lenient_id_format registry Samples.sample_world
             (Samples.request "GET" "/users/3" [("x-access-token", "token-of-empty")])
             (mkAct getUser (JObj [("id", JStr "3")])) (Role USER)
             "token-of-empty" (JObj (("id", JStr "") :: Samples.claims)) (JStr ""));
      try reflexivity; try discriminate.
    left; reflexivity.
  - apply (lenient_id_format registry Samples.sample_world
             (Samples.request "GET" "/users/3" [("x-access-token", "token-of-minus-5")])
             (mkAct getUser (JObj [("id", JStr "3")])) (Role USER)
             "token-of-minus-5" (JObj (("id", JNum (Fin (-5))) :: Samples.claims))
             (JNum (Fin (-5))));
      try reflexivity; try discriminate.
    right. exists (-5). split; [lia | reflexivity].
Defined.

Example run_empty_id_reaches_role_lookup :
  serve registry Samples.sample_world
    (Samples.request "GET" "/users/3" [("x-access-token", "token-of-empty")])
    (mkAct getUser (JObj [("id", JStr "3")]))
  = ([CheckDB; GetTokenFromRequest; VerifyToken "token-of-empty";
      GetUserRole (JStr "")],
     responseInternalServerError_ "Error checking role permissions.").
Proof. reflexivity. Qed.

(** *** Numbers read from text *)

Import Access.

















Example parseInt_rounds_as_a_double :
  parseInt (JStr "9007199254740993") = Some (Fin 9007199254740992)
  /\ parseInt (JStr "9007199254740995") = Some (Fin 9007199254740996).
Proof. split; reflexivity. Qed.

Example parseInt_reads_a_prefix :
  parseInt (JStr "  -12px") = Some (Fin (-12))
  /\ parseInt (JStr "007") = Some (Fin 7)
  /\ parseInt (JStr "px12") = Some NaN
  /\ parseInt (JStr "") = Some NaN.
Proof. repeat split. Qed.

Example parseInt_of_a_number_reads_its_print :
  parseInt (JNum (Fin 42)) = Some (Fin 42)
  /\ parseInt (JNum (Fin (10 ^ 21))) = Some (Fin 1)
  /\ parseInt (JNum (Fin (3 * 2 ^ 70))) = Some (Fin 3)
  /\ parseInt (JNum (Inf false)) = Some NaN.
Proof. repeat split; vm_compute; reflexivity. Qed.

Example parseInt_of_an_object :
  parseInt (JObj [("id", JStr "3")]) = Some NaN
  /\ parseInt (JObj [("toString", JStr "3")]) = None.
Proof. split; reflexivity. Qed.

Example shadowed_hasOwnProperty :
  checkOwnershipGrantsPermissionForAction registry (JNum (Fin 3))
    (mkAct getUser (JObj [("hasOwnProperty", JBool false); ("id", JStr "3")]))
  = ([CheckOwnership],
     inl (CodedError "KE111"
            "Cannot verify owner. Action is flagged as having an owner, but act.args does not contain the expected id."))
  /\ checkOwnershipGrantsPermissionForAction registry (JNum (Fin 3))
       (mkAct getUser (JObj [("hasOwnProperty", JNum (Fin 1)); ("id", JStr "3")]))
     = ([CheckOwnership],
        inl (TypeError "act.args.hasOwnProperty is not a function")).
Proof. split; reflexivity. Qed.


(** *** Ownership *)










(** The router hands an owner-scoped Action an object literal with an own
    [id] taken from the path. *)
Lemma route_owner_args (w : World) (req : Request) (postData : jsval) :
  prop_hasOwner (registry (action (route w req postData))) = JBool true ->
  exists id rest,
    args (route w req postData) = JObj (("id", JStr id) :: rest)
    /\ assoc "hasOwnProperty" rest = None.
Proof.
  unfold route, matched, route_DELETE, route_POST, route_GET, route_dev_GET,
    discriminant, is_case.
  set (segs := pathSegments_of (url req)).
  assert (Hseg : forall i, isIdFormat (seg segs i) = true ->
                           exists s, seg segs i = JStr s).
  { intros i. unfold seg. destruct (nth_error segs i); [eauto|discriminate]. }
  pose proof (Hseg 1%nat) as Hseg1.
  repeat match goal with
         | |- context [if ?b then _ else _] =>
             lazymatch b with
             | isIdFormat (seg segs 1) =>
                 let H := fresh "Hfmt" in
                 destruct b eqn:H;
                 [ destruct (Hseg1 eq_refl) as [s1 Hs1]; rewrite Hs1 in * | ]
             | _ => destruct b
             end; cbn
         end;
    intros H; try discriminate H; eauto.
Qed.

(** *** Token round trip *)

Example token_expiry_from_the_environment :
  token_expiry_of None = JNum (Fin 86400)
  /\ token_expiry_of (Some "") = JNum (Fin 86400)
  /\ token_expiry_of (Some "3600") = JStr "3600".
Proof. repeat split. Qed.

Lemma plain_jwt_contract : jwt_contract Samples.plain_jwt.
Proof.
  intros id secret expiresIn t0 token _ Hsign.
  cbn in Hsign.
  destruct expiresIn as [| |b|[seconds|neg|]|s|fields]; try discriminate Hsign.
  injection Hsign as <-.
  exists (t0 + seconds). split.
  - intros n Hn. injection Hn as ->. reflexivity.
  - intros t Ht. cbn. unfold Samples.plain_verify. cbn.
    rewrite String.eqb_refl. cbn.
    destruct (Z.leb_spec (t0 + seconds) t); [lia|].
    eexists. reflexivity.
Qed.

(** C8.  With a signing library that honours [jwt_contract], a token that
    [getToken] issued for a subject id that JSON carries unchanged has an
    expiry such that [verifyToken], called from the time of issue until
    before that expiry, yields [verified = true] and a payload whose [id]
    is that subject id.  When the configured expiry is a number, as the
    default 86400 is, the token expires that many seconds after its
    issue. *)
Theorem token_round_trip {Token : Type} (j : Auth.Jwt Token) (cfg : Config)
    (id : jsval) (t0 : Z) (token : Token) :
  jwt_contract j ->
  json_primitive id = true ->
  Auth.getToken j cfg t0 id = inr token ->
  exists expiry,
    (forall seconds,
       KEBAPI_AUTH_TOKEN_EXPIRY_MS cfg = JNum (Fin seconds) ->
       expiry = t0 + seconds)
    /\ forall t,
         t0 <= t < expiry ->
         exists vr payload,
           Auth.verifyToken j cfg t token = inr vr
           /\ Auth.verified vr = true
           /\ Auth.payload vr = Some payload
           /\ get payload "id" = id.
Proof.
  intros Hjwt Hid Hissued. unfold Auth.getToken in Hissued.
  destruct (Hjwt id (KEBAPI_AUTH_SECRET cfg) (KEBAPI_AUTH_TOKEN_EXPIRY_MS cfg)
              t0 token Hid Hissued) as (expiry & Hexpiry & Hverify).
  exists expiry. split; [exact Hexpiry|].
  intros t Ht. destruct (Hverify t Ht) as [claims Hv].
  unfold Auth.verifyToken. rewrite Hv.
  eexists. eexists. split; [reflexivity|]. cbn.
  split; [reflexivity|]. split; reflexivity.
Qed.

Lemma token_round_trip_witness :
  exists vr payload,
    Auth.verifyToken Samples.plain_jwt defaults 5000
      (Samples.mkPlainToken [("id", JNum (Fin 3))]
         (KEBAPI_AUTH_SECRET defaults) 87400 1000) = inr vr
    /\ Auth.verified vr = true
    /\ Auth.payload vr = Some payload
    /\ get payload "id" = JNum (Fin 3).
Proof.
  destruct (token_round_trip Samples.plain_jwt defaults (JNum (Fin 3)) 1000
              (Samples.mkPlainToken [("id", JNum (Fin 3))]
                 (KEBAPI_AUTH_SECRET defaults) 87400 1000)
              plain_jwt_contract eq_refl eq_refl)
    as (expiry & Hexpiry & Hverify).
  apply Hverify.
  rewrite (Hexpiry 86400 eq_refl). lia.
Defined.

(** *** Unmatched routes *)

Lemma route_POST_undefined (meth : string) (segs : list string)
    (pd pd' : jsval) (cur cur' : option Act) :
  undefined_yet cur = undefined_yet cur' ->
  undefined_yet (route_POST meth segs pd cur)
  = undefined_yet (route_POST meth segs pd' cur').
Proof.
  intros H. unfold route_POST. rewrite H.
  repeat match goal with
         | |- context [if ?b then _ else _] => destruct b
         end; auto.
Qed.

Lemma route_DELETE_undefined (meth : string) (segs : list string)
    (cur cur' : option Act) :
  undefined_yet cur = undefined_yet cur' ->
  undefined_yet (route_DELETE meth segs cur)
  = undefined_yet (route_DELETE meth segs cur').
Proof.
  intros H. unfold route_DELETE. rewrite H.
  repeat match goal with
         | |- context [if ?b then _ else _] => destruct b
         end; auto.
Qed.

Lemma unmatched_any_body (dev : bool) (req : Request) (postData : jsval) :
  unmatched dev req = true -> matched dev req postData = None.
Proof.
  unfold unmatched. intros H.
  assert (Hu : undefined_yet (matched dev req postData)
               = undefined_yet (matched dev req (JObj []))).
  { unfold matched. apply route_DELETE_undefined, route_POST_undefined.
    reflexivity. }
  destruct (matched dev req (JObj [])); [discriminate|].
  destruct (matched dev req postData); [discriminate|reflexivity].
Qed.

Lemma serve_not_found (w : World) (req : Request) :
  serve registry w req (mkAct responseNotFound JUndefined)
  = ([Execute responseNotFound JUndefined],
     JObj [("responseCode", JNum (Fin 404));
           ("responseStatus", JStr "Not Found");
           ("response", JObj [])]).
Proof. reflexivity. Qed.

(** C9, as the code has it.  A request that none of the four [switch]
    statements of [route] matches, and whose POST body (when the method is
    POST) is received and parsed, is resolved to the [responseNotFound]
    Action, which is registered with the EVERYONE role; the handler
    executes it and answers with responseCode 404 and responseStatus
    "Not Found". *)
Theorem unmatched_route_is_not_found (w : World) (req : Request) :
  unmatched (isDev (config w)) req = true ->
  body_read w req ->
  (forall postData, route w req postData = mkAct responseNotFound JUndefined)
  /\ prop_minRole (registry responseNotFound) = Some (Role EVERYONE)
  /\ handler registry w req
     = Some ([Execute responseNotFound JUndefined],
             JObj [("responseCode", JNum (Fin 404));
                   ("responseStatus", JStr "Not Found");
                   ("response", JObj [])]).
Proof.
  intros Hun Hbody.
  assert (Hroute : forall postData,
            route w req postData = mkAct responseNotFound JUndefined).
  { intros postData. unfold route.
    rewrite (unmatched_any_body _ req (default_object postData) Hun).
    reflexivity. }
  split; [exact Hroute|]. split; [reflexivity|].
  unfold handler.
  destruct (String.eqb_spec (method req) "POST") as [Hpost|_].
  - destruct (Hbody Hpost) as [parsedData Hdata]. rewrite Hdata, Hroute.
    rewrite serve_not_found. reflexivity.
  - rewrite Hroute, serve_not_found. reflexivity.
Qed.

Lemma unmatched_route_is_not_found_witness :
  handler registry Samples.sample_world
    (Samples.request "GET" "/nonexistent/path" [])
  = Some ([Execute responseNotFound JUndefined],
          JObj [("responseCode", JNum (Fin 404));
                ("responseStatus", JStr "Not Found");
                ("response", JObj [])]).
Proof.
  apply (unmatched_route_is_not_found Samples.sample_world
           (Samples.request "GET" "/nonexistent/path" [])).
  - reflexivity.
  - intros H. discriminate H.
Defined.

(** C9, as stated, fails: an unmatched POST request whose content type is
    not one of the two accepted is answered before routing, with Bad
    Request (400). *)
Lemma unmatched_post_is_bad_request :
  unmatched (isDev (config Samples.sample_world))
    (Samples.request "POST" "/nonexistent/path" [("content-type", "text/plain")])
  = true
  /\ handler registry Samples.sample_world
       (Samples.request "POST" "/nonexistent/path" [("content-type", "text/plain")])
     = Some ([], formatResult 400
                   (JStr "There was a problem with the post data received in the request."))
  /\ status_is
       (formatResult 400
          (JStr "There was a problem with the post data received in the request."))
       responseCodes.NotFound = false.
Proof. repeat split. Qed.

(* ------------------------------------------------------------------ *)
(** ** Further properties of the code *)

Import Access.

(** *** Execution and authorisation *)

Lemma evaluatePermissions_auth_only (st : Store) (w : World) (req : Request)
    (act : Act) :
  forallb is_auth_event (fst (evaluatePermissions st w req act)) = true.
Proof.
  unfold evaluatePermissions, permissionsOf, getTokenFromRequest,
    getIdFromToken, checkRoleGrantsPermissionForAction,
    checkOwnershipGrantsPermissionForAction.
  repeat first
    [ reflexivity
    | match goal with
      | |- context [match ?x with _ => _ end] =>
          lazymatch x with
          | context [match _ with _ => _ end] => fail
          | _ => destruct x; cbn
          end
      end ].
Qed.

Lemma auth_events_not_executed (t : list Event) :
  forallb is_auth_event t = true -> ~ executed t.
Proof.
  intros Hall (a & v & Hin).
  rewrite forallb_forall in Hall. specialize (Hall _ Hin). discriminate Hall.
Qed.

Lemma executed_app (t t' : list Event) :
  executed (t ++ t') <-> executed t \/ executed t'.
Proof.
  unfold executed. split.
  - intros (a & v & Hin). apply in_app_or in Hin. destruct Hin; eauto.
  - intros [(a & v & Hin)|(a & v & Hin)]; exists a, v; apply in_or_app; auto.
Qed.

Lemma executed_iff_granted (st : Store) (w : World) (req : Request) (act : Act) :
  executed (calls st w req act)
  <-> snd (evaluatePermissions st w req act) = inr (true, true).
Proof.
  unfold calls, authorise.
  pose proof (evaluatePermissions_auth_only st w req act) as Hauth.
  destruct (evaluatePermissions st w req act) as [t [r|[hr ho]]]; cbn [fst snd] in *.
  - rewrite bind_raise. cbn [fst]. split; [|discriminate].
    intros H. destruct (auth_events_not_executed t Hauth H).
  - rewrite bind_value. cbn [fst]. rewrite executed_app.
    unfold executeIfPermitted.
    destruct hr, ho; cbn [andb].
    + split; [reflexivity|]. intros _. right.
      exists (action act), (args act).
      pose proof (execute_events w act) as He.
      destruct (execute w act) as [t' [e|r]]; cbn in He |- *; subst t';
        left; reflexivity.
    + split; [|discriminate].
      intros [H|(a & v & [])]. destruct (auth_events_not_executed t Hauth H).
    + split; [|discriminate].
      intros [H|(a & v & [])]. destruct (auth_events_not_executed t Hauth H).
    + split; [|discriminate].
      intros [H|(a & v & [])]. destruct (auth_events_not_executed t Hauth H).
Qed.

Lemma bind_guard_value {A B : Type} (m : M A) (h : exn -> jsval)
    (f : A -> Handler B) (x : B) :
  snd (bind (guard m h) f) = inr x ->
  exists a, snd m = inr a /\ snd (f a) = inr x.
Proof.
  destruct m as [t [e|a]]; cbn; [discriminate|].
  intros H. exists a. split; [reflexivity|].
  destruct (f a) as [t' r]. exact H.
Qed.

Lemma getTokenFromRequest_value (req : Request) (token : string) :
  snd (getTokenFromRequest req) = inr token ->
  header req "x-access-token" = Some token /\ token <> "".
Proof.
  unfold getTokenFromRequest.
  destruct (header req "x-access-token") as [t|]; [|discriminate].
  destruct (String.eqb_spec t "") as [->|Hne]; cbn; [discriminate|].
  intros H. inversion H; subst t. auto.
Qed.

Lemma getIdFromToken_value (w : World) (token : string) (sid : jsval) :
  snd (getIdFromToken w token) = inr sid ->
  exists payload,
    Auth.verify (jwt w) token (KEBAPI_AUTH_SECRET (config w)) (now w) = inr payload
    /\ truthy payload = true
    /\ get payload "id" = sid
    /\ isIdFormat sid = true.
Proof.
  unfold getIdFromToken, Auth.verifyToken.
  destruct (Auth.verify (jwt w) token (KEBAPI_AUTH_SECRET (config w)) (now w))
    as [err|payload].
  - cbn. destruct (negb _); cbn; [discriminate|].
    destruct (reject_code _); discriminate.
  - cbn. unfold Auth.spread_value.
    destruct (truthy payload) eqn:Ht; cbn; [|discriminate].
    destruct (isIdFormat (get payload "id")) eqn:Hfmt; cbn; [|discriminate].
    intros H. inversion H; subst sid. exists payload. auto.
Qed.

Lemma checkRole_value (st : Store) (w : World) (sid : jsval) (act : Act)
    (r : RolePermission) :
  snd (checkRoleGrantsPermissionForAction st w sid act) = inr r ->
  exists rest,
    dal_getUserRole w sid = inr (role r :: rest)
    /\ hasPermission r
       = role_covers (Dal.id (role r)) (prop_minRole (st (action act))).
Proof.
  unfold checkRoleGrantsPermissionForAction.
  destruct (dal_getUserRole w sid) as [e|[|row rest]]; cbn; try discriminate.
  intros H. inversion H; subst r. cbn. eauto.
Qed.

Lemma checkOwnership_unowned (st : Store) (sid : jsval) (act : Act) :
  prop_hasOwner (st (action act)) = JBool false ->
  checkOwnershipGrantsPermissionForAction st sid act = ([CheckOwnership], inr true).
Proof.
  intros H. unfold checkOwnershipGrantsPermissionForAction. rewrite H.
  reflexivity.
Qed.

Lemma checkOwnership_granted (st : Store) (sid : jsval) (act : Act) :
  snd (checkOwnershipGrantsPermissionForAction st sid act) = inr true ->
  owns st act sid.
Proof.
  intros H. unfold owns.
  destruct (prop_hasOwner (st (action act))) as [| |[|]|n|s|fields] eqn:Hown;
    try (unfold checkOwnershipGrantsPermissionForAction in H;
         rewrite Hown in H; cbn in H; discriminate H).
  - rewrite (checkOwnership_owned st sid act Hown) in H. cbn [snd] in H.
    right. split; [reflexivity|]. unfold id_matches.
    destruct (has_own_id (args act)) as [err|[|]]; try discriminate H.
    destruct (parseInt (get (args act) "id")) as [ownerId|];
      [|discriminate H].
    injection H as H. split; [reflexivity|]. exists ownerId. auto.
  - left. reflexivity.
Qed.

Lemma owns_granted (st : Store) (sid : jsval) (act : Act) :
  owns st act sid ->
  checkOwnershipGrantsPermissionForAction st sid act = ([CheckOwnership], inr true).
Proof.
  intros [Hno|(Hyes & Hhas & ownerId & Hread & Heq)].
  - exact (checkOwnership_unowned st sid act Hno).
  - rewrite (checkOwnership_owned st sid act Hyes).
    rewrite Hhas, Hread, Heq. reflexivity.
Qed.

Lemma granted_authorised (st : Store) (w : World) (req : Request) (act : Act)
    (m : Z) :
  prop_minRole (st (action act)) = Some m -> m <> Role EVERYONE ->
  snd (evaluatePermissions st w req act) = inr (true, true) ->
  authorised st w req act.
Proof.
  intros Hmin Hne H.
  rewrite (evaluatePermissions_restricted st w req act m Hmin Hne) in H.
  apply bind_guard_value in H. destruct H as (token & Htok & H).
  apply bind_guard_value in H. destruct H as (sid & Hid & H).
  unfold permissionsOf in H.
  apply bind_guard_value in H. destruct H as (r & Hr & H).
  destruct (getTokenFromRequest_value req token Htok) as [Hh Hnonempty].
  destruct (getIdFromToken_value w token sid Hid)
    as (payload & Hv & Ht & Hget & Hfmt).
  destruct (checkRole_value st w sid act r Hr) as (rest & Hrole & Hcov).
  subst sid. exists token, payload, (role r), rest.
  repeat (split; [assumption|]).
  destruct (Z.eqb_spec (Dal.id (role r)) (Role ADMIN)) as [Hadmin|Hother].
  - cbn in H. injection H as Hp. rewrite <- Hcov. split; [exact Hp|].
    left. exact Hadmin.
  - apply bind_guard_value in H. destruct H as (own & Hown & H).
    cbn in H. injection H as Hp Ho. subst own.
    rewrite <- Hcov. split; [exact Hp|]. right.
    exact (checkOwnership_granted st (get payload "id") act Hown).
Qed.

Lemma authorised_granted (st : Store) (w : World) (req : Request) (act : Act)
    (m : Z) :
  prop_minRole (st (action act)) = Some m -> m <> Role EVERYONE ->
  authorised st w req act ->
  exists t,
    evaluatePermissions st w req act = (t, inr (true, true))
    /\ forallb is_auth_event t = true.
Proof.
  intros Hmin Hne
    (token & payload & row & rest & Hh & Hnonempty & Hv & Ht & Hfmt & Hrole
     & Hcov & Hown).
  pose proof (evaluatePermissions_auth_only st w req act) as Hauth.
  rewrite (evaluatePermissions_identified st w req act m token
             (get payload "id") Hmin Hne
             (getTokenFromRequest_present req token Hh Hnonempty)
             (getIdFromToken_verified w token payload Hv Ht Hfmt)) in Hauth |- *.
  assert (Hhas : has_role w (get payload "id") row) by (exists rest; exact Hrole).
  destruct (Z.eq_dec (Dal.id row) (Role ADMIN)) as [Hadmin|Hother].
  - rewrite (permissionsOf_admin st w _ act row Hhas Hadmin) in Hauth |- *.
    eexists. split; [reflexivity | exact Hauth].
  - destruct Hown as [Hadmin|Hown]; [contradiction|].
    rewrite (permissionsOf_other st w _ act row Hhas Hother) in Hauth |- *.
    rewrite (owns_granted st _ act Hown) in Hauth |- *.
    cbn [fst snd] in Hauth |- *. rewrite Hcov.
    eexists. split; [reflexivity | exact Hauth].
Qed.

(** X1.  A restricted Action (minimum role registered and not EVERYONE) is
    executed by the pipeline if and only if the request is authorised: it
    carries a non-empty token that verifies to a payload with an id in id
    format, the data layer returns a role row for that id, the role covers
    the minimum role, and the subject is an administrator or passes the
    ownership test. *)
Theorem executed_iff_authorised (st : Store) (w : World) (req : Request)
    (act : Act) (m : Z) :
  prop_minRole (st (action act)) = Some m -> m <> Role EVERYONE ->
  (executed (calls st w req act) <-> authorised st w req act).
Proof.
  intros Hmin Hne. rewrite executed_iff_granted. split.
  - exact (granted_authorised st w req act m Hmin Hne).
  - intros Hauth.
    destruct (authorised_granted st w req act m Hmin Hne Hauth) as (t & Ht & _).
    rewrite Ht. reflexivity.
Qed.

Lemma executed_iff_authorised_witness :
  executed (calls registry Samples.sample_world
              (Samples.request "GET" "/users/3" [("x-access-token", "token-of-3")])
              (mkAct getUser (JObj [("id", JStr "3")])))
  <-> authorised registry Samples.sample_world
        (Samples.request "GET" "/users/3" [("x-access-token", "token-of-3")])
        (mkAct getUser (JObj [("id", JStr "3")])).
Proof.
  apply (executed_iff_authorised registry Samples.sample_world
           (Samples.request "GET" "/users/3" [("x-access-token", "token-of-3")])
           (mkAct getUser (JObj [("id", JStr "3")])) (Role USER)).
  - reflexivity.
  - discriminate.
Defined.

(** X2.  When the request is authorised for a restricted Action, the
    pipeline makes only authentication and authorisation calls and then
    executes exactly the routed Action on the routed arguments.  Its
    outcome is then the envelope of the response helper, when the Action
    is one, and otherwise what the call of the Action returned, or the 500
    response "An error occurred responding to your request." when that
    call threw. *)
Theorem authorised_request_runs_action (st : Store) (w : World) (req : Request)
    (act : Act) (m : Z) :
  prop_minRole (st (action act)) = Some m -> m <> Role EVERYONE ->
  authorised st w req act ->
  (exists t,
     calls st w req act = (t ++ [Execute (action act) (args act)])%list
     /\ forallb is_auth_event t = true)
  /\ (forall responseCode,
        helper_code (action act) = Some responseCode ->
        outcome st w req act = response_helper responseCode (args act))
  /\ (helper_code (action act) = None ->
      (forall result,
         api_call w (action act) (args act) = inr result ->
         outcome st w req act = result)
      /\ (forall err,
            api_call w (action act) (args act) = inl err ->
            outcome st w req act
            = responseInternalServerError_
                "An error occurred responding to your request. Please try again later.")).
Proof.
  intros Hmin Hne Hauth.
  destruct (authorised_granted st w req act m Hmin Hne Hauth) as (t & Ht & Hev).
  pose proof (authorise_value st w req act t (true, true) Ht) as Hrun.
  unfold calls, outcome. rewrite Hrun.
  unfold executeIfPermitted, execute. cbn [andb].
  split; [|split].
  - exists t. split; [|exact Hev].
    destruct (helper_code (action act)); cbn; [reflexivity|].
    destruct (api_call w (action act) (args act)); reflexivity.
  - intros responseCode Hhelper. rewrite Hhelper. reflexivity.
  - intros Hnone. rewrite Hnone. split.
    + intros result Hcall. cbn. rewrite Hcall. reflexivity.
    + intros err Hcall. cbn. rewrite Hcall. reflexivity.
Qed.

Lemma authorised_request_runs_action_witness :
  outcome registry Samples.sample_world
    (Samples.request "GET" "/users/3" [("x-access-token", "token-of-3")])
    (mkAct getUser (JObj [("id", JStr "3")]))
  = formatResult responseCodes.OK (JObj []).
Proof.
  destruct (authorised_request_runs_action registry Samples.sample_world
              (Samples.request "GET" "/users/3" [("x-access-token", "token-of-3")])
              (mkAct getUser (JObj [("id", JStr "3")])) (Role USER))
    as (_ & _ & Hcall).
  - reflexivity.
  - discriminate.
  - exists "token-of-3", (JObj (("id", JNum (Fin 3)) :: Samples.claims)),
      (Dal.mkRoleRow (Role USER) "user"), [].
    repeat split; try discriminate.
    right. right. split; [reflexivity|].
    split; [reflexivity|]. exists (Fin 3). split; reflexivity.
  - destruct (Hcall eq_refl) as [Hreturned _]. apply Hreturned. reflexivity.
Defined.

(** *** Rejected tokens *)

Lemma authorise_token_present (st : Store) (w : World) (req : Request)
    (act : Act) (m : Z) (token : string) :
  prop_minRole (st (action act)) = Some m -> m <> Role EVERYONE ->
  header req "x-access-token" = Some token -> token <> "" ->
  authorise st w req act
  = bind (bind ([GetTokenFromRequest], inr token)
               (fun token => id <- guard (getIdFromToken w token) on_id_error ;;
                             permissionsOf st w id act))
         (executeIfPermitted w act).
Proof.
  intros Hmin Hne Hh Hnonempty. unfold authorise.
  rewrite (evaluatePermissions_restricted st w req act m Hmin Hne).
  rewrite (getTokenFromRequest_present req token Hh Hnonempty). reflexivity.
Qed.

Lemma authorise_id_error (st : Store) (w : World) (req : Request)
    (act : Act) (m : Z) (token : string) (err : exn) :
  prop_minRole (st (action act)) = Some m -> m <> Role EVERYONE ->
  header req "x-access-token" = Some token -> token <> "" ->
  getIdFromToken w token = ([VerifyToken token], inl err) ->
  authorise st w req act
  = ([GetTokenFromRequest; VerifyToken token], inl (on_id_error err)).
Proof.
  intros Hmin Hne Hh Hnonempty Hid.
  rewrite (authorise_token_present st w req act m token Hmin Hne Hh Hnonempty).
  rewrite bind_value. cbn beta. rewrite Hid. reflexivity.
Qed.

(** X3.  For a restricted Action and a request whose token the verification
    primitive rejects, the pipeline ends with Unauthorised (401) right after
    the verification, before any role lookup: with the message
    "Invalid token." for a JsonWebTokenError and with
    "Invalid token. You may need to log in again." for a TokenExpiredError. *)
Theorem rejected_token_is_unauthorised (st : Store) (w : World) (req : Request)
    (act : Act) (m : Z) (token : string) (err : exn) :
  prop_minRole (st (action act)) = Some m -> m <> Role EVERYONE ->
  header req "x-access-token" = Some token -> token <> "" ->
  Auth.verify (jwt w) token (KEBAPI_AUTH_SECRET (config w)) (now w) = inl err ->
  (name err = "JsonWebTokenError" ->
   authorise st w req act
   = ([GetTokenFromRequest; VerifyToken token],
      inl (responseUnauthorised_ "Invalid token.")))
  /\ (name err = "TokenExpiredError" ->
      authorise st w req act
      = ([GetTokenFromRequest; VerifyToken token],
         inl (responseUnauthorised_
                "Invalid token. You may need to log in again."))).
Proof.
  intros Hmin Hne Hh Hnonempty Hv.
  split; intros Hname.
  - rewrite (authorise_id_error st w req act m token
               (CodedError "KE122"
                  (reject_message (Auth.spread_string (message err))))
               Hmin Hne Hh Hnonempty); [reflexivity|].
    unfold getIdFromToken, Auth.verifyToken. rewrite Hv, Hname. reflexivity.
  - rewrite (authorise_id_error st w req act m token
               (CodedError "KE123"
                  (reject_message (Auth.spread_string (message err))))
               Hmin Hne Hh Hnonempty); [reflexivity|].
    unfold getIdFromToken, Auth.verifyToken. rewrite Hv, Hname. reflexivity.
Qed.

Lemma rejected_token_is_unauthorised_witness :
  authorise registry Samples.sample_world
    (Samples.request "GET" "/users/3" [("x-access-token", "expired")])
    (mkAct getUser (JObj [("id", JStr "3")]))
  = ([GetTokenFromRequest; VerifyToken "expired"],
     inl (responseUnauthorised_ "Invalid token. You may need to log in again.")).
Proof.
  apply (rejected_token_is_unauthorised registry Samples.sample_world
           (Samples.request "GET" "/users/3" [("x-access-token", "expired")])
           (mkAct getUser (JObj [("id", JStr "3")])) (Role USER) "expired"
           (Samples.jwt_error "TokenExpiredError" "jwt expired"));
    try reflexivity; discriminate.
Defined.

(** X4.  For a restricted Action and a token that verifies to a truthy
    payload whose [id] is not in id format (absent, or neither a number nor
    a string with a line of digits), the pipeline ends with Unauthorised
    (401) "Invalid token. Expected data missing from payload.", before any
    role lookup. *)
Theorem payload_without_id_is_unauthorised (st : Store) (w : World)
    (req : Request) (act : Act) (m : Z) (token : string) (payload : jsval) :
  prop_minRole (st (action act)) = Some m -> m <> Role EVERYONE ->
  header req "x-access-token" = Some token -> token <> "" ->
  Auth.verify (jwt w) token (KEBAPI_AUTH_SECRET (config w)) (now w) = inr payload ->
  truthy payload = true ->
  isIdFormat (get payload "id") = false ->
  authorise st w req act
  = ([GetTokenFromRequest; VerifyToken token],
     inl (responseUnauthorised_
            "Invalid token. Expected data missing from payload.")).
Proof.
  intros Hmin Hne Hh Hnonempty Hv Ht Hfmt.
  rewrite (authorise_id_error st w req act m token
             (CodedError "KE120" "Invalid token. Id missing from payload.")
             Hmin Hne Hh Hnonempty); [reflexivity|].
  unfold getIdFromToken, Auth.verifyToken. rewrite Hv.
  unfold Auth.spread_value. rewrite Ht. cbn. rewrite Hfmt. reflexivity.
Qed.

Lemma payload_without_id_is_unauthorised_witness :
  authorise registry MoreSamples.anonymous_world
    (Samples.request "GET" "/users/3" [("x-access-token", "anything")])
    (mkAct getUser (JObj [("id", JStr "3")]))
  = ([GetTokenFromRequest; VerifyToken "anything"],
     inl (responseUnauthorised_
            "Invalid token. Expected data missing from payload.")).
Proof.
  apply (payload_without_id_is_unauthorised registry MoreSamples.anonymous_world
           (Samples.request "GET" "/users/3" [("x-access-token", "anything")])
           (mkAct getUser (JObj [("id", JStr "3")])) (Role USER) "anything"
           (JObj Samples.claims));
    try reflexivity; discriminate.
Defined.

(** X5.  A request without a usable token is treated alike whether the
    header is absent or present with an empty value: for a restricted
    Action the pipeline ends with Unauthorised (401) "Missing an expected
    token." without verifying anything.  [getTokenFromRequest] returns a
    token exactly when the header holds a non-empty value, and then that
    value. *)
Theorem empty_token_header_is_missing (st : Store) (w : World) (req : Request)
    (act : Act) (m : Z) :
  prop_minRole (st (action act)) = Some m -> m <> Role EVERYONE ->
  (header req "x-access-token" = Some "" ->
   authorise st w req act
   = ([GetTokenFromRequest],
      inl (responseUnauthorised_ "Missing an expected token.")))
  /\ (forall token,
        snd (getTokenFromRequest req) = inr token
        <-> header req "x-access-token" = Some token /\ token <> "").
Proof.
  intros Hmin Hne. split.
  - intros Hh. apply authorise_stopped.
    rewrite (evaluatePermissions_restricted st w req act m Hmin Hne).
    unfold getTokenFromRequest. rewrite Hh. reflexivity.
  - intros token. split; [apply getTokenFromRequest_value|].
    intros [Hh Hnonempty].
    rewrite (getTokenFromRequest_present req token Hh Hnonempty). reflexivity.
Qed.

Lemma empty_token_header_is_missing_witness :
  authorise registry Samples.sample_world
    (Samples.request "GET" "/users/3" [("x-access-token", "")])
    (mkAct getUser (JObj [("id", JStr "3")]))
  = ([GetTokenFromRequest],
     inl (responseUnauthorised_ "Missing an expected token.")).
Proof.
  apply (empty_token_header_is_missing registry Samples.sample_world
           (Samples.request "GET" "/users/3" [("x-access-token", "")])
           (mkAct getUser (JObj [("id", JStr "3")])) (Role USER));
    try reflexivity; discriminate.
Defined.

(** *** Role lookup *)

Lemma authorise_identified (st : Store) (w : World) (req : Request)
    (act : Act) (m : Z) (sid : jsval) :
  prop_minRole (st (action act)) = Some m -> m <> Role EVERYONE ->
  authenticated w req sid ->
  exists token,
    header req "x-access-token" = Some token
    /\ evaluatePermissions st w req act
       = (([GetTokenFromRequest; VerifyToken token]
           ++ fst (permissionsOf st w sid act))%list,
          snd (permissionsOf st w sid act)).
Proof.
  intros Hmin Hne Hauth.
  destruct (authenticated_steps w req sid Hauth) as (token & Htok & Hid).
  exists token. split.
  - destruct (getTokenFromRequest_value req token) as [Hh _];
      [rewrite Htok; reflexivity | exact Hh].
  - exact (evaluatePermissions_identified st w req act m token sid
             Hmin Hne Htok Hid).
Qed.

(** X6.  For a restricted Action and a valid token whose subject the data
    layer does not know (the role query returns no row) or cannot look up
    (the query throws), the pipeline ends with Internal Server Error (500)
    "Error checking role permissions." right after the role lookup, and
    the Action is not executed. *)
Theorem unknown_subject_is_internal_error (st : Store) (w : World)
    (req : Request) (act : Act) (m : Z) (sid : jsval) :
  prop_minRole (st (action act)) = Some m -> m <> Role EVERYONE ->
  authenticated w req sid ->
  (dal_getUserRole w sid = inr [] \/ exists e, dal_getUserRole w sid = inl e) ->
  exists token,
    header req "x-access-token" = Some token
    /\ authorise st w req act
       = ([GetTokenFromRequest; VerifyToken token; GetUserRole sid],
          inl (responseInternalServerError_ "Error checking role permissions.")).
Proof.
  intros Hmin Hne Hauth Hrole.
  destruct (authorise_identified st w req act m sid Hmin Hne Hauth)
    as (token & Hh & Hperm).
  exists token. split; [exact Hh|].
  apply authorise_stopped. rewrite Hperm.
  unfold permissionsOf, checkRoleGrantsPermissionForAction.
  destruct Hrole as [Hrole|[e Hrole]]; rewrite Hrole; cbn;
    unfold on_role_error; [reflexivity|].
  destruct (has_code e "KE130"); reflexivity.
Qed.

Lemma unknown_subject_is_internal_error_witness :
  exists token,
    header (Samples.request "GET" "/users/3" [("x-access-token", "token-of-minus-5")])
      "x-access-token" = Some token
    /\ authorise registry Samples.sample_world
         (Samples.request "GET" "/users/3" [("x-access-token", "token-of-minus-5")])
         (mkAct getUser (JObj [("id", JStr "3")]))
       = ([GetTokenFromRequest; VerifyToken token; GetUserRole (JNum (Fin (-5)))],
          inl (responseInternalServerError_ "Error checking role permissions.")).
Proof.
  apply (unknown_subject_is_internal_error registry Samples.sample_world
           (Samples.request "GET" "/users/3" [("x-access-token", "token-of-minus-5")])
           (mkAct getUser (JObj [("id", JStr "3")])) (Role USER)
           (JNum (Fin (-5)))).
  - reflexivity.
  - discriminate.
  - exists "token-of-minus-5", (JObj (("id", JNum (Fin (-5))) :: Samples.claims)).
    repeat split; discriminate.
  - left. reflexivity.
Defined.

(** X7.  For a restricted Action without owner and a valid token whose
    subject's role does not cover the minimum role, the pipeline makes the
    token, role and ownership calls and ends with Forbidden (403); the
    Action is not executed. *)
Theorem insufficient_role_is_forbidden (st : Store) (w : World) (req : Request)
    (act : Act) (m : Z) (sid : jsval) (row : Dal.RoleRow) :
  prop_minRole (st (action act)) = Some m -> m <> Role EVERYONE ->
  prop_hasOwner (st (action act)) = JBool false ->
  authenticated w req sid ->
  has_role w sid row ->
  role_covers (Dal.id row) (Some m) = false ->
  exists token,
    header req "x-access-token" = Some token
    /\ authorise st w req act
       = ([GetTokenFromRequest; VerifyToken token; GetUserRole sid;
           CheckOwnership],
          inr (responseForbidden_ "You do not have permission to do that.")).
Proof.
  intros Hmin Hne Hown Hauth Hrole Hcov.
  destruct (authorise_identified st w req act m sid Hmin Hne Hauth)
    as (token & Hh & Hperm).
  exists token. split; [exact Hh|].
  assert (Hother : Dal.id row <> Role ADMIN).
  { intros Hadmin. unfold role_covers in Hcov. rewrite Hadmin in Hcov.
    discriminate Hcov. }
  rewrite (permissionsOf_other st w sid act row Hrole Hother) in Hperm.
  rewrite (checkOwnership_unowned st sid act Hown), Hmin, Hcov in Hperm.
  cbn [fst snd app] in Hperm.
  rewrite (authorise_value st w req act _ _ Hperm). reflexivity.
Qed.

Lemma insufficient_role_is_forbidden_witness :
  exists token,
    header (Samples.request "GET" "/users" [("x-access-token", "token-of-3")])
      "x-access-token" = Some token
    /\ authorise registry Samples.sample_world
         (Samples.request "GET" "/users" [("x-access-token", "token-of-3")])
         (mkAct getUsers (JObj []))
       = ([GetTokenFromRequest; VerifyToken token; GetUserRole (JNum (Fin 3));
           CheckOwnership],
          inr (responseForbidden_ "You do not have permission to do that.")).
Proof.
  apply (insufficient_role_is_forbidden registry Samples.sample_world
           (Samples.request "GET" "/users" [("x-access-token", "token-of-3")])
           (mkAct getUsers (JObj [])) (Role ADMIN) (JNum (Fin 3))
           (Dal.mkRoleRow (Role USER) "user")).
  - reflexivity.
  - discriminate.
  - reflexivity.
  - exists "token-of-3", (JObj (("id", JNum (Fin 3)) :: Samples.claims)).
    repeat split; discriminate.
  - exists []. reflexivity.
  - reflexivity.
Defined.

Lemma in_bind_guard {A B : Type} (m : M A) (h : exn -> jsval)
    (f : A -> Handler B) (ev : Event) :
  In ev (fst (bind (guard m h) f)) ->
  In ev (fst m) \/ exists a, snd m = inr a /\ In ev (fst (f a)).
Proof.
  destruct m as [t [e|a]]; cbn; [auto|].
  destruct (f a) as [t' r] eqn:Hf. cbn. intros Hin.
  apply in_app_or in Hin. destruct Hin as [Hin|Hin]; [auto|].
  right. exists a. rewrite Hf. auto.
Qed.

Lemma getTokenFromRequest_events (req : Request) :
  fst (getTokenFromRequest req) = [GetTokenFromRequest].
Proof.
  unfold getTokenFromRequest.
  destruct (header req "x-access-token") as [t|]; [|reflexivity].
  destruct (String.eqb t ""); reflexivity.
Qed.

Lemma getIdFromToken_events (w : World) (token : string) :
  fst (getIdFromToken w token) = [VerifyToken token].
Proof.
  unfold getIdFromToken.
  destruct (Auth.verifyToken (jwt w) (config w) (now w) token) as [e|vr];
    [reflexivity|].
  cbn. destruct (Auth.verified vr).
  - destruct (Auth.payload vr); [|reflexivity].
    destruct (negb _); reflexivity.
  - destruct (reject_code _); reflexivity.
Qed.

Lemma permissionsOf_role_lookups (st : Store) (w : World) (id sid : jsval)
    (act : Act) :
  In (GetUserRole sid) (fst (permissionsOf st w id act)) -> sid = id.
Proof.
  unfold permissionsOf, checkRoleGrantsPermissionForAction,
    checkOwnershipGrantsPermissionForAction.
  repeat match goal with
         | |- context [match ?x with _ => _ end] =>
             lazymatch x with
             | context [match _ with _ => _ end] => fail
             | _ => destruct x; cbn
             end
         end;
    intros H;
    repeat match goal with
           | H : _ \/ _ |- _ => destruct H
           | H : False |- _ => destruct H
           | H : GetUserRole _ = GetUserRole _ |- _ =>
               injection H as <-; reflexivity
           | H : _ = GetUserRole _ |- _ => discriminate H
           end.
Qed.

(** X8.  The pipeline asks the data layer for the role of [sid] only after
    the request's non-empty token has been verified and its payload names
    [sid], in id format, as the subject: no role is looked up for a request
    without a verified token, nor for an id other than the token's. *)
Theorem role_lookup_only_for_verified_subject (st : Store) (w : World)
    (req : Request) (act : Act) (sid : jsval) :
  In (GetUserRole sid) (calls st w req act) ->
  authenticated w req sid.
Proof.
  unfold calls, authorise. intros Hin.
  assert (Hperm : In (GetUserRole sid) (fst (evaluatePermissions st w req act))).
  { destruct (evaluatePermissions st w req act) as [t [r|[hr ho]]];
      [exact Hin|].
    rewrite bind_value in Hin. cbn [fst] in Hin |- *.
    apply in_app_or in Hin. destruct Hin as [Hin|Hin]; [exact Hin|].
    exfalso. unfold executeIfPermitted in Hin.
    destruct (hr && ho); [|destruct Hin].
    pose proof (execute_events w act) as He.
    destruct (execute w act) as [t' [e|r]]; cbn in He, Hin; subst t';
      destruct Hin as [Hin|[]]; discriminate Hin. }
  clear Hin. unfold evaluatePermissions in Hperm.
  destruct (prop_minRole (st (action act))) as [m|]; [|destruct Hperm].
  destruct (m =? Role EVERYONE); [destruct Hperm|].
  apply in_bind_guard in Hperm.
  destruct Hperm as [Hin|(token & Htok & Hperm)].
  { rewrite getTokenFromRequest_events in Hin.
    destruct Hin as [Hin|[]]; discriminate Hin. }
  apply in_bind_guard in Hperm.
  destruct Hperm as [Hin|(id & Hid & Hperm)].
  { rewrite getIdFromToken_events in Hin.
    destruct Hin as [Hin|[]]; discriminate Hin. }
  apply permissionsOf_role_lookups in Hperm. subst id.
  destruct (getTokenFromRequest_value req token Htok) as [Hh Hnonempty].
  destruct (getIdFromToken_value w token sid Hid)
    as (payload & Hv & Ht & Hget & Hfmt).
  exists token, payload. auto 10.
Qed.

Lemma role_lookup_only_for_verified_subject_witness :
  authenticated Samples.sample_world
    (Samples.request "GET" "/users/9" [("x-access-token", "token-of-3")])
    (JNum (Fin 3)).
Proof.
  apply (role_lookup_only_for_verified_subject registry Samples.sample_world
           (Samples.request "GET" "/users/9" [("x-access-token", "token-of-3")])
           (mkAct getUser (JObj [("id", JStr "9")])) (JNum (Fin 3))).
  vm_compute. auto.
Defined.

(** *** Routing *)

Import Routing.

Ltac route_cases :=
  unfold route, matched, route_DELETE, route_POST, route_GET, route_dev_GET;
  repeat match goal with
         | |- context [if ?b then _ else _] =>
             lazymatch b with
             | context [if _ then _ else _] => fail
             | _ => destruct b; cbn
             end
         end.

Lemma registry_complete (a : Action) :
  a <> responseUnauthorised ->
  exists m b,
    prop_minRole (registry a) = Some m /\ prop_hasOwner (registry a) = JBool b.
Proof.
  intros Hne. destruct a; try contradiction; cbn; eauto.
Qed.

Lemma route_not_responseUnauthorised (w : World) (req : Request)
    (postData : jsval) :
  action (route w req postData) <> responseUnauthorised.
Proof. route_cases; discriminate. Qed.

(** X9.  Every Action that [route] can return carries registered
    metadata: a minimum role and a boolean owner flag.  Moreover the
    ownership check never throws on a routed request: for an owner-scoped
    Action the router always supplies an argument object with an own [id].
    So neither the "misconfiguration" response nor the KE110/KE111 ones
    can arise from routing. *)
Theorem routed_actions_are_registered (w : World) (req : Request)
    (postData : jsval) :
  (exists m b,
     prop_minRole (registry (action (route w req postData))) = Some m
     /\ prop_hasOwner (registry (action (route w req postData))) = JBool b)
  /\ (forall sid, exists granted,
        checkOwnershipGrantsPermissionForAction registry sid
          (route w req postData)
        = ([CheckOwnership], inr granted)).
Proof.
  destruct (registry_complete _ (route_not_responseUnauthorised w req postData))
    as (m & b & Hmin & Hown).
  split; [eauto|].
  intros sid. destruct b.
  - destruct (route_owner_args w req postData Hown)
      as (id & rest & Hargs & Hplain).
    rewrite (checkOwnership_owned registry sid _ Hown), Hargs.
    cbn [has_own_id assoc String.eqb Ascii.eqb Bool.eqb get own_property parseInt].
    rewrite Hplain. eexists. reflexivity.
  - rewrite (checkOwnership_unowned registry sid _ Hown). eauto.
Qed.

(** X10.  Outside the development environment [route] never resolves to
    one of the development Actions (getToken, verifyToken, getHash,
    resetTestDB, runAdminTests), whatever the request; and in every
    environment each of these Actions is registered for administrators
    only. *)
Theorem dev_routes_are_gated (w : World) (req : Request) (postData : jsval) :
  (isDev (config w) = false ->
   dev_only (action (route w req postData)) = false)
  /\ (forall a, dev_only a = true ->
        prop_minRole (registry a) = Some (Role ADMIN)
        /\ prop_hasOwner (registry a) = JBool false).
Proof.
  split.
  - intros Hdev. unfold route, matched. rewrite Hdev.
    assert (Hnone : forall meth segs,
              route_dev_GET false meth segs None = None) by reflexivity.
    rewrite Hnone.
    unfold route_DELETE, route_POST, route_GET.
    repeat match goal with
           | |- context [if ?b then _ else _] =>
               lazymatch b with
               | context [if _ then _ else _] => fail
               | _ => destruct b; cbn
               end
           end; reflexivity.
  - intros a Ha. destruct a; try discriminate Ha; split; reflexivity.
Qed.

Lemma dev_routes_are_gated_witness :
  dev_only (action (route MoreSamples.production_world
                      (Samples.request "GET" "/resettestdb" []) JUndefined))
  = false.
Proof.
  apply (dev_routes_are_gated MoreSamples.production_world
           (Samples.request "GET" "/resettestdb" []) JUndefined).
  reflexivity.
Defined.

Example run_dev_route :
  action (route Samples.sample_world
            (Samples.request "GET" "/resettestdb" []) JUndefined) = resetTestDB
  /\ action (route MoreSamples.production_world
               (Samples.request "GET" "/resettestdb" []) JUndefined)
     = responseNotFound.
Proof. split; reflexivity. Qed.

(** X11.  A request whose method is none of GET, POST and DELETE matches
    no route: it is resolved to [responseNotFound] and the handler answers
    404 "Not Found" without touching the database, a token or a role. *)
Theorem other_methods_are_not_found (w : World) (req : Request) :
  method req <> "GET" -> method req <> "POST" -> method req <> "DELETE" ->
  (forall postData, route w req postData = mkAct responseNotFound JUndefined)
  /\ handler registry w req
     = Some ([Execute responseNotFound JUndefined], not_found_envelope).
Proof.
  intros Hget Hpost Hdelete.
  assert (Hun : unmatched (isDev (config w)) req = true).
  { unfold unmatched, matched, route_DELETE, route_POST, route_GET,
      route_dev_GET, discriminant.
    destruct (String.eqb_spec (method req) "GET"); [contradiction|].
    destruct (String.eqb_spec (method req) "POST"); [contradiction|].
    destruct (String.eqb_spec (method req) "DELETE"); [contradiction|].
    rewrite !andb_false_r. reflexivity. }
  assert (Hroute : forall postData,
            route w req postData = mkAct responseNotFound JUndefined).
  { intros postData. unfold route.
    rewrite (unmatched_any_body _ req (default_object postData) Hun).
    reflexivity. }
  split; [exact Hroute|].
  unfold handler.
  destruct (String.eqb_spec (method req) "POST"); [contradiction|].
  rewrite Hroute, serve_not_found. reflexivity.
Qed.

Lemma other_methods_are_not_found_witness :
  handler registry Samples.sample_world (Samples.request "PUT" "/users/3" [])
  = Some ([Execute responseNotFound JUndefined], not_found_envelope).
Proof.
  apply (other_methods_are_not_found Samples.sample_world
           (Samples.request "PUT" "/users/3" [])); discriminate.
Defined.

(** *** Request bodies *)

Example empty_body_is_not_measured :
  getPostData MoreSamples.configured_world
    (Samples.request "POST" "/users/login"
       [("content-type", "application/x-www-form-urlencoded")])
  = Resolved (JObj []).
Proof. reflexivity. Qed.

Example rejection_names_the_content_type :
  getPostData Samples.sample_world
    (Samples.request "POST" "/users/login" [("content-type", "text/plain")])
  = Rejected "POST data content-type must be 'application/x-www-form-urlencoded' or 'application/json', instead received 'text/plain'".
Proof. reflexivity. Qed.

(** X12.  A POST request whose content type is not exactly one of the two
    accepted ones is answered 400 "Bad Request" before routing, whatever
    its path and its body; so is one of an accepted content type whose
    body, not empty, is longer than the configured limit and is of the
    form type or parses as JSON.  No call is made, and the answer is never
    413.  An empty body is never rejected for its size, whatever the
    limit, since the size is tested when a chunk arrives. *)
Theorem unreadable_post_is_bad_request (st : Store) (w : World) (req : Request) :
  method req = "POST" ->
  (accepted_content_type req = false
   \/ (size_limit_exceeded w req = true /\ body_parses w req = true) ->
   handler st w req
   = Some ([], responseBadRequest_
                 "There was a problem with the post data received in the request.")
   /\ status_is
        (responseBadRequest_
           "There was a problem with the post data received in the request.")
        responseCodes.PayloadTooLarge = false)
  /\ (accepted_content_type req = true -> body req = "" ->
      forall reason, getPostData w req <> Rejected reason).
Proof.
  intros Hpost. split.
  - intros Hbad. split; [|reflexivity].
    unfold handler, getPostData. rewrite Hpost.
    cbn [String.eqb Ascii.eqb Bool.eqb].
    unfold accepted_content_type, body_parses in Hbad.
    destruct (header req "content-type") as [ct|]; [|reflexivity].
    destruct (String.eqb ct APP_FORM_URLENCODED) eqn:Hform; cbn [orb negb].
    + destruct Hbad as [Hbad|[Hsize _]]; [discriminate Hbad|].
      rewrite Hsize. reflexivity.
    + destruct (String.eqb ct APP_JSON) eqn:Hjson; cbn [negb];
        [|reflexivity].
      destruct Hbad as [Hbad|[Hsize Hparse]]; [discriminate Hbad|].
      cbn [orb] in Hparse.
      destruct (JSON_parse w (body req)); [|discriminate Hparse].
      rewrite Hsize. reflexivity.
  - intros Hacc Hempty reason. unfold getPostData, size_limit_exceeded.
    unfold accepted_content_type in Hacc.
    destruct (header req "content-type") as [ct|]; [|discriminate Hacc].
    rewrite Hacc, Hempty. cbn [negb String.eqb andb].
    destruct (String.eqb ct APP_FORM_URLENCODED); [discriminate|].
    destruct (String.eqb ct APP_JSON); [|discriminate].
    destruct (JSON_parse w ""); discriminate.
Qed.

Lemma unreadable_post_is_bad_request_witness :
  handler registry Samples.sample_world
    (Samples.request "POST" "/users/login" [("content-type", "application/json; charset=utf-8")])
  = Some ([], responseBadRequest_
                "There was a problem with the post data received in the request.").
Proof.
  destruct (unreadable_post_is_bad_request registry Samples.sample_world
              (Samples.request "POST" "/users/login"
                 [("content-type", "application/json; charset=utf-8")]))
    as [Hbad _].
  - reflexivity.
  - apply Hbad. left. reflexivity.
Defined.

(** *** The command line *)

Import CommandLine.

Lemma parseArgv_names_from (argv : list string) (p : Parser) :
  map command (parsed (pushIfPending (fold_left step argv p)))
  = (map command (parsed (pushIfPending p)) ++ switch_names argv)%list.
Proof.
  revert p. induction argv as [|a rest IH]; intros p.
  - cbn. rewrite app_nil_r. reflexivity.
  - cbn [fold_left]. rewrite IH. unfold step, switch_names.
    cbn [filter]. destruct (is_switch a); cbn [map filter].
    + unfold pushIfPending at 1. cbn [pending parsed].
      destruct (String.eqb (substring1 a) ""); cbn [negb].
      * reflexivity.
      * unfold pushCommand. cbn [parsed pending pendingArgs].
        rewrite map_app. cbn [map command]. rewrite <- app_assoc. reflexivity.
    + unfold pushIfPending. cbn [pending parsed].
      destruct (negb (String.eqb (pending p) "")); [|reflexivity].
      unfold pushCommand. cbn [parsed]. rewrite !map_app. reflexivity.
Qed.

(** X13.  [parseArgv] returns one command per switch that has a name, in
    the order of the command line: the commands' names are the switches
    with their prefix removed, a bare "-" giving none.  In particular a
    command line without a named switch parses to nothing, whatever other
    arguments it holds. *)
Theorem parseArgv_commands (argv : list string) :
  map command (parseArgv argv) = switch_names argv
  /\ (switch_names argv = [] -> parseArgv argv = []).
Proof.
  assert (Hnames : map command (parseArgv argv) = switch_names argv).
  { unfold parseArgv. rewrite parseArgv_names_from. reflexivity. }
  split; [exact Hnames|].
  intros Hnone. rewrite Hnone in Hnames.
  destruct (parseArgv argv); [reflexivity | discriminate Hnames].
Qed.

Lemma unparse_app (cs cs' : list Command) :
  unparse (cs ++ cs') = (unparse cs ++ unparse cs')%list.
Proof. unfold unparse. apply flat_map_app. Qed.

Lemma is_switch_spelled (a : string) :
  is_switch a = true -> a = String "-"%char (substring1 a).
Proof.
  destruct a as [|c r]; cbn; [discriminate|].
  destruct (Ascii.eqb_spec c "-"%char) as [->|_]; [reflexivity|discriminate].
Qed.

(** What is still to be spelled out of a parser state. *)
Lemma parseArgv_unparse_from (argv : list string) (p : Parser) :
  forallb (fun a => negb (String.eqb a "-")) argv = true ->
  (pending p = "" ->
   pendingArgs p = [] /\ match argv with [] => True | a :: _ => is_switch a = true end) ->
  unparse (parsed (pushIfPending (fold_left step argv p)))
  = (unparse (parsed (pushIfPending p)) ++ argv)%list.
Proof.
  revert p. induction argv as [|a rest IH]; intros p Hnamed Hp.
  - cbn. rewrite app_nil_r. reflexivity.
  - cbn [forallb] in Hnamed. apply andb_true_iff in Hnamed.
    destruct Hnamed as [Ha Hrest]. cbn [fold_left].
    destruct (is_switch a) eqn:Hsw.
    + pose proof (is_switch_spelled a Hsw) as Hspell.
      assert (Hname : substring1 a <> "").
      { intros Hempty. rewrite Hempty in Hspell. subst a.
        cbn in Ha. discriminate Ha. }
      rewrite IH; [|exact Hrest|].
      * unfold step. rewrite Hsw. unfold pushIfPending at 1.
        cbn [pending parsed pendingArgs].
        destruct (String.eqb_spec (substring1 a) ""); [contradiction|].
        cbn [negb]. unfold pushCommand at 1. cbn [parsed pending pendingArgs].
        rewrite unparse_app.
        assert (Hargs : pendingArgs (pushIfPending p) = []).
        { unfold pushIfPending.
          destruct (String.eqb_spec (pending p) "") as [He|_]; cbn [negb].
          - apply Hp. exact He.
          - reflexivity. }
        rewrite Hargs. cbn. rewrite <- Hspell, <- app_assoc. reflexivity.
      * unfold step. rewrite Hsw. cbn [pending]. intros He. contradiction.
    + assert (Hpending : pending p <> "").
      { intros He. destruct (Hp He) as [_ Hhd]. cbn in Hhd. congruence. }
      rewrite IH; [|exact Hrest|].
      * unfold step. rewrite Hsw. unfold pushIfPending.
        cbn [pending parsed pendingArgs].
        destruct (String.eqb_spec (pending p) ""); [contradiction|].
        cbn [negb]. unfold pushCommand. cbn [parsed].
        rewrite !unparse_app. cbn.
        repeat rewrite app_nil_r. repeat rewrite <- app_assoc. cbn.
        repeat rewrite <- app_assoc. reflexivity.
      * unfold step. rewrite Hsw. cbn [pending]. intros He. contradiction.
Qed.

(** X14.  On a command line that is empty or starts with a switch, and on
    which every switch has a name, [parseArgv] loses nothing: spelling the
    parsed commands out again, each as its switch followed by its
    arguments, gives the command line back. *)
Theorem parseArgv_round_trip (argv : list string) :
  well_formed argv = true ->
  unparse (parseArgv argv) = argv.
Proof.
  unfold well_formed. intros H. apply andb_true_iff in H.
  destruct H as [Hnamed Hstart].
  unfold parseArgv. rewrite parseArgv_unparse_from; [reflexivity|exact Hnamed|].
  intros _. split; [reflexivity|].
  destruct argv; [exact I | exact Hstart].
Qed.

Lemma parseArgv_round_trip_witness :
  unparse (parseArgv ["-act"; "getToken"; "{id:1}"; "-h"; "-v"; "2"; "bananas"])
  = ["-act"; "getToken"; "{id:1}"; "-h"; "-v"; "2"; "bananas"].
Proof.
  apply (parseArgv_round_trip
           ["-act"; "getToken"; "{id:1}"; "-h"; "-v"; "2"; "bananas"]).
  reflexivity.
Defined.

Lemma fold_step_arguments (args : list string) (p : Parser) :
  forallb (fun a => negb (is_switch a)) args = true ->
  fold_left step args p
  = {| parsed := parsed p; pending := pending p;
       pendingArgs := pendingArgs p ++ args |}.
Proof.
  revert p. induction args as [|a rest IH]; intros p H.
  - cbn. rewrite app_nil_r. destruct p; reflexivity.
  - cbn [forallb] in H. apply andb_true_iff in H. destruct H as [Ha Hrest].
    cbn [fold_left]. rewrite (IH _ Hrest). unfold step.
    apply negb_true_iff in Ha. rewrite Ha. cbn. rewrite <- app_assoc.
    reflexivity.
Qed.

Lemma parseArgv_first_command (leading : list string) (name : string)
    (args : list string) :
  forallb (fun a => negb (is_switch a)) leading = true ->
  forallb (fun a => negb (is_switch a)) args = true ->
  name <> "" ->
  parseArgv (leading ++ String "-"%char name :: args)
  = [mkCommand name (leading ++ args)].
Proof.
  intros Hleading Hargs Hname. unfold parseArgv.
  rewrite fold_left_app, (fold_step_arguments leading _ Hleading).
  cbn [fold_left]. unfold step at 2. cbn [is_switch Ascii.eqb Bool.eqb].
  cbn [parsed pending pendingArgs pushIfPending String.eqb negb substring1].
  rewrite (fold_step_arguments args _ Hargs).
  unfold pushIfPending. cbn [parsed pending pendingArgs].
  destruct (String.eqb_spec name ""); [contradiction|]. reflexivity.
Qed.

(** X15.  Arguments that precede the first switch are not dropped and not
    reported on their own: [parseArgv] hands them to the first command,
    ahead of that command's own arguments. *)
Theorem parseArgv_leading_arguments (leading : list string) (name : string)
    (args : list string) :
  forallb (fun a => negb (is_switch a)) leading = true ->
  forallb (fun a => negb (is_switch a)) args = true ->
  name <> "" ->
  parseArgv (leading ++ String "-"%char name :: args)
  = [mkCommand name (leading ++ args)].
Proof. exact (parseArgv_first_command leading name args). Qed.

Lemma parseArgv_leading_arguments_witness :
  parseArgv (["stray"] ++ String "-"%char "act" :: ["resetTestDB"])
  = [mkCommand "act" (["stray"] ++ ["resetTestDB"])].
Proof.
  apply (parseArgv_leading_arguments ["stray"] "act" ["resetTestDB"]);
    [reflexivity | reflexivity | discriminate].
Defined.

Lemma api_export_name (name : string) (a : Action) :
  api_export name = Some a -> is_switch name = false /\ name <> "".
Proof.
  unfold api_export.
  repeat match goal with
         | |- context [String.eqb name ?l] =>
             destruct (String.eqb_spec name l) as [->|_];
             [intros _; split; [reflexivity | discriminate] |]
         end.
  discriminate.
Qed.

Lemma run_item_events (w : World) (other : string -> jsval -> result jsval)
    (item : Command) :
  forallb is_execute (fst (run_item w other item)) = true.
Proof.
  unfold run_item. destruct (String.eqb (command item) "act"); [|reflexivity].
  unfold parse_args, invoke.
  pose proof (fun a v => execute_events w (mkAct a v)) as He.
  repeat match goal with
         | |- context [match ?x with _ => _ end] =>
             lazymatch x with
             | context [match _ with _ => _ end] => fail
             | execute _ _ => fail
             | _ => destruct x; cbn
             end
         end; try reflexivity;
    match goal with
    | |- context [execute w (mkAct ?a ?v)] =>
        specialize (He a v); destruct (execute w (mkAct a v)) as [t [e|r]];
        cbn in He |- *; subst t; reflexivity
    end.
Qed.

Lemma run_items_events (w : World) (other : string -> jsval -> result jsval)
    (items : list Command) :
  forallb is_execute (fst (run_items w other items)) = true.
Proof.
  induction items as [|item rest IH]; [reflexivity|].
  cbn [run_items]. pose proof (run_item_events w other item) as Hitem.
  destruct (run_item w other item) as [t [e|[]]]; cbn [fst] in Hitem.
  - exact Hitem.
  - rewrite bind_value. cbn [fst]. rewrite forallb_app, Hitem, IH. reflexivity.
Qed.

(** X16.  The command line runs Actions without any permission: for every
    name that api.js exports, [-act name json] executes that Action on the
    parsed argument and makes no other call, whatever minimum role or
    owner flag is registered on it; and for every command line the only
    calls made are executions, never a database check, a token
    verification, a role lookup or an ownership check. *)
Theorem command_line_bypasses_permissions (w : World)
    (other : string -> jsval -> result jsval) (name json : string)
    (a : Action) (v : jsval) :
  api_export name = Some a ->
  is_switch json = false -> json <> "" ->
  JSON_parse w json = Some v ->
  processCommandLine w other ["-act"; name; json]
  = ([Execute a v],
     match snd (execute w (mkAct a v)) with
     | inl e => inl e
     | inr _ => inr tt
     end)
  /\ (forall argv,
        forallb is_execute (fst (processCommandLine w other argv)) = true).
Proof.
  intros Hexport Hjson Hnonempty Hparse.
  split; [|intros argv; apply run_items_events].
  destruct (api_export_name name a Hexport) as [Hsw Hname].
  unfold processCommandLine.
  assert (Hline : parseArgv ["-act"; name; json]
                  = [mkCommand "act" [name; json]]).
  { apply (parseArgv_first_command [] "act" [name; json]);
      [reflexivity | cbn; rewrite Hsw, Hjson; reflexivity | discriminate]. }
  rewrite Hline.
  cbn [run_items]. unfold run_item, or_undefined, parse_args, invoke.
  cbn [command commandArgs nth_error String.eqb Ascii.eqb Bool.eqb].
  destruct (String.eqb_spec name ""); [contradiction|].
  destruct (String.eqb_spec json ""); [contradiction|].
  rewrite Hparse, Hexport. cbn [bind ret].
  pose proof (execute_events w (mkAct a v)) as He.
  destruct (execute w (mkAct a v)) as [t [e|r]]; cbn in He |- *; subst t;
    reflexivity.
Qed.

Lemma command_line_bypasses_permissions_witness :
  processCommandLine Samples.sample_world (fun _ _ => inr JUndefined)
    ["-act"; "getToken"; "{}"]
  = ([Execute getToken (JObj [])], inr tt).
Proof.
  apply (command_line_bypasses_permissions Samples.sample_world
           (fun _ _ => inr JUndefined) "getToken" "{}" getToken (JObj []));
    try reflexivity; discriminate.
Defined.

(** *** Response envelopes and registrations *)

Import Registry.

Lemma known_code_cases (c : Z) :
  known_code c = true ->
  c = 200 \/ c = 400 \/ c = 401 \/ c = 403 \/ c = 404 \/ c = 413 \/ c = 500.
Proof.
  unfold known_code, known_codes. cbn [existsb].
  rewrite !orb_true_iff, !Z.eqb_eq. unfold responseCodes.OK,
    responseCodes.BadRequest, responseCodes.Unauthorised,
    responseCodes.Forbidden, responseCodes.NotFound,
    responseCodes.PayloadTooLarge, responseCodes.InternalServerError.
  intuition discriminate.
Qed.

(** X17.  [formatResult] builds an envelope whose [responseCode] is the
    code given and whose [response] is the result given; the status label
    is "Unknown" exactly for a code outside [responseCodes], and two codes
    of [responseCodes] with the same label are the same code. *)
Theorem formatResult_envelope (c : Z) (r : jsval) :
  get (formatResult c r) "responseCode" = JNum (Fin c)
  /\ get (formatResult c r) "response" = r
  /\ (get (formatResult c r) "responseStatus" = JStr "Unknown"
      <-> known_code c = false)
  /\ (forall c' r',
        known_code c = true -> known_code c' = true ->
        get (formatResult c r) "responseStatus"
        = get (formatResult c' r') "responseStatus" ->
        c = c').
Proof.
  split; [reflexivity|]. split; [reflexivity|]. split.
  - unfold formatResult, known_code, known_codes. cbn [get own_property assoc].
    cbn [String.eqb Ascii.eqb Bool.eqb existsb].
    repeat match goal with
           | |- context [Z.eqb c ?k] => destruct (Z.eqb c k); cbn [orb]
           end;
      split; intros H; first [reflexivity | discriminate H].
  - intros c' r' Hc Hc' Heq.
    apply known_code_cases in Hc. apply known_code_cases in Hc'.
    repeat match goal with
           | H : _ \/ _ |- _ => destruct H
           end; subst; first [reflexivity | discriminate Heq].
Qed.

Lemma initialise_snoc (items : list Permission) (item : Permission) (st : Store) :
  initialise (items ++ [item]) st = assign (initialise items st) item.
Proof. unfold initialise. rewrite fold_left_app. reflexivity. Qed.

(** X18.  After [initialise] has gone through an array of permissions,
    an Action carries the minimum role and owner flag of the last row that
    names it, and an Action that no row names keeps the properties it had
    (undefined ones, when it had none). *)
Theorem initialise_lookup (items : list Permission) (st : Store) (a : Action) :
  initialise items st a
  = match last_permission a items with
    | Some item => props_of item
    | None => st a
    end.
Proof.
  induction items as [|item items IH] using rev_ind.
  - reflexivity.
  - rewrite initialise_snoc. unfold last_permission.
    rewrite rev_app_distr. cbn [rev app find]. unfold assign at 1.
    destruct (Action_beq a (Api.action item)); [reflexivity|].
    exact IH.
Qed.

(** *** Login and registration *)

Ltac run_cases :=
  repeat match goal with
         | |- context [match ?x with _ => _ end] =>
             lazymatch x with
             | context [match _ with _ => _ end] => fail
             | _ => destruct x eqn:?; cbn
             end
         end.

Ltac in_cases :=
  repeat match goal with
         | H : _ \/ _ |- _ => destruct H
         | H : False |- _ => destruct H
         | H : In _ _ |- _ => cbn in H
         end.

(** X19.  [loginUser] asks for a token only for the id of the first row
    found under the submitted user name (or, without a user name, under the
    submitted email), and only after the submitted password was compared
    with that row's hash and matched.  A 200 response always carries the
    token issued for that id. *)
Theorem login_token_requires_matching_password (s : Accounts.Services)
    (args : jsval) :
  (forall id,
     In (Accounts.GetToken id) (fst (Accounts.loginUser s args)) ->
     exists user rest,
       truthy (Accounts.field args "password") = true
       /\ (if truthy (Accounts.field args "username")
           then Accounts.dal_getUserByUserName s (Accounts.field args "username")
           else Accounts.dal_getUserByEmail s (Accounts.field args "email"))
          = inr (user :: rest)
       /\ Accounts.auth_comparePlainTextToHash s
            (Accounts.field args "password")
            (get (JObj user) "password_hash") = inr true
       /\ id = get (JObj user) "id")
  /\ (forall r,
        snd (Accounts.loginUser s args) = inr r ->
        status_is r responseCodes.OK = true ->
        exists id token,
          In (Accounts.GetToken id) (fst (Accounts.loginUser s args))
          /\ Accounts.auth_getToken s id = inr token
          /\ r = formatResult responseCodes.OK (JStr token)).
Proof.
  unfold Accounts.loginUser, Accounts.field.
  destruct (Accounts.destructure args) as [e|o]; cbn [fst snd].
  { split; [intros id []|intros r H; discriminate H]. }
  destruct (truthy (get o "password")) eqn:Hpw; cbn [negb orb andb];
    [|rewrite orb_true_r; cbn; split;
      [intros id []|intros r H Hs; injection H as <-; discriminate Hs]].
  rewrite orb_false_r.
  destruct (truthy (get o "username")) eqn:Hu; cbn [negb andb].
  - destruct (Accounts.dal_getUserByUserName s (get o "username"))
      as [e|[|user rest]]; cbn.
    + split; [intros id H; in_cases; discriminate|intros r H; discriminate H].
    + split; [intros id H; in_cases; discriminate
             |intros r H Hs; injection H as <-; discriminate Hs].
    + destruct (Accounts.auth_comparePlainTextToHash s (get o "password")
                  (get (JObj user) "password_hash")) as [e|[|]] eqn:Hcmp; cbn.
      * split; [intros id H; in_cases; discriminate|intros r H; discriminate H].
      * destruct (Accounts.auth_getToken s (get (JObj user) "id"))
          as [e|token] eqn:Htok; cbn.
        -- split; [|intros r H; discriminate H].
           intros id H. in_cases; try discriminate.
           injection H as <-. exists user, rest. auto.
        -- split.
           ++ intros id H. in_cases; try discriminate.
              injection H as <-. exists user, rest. auto.
           ++ intros r H _. injection H as <-.
              exists (get (JObj user) "id"), token. auto 6.
      * split; [intros id H; in_cases; discriminate
               |intros r H Hs; injection H as <-; discriminate Hs].
  - destruct (truthy (get o "email")) eqn:He; cbn [negb].
    + destruct (Accounts.dal_getUserByEmail s (get o "email"))
        as [e|[|user rest]]; cbn.
      * split; [intros id H; in_cases; discriminate|intros r H; discriminate H].
      * split; [intros id H; in_cases; discriminate
               |intros r H Hs; injection H as <-; discriminate Hs].
      * destruct (Accounts.auth_comparePlainTextToHash s (get o "password")
                    (get (JObj user) "password_hash")) as [e|[|]] eqn:Hcmp; cbn.
        -- split; [intros id H; in_cases; discriminate|intros r H; discriminate H].
        -- destruct (Accounts.auth_getToken s (get (JObj user) "id"))
             as [e|token] eqn:Htok; cbn.
           ++ split; [|intros r H; discriminate H].
              intros id H. in_cases; try discriminate.
              injection H as <-. exists user, rest. auto.
           ++ split.
              ** intros id H. in_cases; try discriminate.
                 injection H as <-. exists user, rest. auto.
              ** intros r H _. injection H as <-.
                 exists (get (JObj user) "id"), token. auto 6.
        -- split; [intros id H; in_cases; discriminate
                  |intros r H Hs; injection H as <-; discriminate Hs].
    + cbn. split; [intros id []
                  |intros r H Hs; injection H as <-; discriminate Hs].
Qed.

Lemma destructure_value (args : jsval) :
  args <> JNull -> exists o, Accounts.destructure args = inr o.
Proof. destruct args; try contradiction; cbn; eauto. Qed.

Lemma andThen_call_events {A B : Type} (c : Accounts.Call) (r : result A)
    (f : A -> Accounts.Run B) :
  exists t, fst (Accounts.andThen (Accounts.call c r) f) = c :: t.
Proof.
  unfold Accounts.andThen, Accounts.call. destruct r as [e|x].
  - exists []. reflexivity.
  - destruct (f x) as [t' r']. exists t'. reflexivity.
Qed.

Lemma andThen_first_event {A B : Type} (m : Accounts.Run A)
    (f : A -> Accounts.Run B) (c : Accounts.Call) (t : list Accounts.Call) :
  fst m = c :: t -> exists t', fst (Accounts.andThen m f) = c :: t'.
Proof.
  destruct m as [tm [e|x]]; cbn; intros ->; [eauto|].
  destruct (f x) as [t' r']. cbn. eauto.
Qed.

(** X20.  [loginUser], given anything but null, answers 400 "Bad Request"
    without calling the data layer exactly when the password is missing
    (or falsy), or both the user name and the email are. *)
Theorem login_bad_request_iff (s : Accounts.Services) (args : jsval) :
  args <> JNull ->
  (Accounts.loginUser s args
   = ([], inr (formatResult responseCodes.BadRequest JUndefined))
   <-> truthy (Accounts.field args "password") = false
       \/ (truthy (Accounts.field args "username") = false
           /\ truthy (Accounts.field args "email") = false)).
Proof.
  intros Hnull. destruct (destructure_value args Hnull) as [o Ho].
  unfold Accounts.loginUser, Accounts.field. rewrite Ho. cbn beta iota.
  destruct (truthy (get o "password")) eqn:Hpw; cbn [negb];
    [|rewrite orb_true_r; split; [auto | reflexivity]].
  rewrite orb_false_r.
  destruct (truthy (get o "username")) eqn:Hu; cbn [negb andb].
  - split; [|intros [H|[H _]]; discriminate H].
    intros H. apply (f_equal fst) in H.
    match type of H with
    | fst (Accounts.andThen (Accounts.andThen (Accounts.call ?c ?r) ?f) ?g) = _ =>
        destruct (andThen_call_events c r f) as [t Ht];
        destruct (andThen_first_event _ g c t Ht) as [t' Ht'];
        rewrite Ht' in H; discriminate H
    end.
  - destruct (truthy (get o "email")) eqn:He; cbn [negb].
    + split; [|intros [H|[_ H]]; discriminate H].
      intros H. apply (f_equal fst) in H.
      match type of H with
      | fst (Accounts.andThen (Accounts.andThen (Accounts.call ?c ?r) ?f) ?g) = _ =>
          destruct (andThen_call_events c r f) as [t Ht];
          destruct (andThen_first_event _ g c t Ht) as [t' Ht'];
          rewrite Ht' in H; discriminate H
      end.
    + split; [auto | reflexivity].
Qed.

Lemma login_bad_request_iff_witness :
  Accounts.loginUser MoreSamples.sample_services
    (JObj [("username", JStr "ada")])
  = ([], inr (formatResult responseCodes.BadRequest JUndefined))
  <-> truthy (Accounts.field (JObj [("username", JStr "ada")]) "password") = false
      \/ (truthy (Accounts.field (JObj [("username", JStr "ada")]) "username") = false
          /\ truthy (Accounts.field (JObj [("username", JStr "ada")]) "email") = false).
Proof.
  apply (login_bad_request_iff MoreSamples.sample_services
           (JObj [("username", JStr "ada")])).
  discriminate.
Defined.

Example run_login :
  Accounts.loginUser MoreSamples.sample_services
    (JObj [("username", JStr "ada"); ("password", JStr "secret")])
  = ([Accounts.GetUserByUserName (JStr "ada");
      Accounts.ComparePlainTextToHash (JStr "secret") (JStr "hash-of-secret");
      Accounts.GetToken (JNum (Fin 3))],
     inr (formatResult 200 (JStr "token-of-3")))
  /\ Accounts.loginUser MoreSamples.sample_services
       (JObj [("username", JStr "ada"); ("password", JStr "guess")])
     = ([Accounts.GetUserByUserName (JStr "ada");
         Accounts.ComparePlainTextToHash (JStr "guess") (JStr "hash-of-secret")],
        inr (formatResult 401 (JStr "Those user credentials weren't right"))).
Proof. split; reflexivity. Qed.

(** X21.  Whenever [registerUser] inserts a user, the role it passes is
    USER, the hash it passes is the one [getHash] returned for the
    submitted password, the other columns are the submitted fields, and
    both the lookup by user name and the lookup by email had returned no
    row. *)
Theorem registration_inserts_plain_users (s : Accounts.Services) (args : jsval)
    (username name surname email : jsval) (passwordHash : string) (roleId : Z) :
  In (Accounts.AddUser username name surname email passwordHash roleId)
     (fst (Accounts.registerUser s args)) ->
  roleId = Role USER
  /\ Accounts.auth_getHash s (Accounts.field args "password") = inr passwordHash
  /\ username = Accounts.field args "username"
  /\ name = Accounts.field args "name"
  /\ surname = Accounts.field args "surname"
  /\ email = Accounts.field args "email"
  /\ Accounts.dal_getUserByUserName s username = inr []
  /\ Accounts.dal_getUserByEmail s email = inr [].
Proof.
  unfold Accounts.registerUser, Accounts.field.
  destruct (Accounts.destructure args) as [e|o]; cbn [fst]; [intros []|].
  destruct (negb _); [intros []|].
  destruct (Accounts.dal_getUserByUserName s (get o "username"))
    as [e|[|u us]] eqn:Hu; cbn; try (intros H; in_cases; discriminate).
  destruct (Accounts.dal_getUserByEmail s (get o "email"))
    as [e|[|m ms]] eqn:Hm; cbn; try (intros H; in_cases; discriminate).
  destruct (Accounts.auth_getHash s (get o "password")) as [e|h] eqn:Hh; cbn;
    try (intros H; in_cases; discriminate).
  destruct (Accounts.dal_addUser s _ _ _ _ _ _) as [e|[z|]]; cbn;
    try destruct (z >? 0); try destruct (z =? 0); cbn;
    intros H; in_cases; try discriminate;
    match goal with
    | H : Accounts.AddUser _ _ _ _ _ _ = Accounts.AddUser _ _ _ _ _ _ |- _ =>
        injection H as <- <- <- <- <- <-
    end; auto 10.
Qed.

Lemma registration_inserts_plain_users_witness :
  Role USER = Role USER
  /\ Accounts.auth_getHash MoreSamples.sample_services
       (Accounts.field
          (JObj [("username", JStr "bob"); ("password", JStr "pw")]) "password")
     = inr "hash-of-pw"
  /\ JStr "bob"
     = Accounts.field
         (JObj [("username", JStr "bob"); ("password", JStr "pw")]) "username"
  /\ JUndefined
     = Accounts.field
         (JObj [("username", JStr "bob"); ("password", JStr "pw")]) "name"
  /\ JUndefined
     = Accounts.field
         (JObj [("username", JStr "bob"); ("password", JStr "pw")]) "surname"
  /\ JUndefined
     = Accounts.field
         (JObj [("username", JStr "bob"); ("password", JStr "pw")]) "email"
  /\ Accounts.dal_getUserByUserName MoreSamples.sample_services (JStr "bob")
     = inr []
  /\ Accounts.dal_getUserByEmail MoreSamples.sample_services JUndefined = inr [].
Proof.
  apply (registration_inserts_plain_users MoreSamples.sample_services
           (JObj [("username", JStr "bob"); ("password", JStr "pw")])
           (JStr "bob") JUndefined JUndefined JUndefined "hash-of-pw" (Role USER)).
  vm_compute. auto.
Defined.

(** X22.  [registerUser], given anything but null, rejects a request as
    "Missing required data." (400, without calling the data layer) exactly
    when all five fields are missing or falsy; with any one field present
    it goes on to look the user name up. *)
Theorem registration_missing_data_iff (s : Accounts.Services) (args : jsval) :
  args <> JNull ->
  (Accounts.registerUser s args
   = ([], inr (formatResult responseCodes.BadRequest
                 (Accounts.registration None "Missing required data.")))
   <-> truthy (Accounts.field args "username") = false
       /\ truthy (Accounts.field args "name") = false
       /\ truthy (Accounts.field args "surname") = false
       /\ truthy (Accounts.field args "email") = false
       /\ truthy (Accounts.field args "password") = false)
  /\ (truthy (Accounts.field args "username") = true
      \/ truthy (Accounts.field args "name") = true
      \/ truthy (Accounts.field args "surname") = true
      \/ truthy (Accounts.field args "email") = true
      \/ truthy (Accounts.field args "password") = true ->
      exists t,
        fst (Accounts.registerUser s args)
        = Accounts.GetUserByUserName (Accounts.field args "username") :: t).
Proof.
  intros Hnull. destruct (destructure_value args Hnull) as [o Ho].
  unfold Accounts.registerUser, Accounts.field. rewrite Ho. cbn beta iota.
  destruct (truthy (get o "username") || truthy (get o "name")
            || truthy (get o "surname") || truthy (get o "email")
            || truthy (get o "password")) eqn:Hany; cbn [negb].
  - split.
    + split.
      * intros H. apply (f_equal fst) in H.
        match type of H with
        | fst (Accounts.andThen (Accounts.call ?c ?r) ?f) = _ =>
            destruct (andThen_call_events c r f) as [t Ht];
            rewrite Ht in H; discriminate H
        end.
      * intros (H1 & H2 & H3 & H4 & H5).
        rewrite H1, H2, H3, H4, H5 in Hany. discriminate Hany.
    + intros _. apply andThen_call_events.
  - rewrite !orb_false_iff in Hany.
    destruct Hany as [[[[H1 H2] H3] H4] H5].
    split.
    + split; [auto | reflexivity].
    + rewrite H1, H2, H3, H4, H5. intros [H|[H|[H|[H|H]]]]; discriminate H.
Qed.

Lemma registration_missing_data_iff_witness :
  exists t,
    fst (Accounts.registerUser MoreSamples.sample_services
           (JObj [("surname", JStr "Lovelace")]))
    = Accounts.GetUserByUserName
        (Accounts.field (JObj [("surname", JStr "Lovelace")]) "username") :: t.
Proof.
  apply (registration_missing_data_iff MoreSamples.sample_services
           (JObj [("surname", JStr "Lovelace")])).
  - discriminate.
  - right. right. left. reflexivity.
Defined.

(** *** Table checks *)

Lemma collect_value (query : string -> result (list (list (string * jsval))))
    (tables found r : list string) :
  Tables.collect query tables found = inr r ->
  r = (found ++ filter (Tables.missing query) tables)%list.
Proof.
  revert found. induction tables as [|t rest IH]; intros found H.
  - cbn in H. injection H as <-. cbn. rewrite app_nil_r. reflexivity.
  - cbn [Tables.collect] in H. cbn [filter]. unfold Tables.missing at 1.
    destruct (Tables.checkTableExists query t) as [e|[|]]; [discriminate H| |].
    + cbn [negb] in H. exact (IH _ H).
    + cbn [negb] in H. rewrite (IH _ H), <- app_assoc. reflexivity.
Qed.

Lemma collect_error (query : string -> result (list (list (string * jsval))))
    (tables found : list string) (e : exn) :
  Tables.collect query tables found = inl e -> name e = "ReferenceError".
Proof.
  revert found. induction tables as [|t rest IH]; intros found H.
  - discriminate H.
  - cbn [Tables.collect] in H. unfold Tables.checkTableExists in H.
    destruct (query t) as [e'|rows].
    + injection H as <-. reflexivity.
    + exact (IH _ H).
Qed.

(** X23.  When [checkTablesExist] returns, [notFound] lists, in the order
    of [DB_TABLES], exactly the tables whose query found no row with that
    table name, and [allExist] is true exactly when that list is empty.
    When it throws, because some query failed, the error is a
    ReferenceError, not the error of the query. *)
Theorem checkTablesExist_result
    (query : string -> result (list (list (string * jsval)))) :
  (forall r,
     Tables.checkTablesExist query = inr r ->
     Tables.notFound r = filter (Tables.missing query) Tables.DB_TABLES
     /\ (Tables.allExist r = true <-> Tables.notFound r = []))
  /\ (forall e,
        Tables.checkTablesExist query = inl e -> name e = "ReferenceError").
Proof.
  unfold Tables.checkTablesExist. split.
  - intros r H.
    destruct (Tables.collect query Tables.DB_TABLES []) as [e|found] eqn:Hc;
      [discriminate H|].
    injection H as <-. cbn [Tables.notFound Tables.allExist].
    split; [exact (collect_value query _ _ _ Hc)|].
    destruct found; cbn; split; intros H; first [reflexivity | discriminate H].
  - intros e H.
    destruct (Tables.collect query Tables.DB_TABLES []) as [e'|found] eqn:Hc;
      [|discriminate H].
    injection H as <-. exact (collect_error query _ _ _ Hc).
Qed.

Example run_checkTablesExist :
  Tables.checkTablesExist MoreSamples.sample_tables
  = inr {| Tables.allExist := false;
           Tables.notFound := ["user_favourite_venues"] |}.
Proof. reflexivity. Qed.

(** *** The database gate *)

Lemma Action_beq_eq (a b : Action) : Action_beq a b = true <-> a = b.
Proof.
  split.
  - destruct a, b; cbn; intros H; first [reflexivity | discriminate H].
  - intros ->. destruct b; reflexivity.
Qed.

Lemma strict_eq_true (v : jsval) : strict_eq v (JBool true) = true <-> v = JBool true.
Proof.
  destruct v as [| |[|]|n|s|fields]; cbn; split; intros H;
    first [reflexivity | discriminate H].
Qed.

(** X24.  The handler's database gate lets a request through exactly when
    the routed Action is [responseNotFound], for which nothing is checked,
    or all of [checkDBExists() === true], [setTargetDB() === true] and
    [checkTablesExist().allExist === true] hold.  Otherwise the response
    is the 500 of the database, after the database call alone: no token is
    read, no role looked up and no Action executed. *)
Theorem database_gate (st : Store) (w : World) (req : Request) (act : Act) :
  (db_ready w act
   <-> action act = responseNotFound
       \/ (dal_checkDBExists w = inr (JBool true)
           /\ dal_setTargetDB w = inr (JBool true)
           /\ exists r,
                dal_checkTablesExist w = inr r
                /\ get r "allExist" = JBool true))
  /\ (~ db_ready w act ->
      serve st w req act = ([CheckDB], db_down_response)).
Proof.
  split.
  - unfold db_ready, ensureDbReady.
    destruct (Action_beq (action act) responseNotFound) eqn:Hnf; cbn [negb].
    + apply Action_beq_eq in Hnf. split; [auto | reflexivity].
    + assert (Hne : action act <> responseNotFound).
      { intros Heq. apply Action_beq_eq in Heq. congruence. }
      cbn.
      destruct (dal_checkDBExists w) as [e|r1]; cbn.
      { split; [discriminate | intros [H|(H & _)]; [contradiction|discriminate H]]. }
      destruct (strict_eq r1 (JBool true)) eqn:H1; cbn.
      2:{ split; [discriminate|]. intros [H|(H & _)]; [contradiction|].
          injection H as ->. discriminate H1. }
      apply strict_eq_true in H1. subst r1.
      destruct (dal_setTargetDB w) as [e|r2]; cbn.
      { split; [discriminate | intros [H|(_ & H & _)]; [contradiction|discriminate H]]. }
      destruct (strict_eq r2 (JBool true)) eqn:H2; cbn.
      2:{ split; [discriminate|]. intros [H|(_ & H & _)]; [contradiction|].
          injection H as ->. discriminate H2. }
      apply strict_eq_true in H2. subst r2.
      destruct (dal_checkTablesExist w) as [e|r3]; cbn.
      { split; [discriminate|].
        intros [H|(_ & _ & r & H & _)]; [contradiction|discriminate H]. }
      assert (Hr3 : forall b : bool,
                strict_eq (get r3 "allExist") (JBool true) = b ->
                (b = true <-> get r3 "allExist" = JBool true)).
      { intros b <-. apply strict_eq_true. }
      destruct r3 as [| |b|n|s|fields]; cbn;
        try (split; [discriminate|];
             intros [H|(_ & _ & r & H & Hall)]; [contradiction|];
             injection H as <-; discriminate Hall);
        destruct (strict_eq _ (JBool true)) eqn:H3; cbn;
        try (split; [discriminate|];
             intros [H|(_ & _ & r & H & Hall)]; [contradiction|];
             injection H as <-; apply strict_eq_true in Hall;
             cbn in Hall; congruence);
        (split; [|reflexivity]); intros _; right;
        (split; [reflexivity|]); (split; [reflexivity|]);
        eexists; (split; [reflexivity|]); apply strict_eq_true; exact H3.
  - intros Hdown. unfold db_ready in Hdown.
    destruct (snd (ensureDbReady w act)) as [e|[]] eqn:Hdb; [|contradiction].
    rewrite (serve_db_down st w req act e Hdb).
    rewrite ensureDbReady_events.
    destruct (Action_beq (action act) responseNotFound) eqn:Hnf; [|reflexivity].
    unfold ensureDbReady in Hdb. rewrite Hnf in Hdb. discriminate Hdb.
Qed.

(** *** Id format, exactly *)

Lemma some_line_single_line (s : string) (ok : bool) :
  forallb (fun c => negb (is_line_terminator c)) (list_ascii_of_string s) = true ->
  some_line_of_digits ok s = ok && all_digits s.
Proof.
  unfold all_digits. revert ok. induction s as [|c r IH]; intros ok H; cbn.
  - rewrite andb_true_r. reflexivity.
  - cbn in H. apply andb_true_iff in H. destruct H as [Hc Hr].
    apply negb_true_iff in Hc. rewrite Hc, (IH _ Hr), andb_assoc. reflexivity.
Qed.

(** X25.  [isIdFormat] is true only of numbers and strings; of a string
    without line break it is true exactly when every character is a
    decimal digit (so also of the empty string, and of no string with a
    sign, a space, a dot or a letter). *)
Theorem isIdFormat_single_line (s : string) :
  forallb (fun c => negb (is_line_terminator c)) (list_ascii_of_string s) = true ->
  isIdFormat (JStr s) = all_digits s
  /\ (forall v, isIdFormat v = true ->
        (exists n, v = JNum n) \/ (exists s', v = JStr s')).
Proof.
  intros H. split.
  - cbn. rewrite (some_line_single_line s true H). reflexivity.
  - intros v Hv. destruct v; try discriminate Hv; eauto.
Qed.

Lemma isIdFormat_single_line_witness :
  isIdFormat (JStr "-12") = all_digits "-12".
Proof.
  apply (isIdFormat_single_line "-12"). reflexivity.
Defined.

(** *** Favourites *)

(** X26.  [addUserFavourite] of api.js, when the insert and the warnings
    query do not throw, answers 200 with the insert id when a row was
    inserted (insertId > 0), 200 with 0 when nothing was inserted and the
    first warning reports a duplicate entry (the venue was a favourite
    already), and 400 with an undefined response in every other case. *)
Theorem addUserFavourite_response
    (insert : jsval -> jsval -> result Favourites.InsertResult)
    (show_warnings : result (list (list (string * jsval))))
    (args r : jsval) :
  Favourites.addUserFavourite insert show_warnings args = inr r ->
  exists ins,
    insert (Accounts.field args "id") (Accounts.field args "venueId") = inr ins
    /\ r = if Favourites.insertId ins >? 0
           then formatResult responseCodes.OK
                  (JNum (Fin (Favourites.insertId ins)))
           else if (Favourites.insertId ins =? 0)
                   && (Favourites.warningCount ins >? 0)
                   && Favourites.duplicate_reported show_warnings
           then formatResult responseCodes.OK (JNum (Fin 0))
           else formatResult responseCodes.BadRequest JUndefined.
Proof.
  unfold Favourites.addUserFavourite, Favourites.dal_addUserFavourite,
    Favourites.duplicate_reported, Accounts.field.
  destruct (Accounts.destructure args) as [e|o]; [discriminate|].
  destruct (insert (get o "id") (get o "venueId")) as [e|ins]; [discriminate|].
  intros H. exists ins. split; [reflexivity|].
  destruct (Z.gtb_spec (Favourites.insertId ins) 0) as [Hpos|Hnpos].
  - destruct (Z.geb_spec (Favourites.insertId ins) 0); [|lia].
    injection H as <-. reflexivity.
  - destruct (Z.eqb_spec (Favourites.insertId ins) 0) as [Hzero|Hnz];
      cbn [andb] in H |- *.
    + destruct (Favourites.warningCount ins >? 0); cbn [andb] in H |- *.
      * destruct show_warnings as [e|[|warning rest]]; try discriminate H.
        -- injection H as <-. reflexivity.
        -- destruct (strict_eq _ _).
           ++ rewrite Hzero in H. cbn in H. injection H as <-. reflexivity.
           ++ injection H as <-. reflexivity.
      * injection H as <-. reflexivity.
    + injection H as <-. reflexivity.
Qed.

Lemma addUserFavourite_response_witness :
  exists ins,
    MoreSamples.duplicate_insert
      (Accounts.field (JObj [("id", JStr "3"); ("venueId", JStr "1")]) "id")
      (Accounts.field (JObj [("id", JStr "3"); ("venueId", JStr "1")]) "venueId")
    = inr ins
    /\ formatResult responseCodes.OK (JNum (Fin 0))
       = if Favourites.insertId ins >? 0
         then formatResult responseCodes.OK
                (JNum (Fin (Favourites.insertId ins)))
         else if (Favourites.insertId ins =? 0)
                 && (Favourites.warningCount ins >? 0)
                 && Favourites.duplicate_reported MoreSamples.duplicate_warnings
         then formatResult responseCodes.OK (JNum (Fin 0))
         else formatResult responseCodes.BadRequest JUndefined.
Proof.
  apply (addUserFavourite_response MoreSamples.duplicate_insert
           MoreSamples.duplicate_warnings
           (JObj [("id", JStr "3"); ("venueId", JStr "1")])).
  reflexivity.
Defined.
